(** * MineAI: the task execution pipeline

    A shallow embedding of the JavaScript sources of the MineAI agent:

    - [LLMInterface]  (src/ai/llmInterface.js): [parseCommand],
      [convertTasksToActions], [parseDirection], [createFallbackCommand];
    - [MinecraftBot]  (the bot control class): [getGameState],
      [moveToPosition], [mineBlock], [collectItems], [sendChat], [isAlive];
    - [TaskExecutor]  (the task executor, version dispatching [actions]):
      [executeCommand], [executeTask], the [execute...] handlers,
      [emergencyStop], [getStatus], [getExecutionHistory],
      [consultLLMForNextAction] (in [Advice]);
    - [Reply]: the parsing of the reply in [analyzeTask], and [extractJSON]
      of the earlier [LLMInterface];
    - [Console]: [handleUserInput] of the entry point (index.js).

    Conventions of the embedding.

    - A JavaScript number is a [JS.number]: an integer ([Int z]) or [NaN].
      The model is exact on integer-valued numbers of magnitude below 2^53;
      fractions and infinities are outside it.  On integer coordinates
      [Math.floor] is the identity.
    - A JavaScript string is a [string] holding the UTF-8 bytes of
      well-formed text.  Substring search on UTF-8 bytes agrees with
      [String.prototype.includes] on such text.
    - Values whose shape the code inspects at run time ([typeof], truthiness,
      destructuring) are [JS.value]s, the JSON data model plus [undefined].
    - An [async] method is a computation in the monad [Eff.M]: it threads the
      receiver ([this]), may throw, and emits the observable events of the
      run in order.  Every [await] of an external promise (pathfinder, timer,
      digging, language model) is answered by an environment oracle, which
      also says how the game world looks when the method resumes.
    - What is thrown is an [Error] with its message, or [undefined] or
      [null]: the [catch] blocks that read [error.message] throw a
      [TypeError] on the latter.
    - [console.log] output is not modelled.

    The classes come first, then concrete sessions ([Scenario]) and the
    vocabulary of the properties ([Spec], [Observe]); the lemmas
    ([EffFacts], [Facts]), the properties of the pipeline ([Properties]) and
    further properties of the classes ([Extras]) close the file. *)

From Stdlib Require Import ZArith List String Ascii Bool Lia DecimalString.
Import ListNotations.

#[local] Open Scope string_scope.
#[local] Open Scope list_scope.
#[local] Open Scope Z_scope.

(* ================================================================== *)
(** * Effects: state, exceptions, event trace *)

Module Eff.

(** [undefined] and [null], the two values that have no properties. *)
Inductive nullish : Type := Undefined | Null.

(** The completion of a method body: a normal return, or a thrown value.
    What the sources and the run time throw are [Error] objects, which
    carry a [message].  A promise of another object (the language model
    interface handed to the executor, [bot.dig]) may also be rejected with
    [undefined] or [null], on which reading [error.message] is itself a
    [TypeError]; any other thrown value behaves in a [catch] block of the
    sources as an [Error] does. *)
Inductive outcome (A : Type) : Type :=
| Ret (a : A)
| Throw (message : string)
| ThrowNullish (reason : nullish).

Arguments Ret {A} a.
Arguments Throw {A} message.
Arguments ThrowNullish {A} reason.

(** The message of the [TypeError] for reading the property [key] of
    [undefined] or [null]. *)
Definition cannot_read (reason : nullish) (key : string) : string :=
  ("Cannot read properties of "
   ++ match reason with Undefined => "undefined" | Null => "null" end
   ++ " (reading '" ++ key ++ "')")%string.

Section Monad.
(** [E] is the type of observable events, [S] the receiver's state. *)
Context {E : Type}.

Definition M (S A : Type) : Type := S -> outcome A * S * list E.

Definition ret {S A} (a : A) : M S A := fun s => (Ret a, s, []).

Definition throw {S A} (message : string) : M S A :=
  fun s => (Throw message, s, []).

Definition bind {S A B} (m : M S A) (k : A -> M S B) : M S B :=
  fun s =>
    match m s with
    | (Ret a, s1, t1) => let '(r, s2, t2) := k a s1 in (r, s2, t1 ++ t2)
    | (Throw e, s1, t1) => (Throw e, s1, t1)
    | (ThrowNullish v, s1, t1) => (ThrowNullish v, s1, t1)
    end.

Definition gets {S A} (f : S -> A) : M S A := fun s => (Ret (f s), s, []).

Definition modify {S} (f : S -> S) : M S unit := fun s => (Ret tt, f s, []).

Definition emit {S} (e : E) : M S unit := fun s => (Ret tt, s, [e]).

(** A pure expression that may throw, used inside a method. *)
Definition lift_outcome {S A} (o : outcome A) : M S A :=
  fun s => (o, s, []).

(** [try { body } catch (error) { handler error.message }]: the [catch]
    block starts by reading [error.message], which throws a [TypeError]
    when [error] is [undefined] or [null]. *)
Definition try_catch {S A} (body : M S A) (handler : string -> M S A)
  : M S A :=
  fun s =>
    match body s with
    | (Ret a, s1, t1) => (Ret a, s1, t1)
    | (Throw e, s1, t1) =>
        let '(r, s2, t2) := handler e s1 in (r, s2, t1 ++ t2)
    | (ThrowNullish v, s1, t1) => (Throw (cannot_read v "message"), s1, t1)
    end.

(** [try { body } catch (error) { handler }], for a [catch] block that
    reads no property of [error]. *)
Definition try_catch_any {S A} (body : M S A) (handler : M S A) : M S A :=
  fun s =>
    match body s with
    | (Ret a, s1, t1) => (Ret a, s1, t1)
    | (_, s1, t1) => let '(r, s2, t2) := handler s1 in (r, s2, t1 ++ t2)
    end.

(** [try { body } finally { cleanup }]: the cleanup runs on every
    completion of the body and keeps the body's completion unless it
    throws itself. *)
Definition finally {S A} (body : M S A) (cleanup : M S unit) : M S A :=
  fun s =>
    let '(r, s1, t1) := body s in
    match cleanup s1 with
    | (Ret _, s2, t2) => (r, s2, t1 ++ t2)
    | (Throw e, s2, t2) => (Throw e, s2, t1 ++ t2)
    | (ThrowNullish v, s2, t2) => (ThrowNullish v, s2, t1 ++ t2)
    end.

(** Run a method of a sub-object held in a field of the receiver. *)
Definition zoom {S T A} (get : S -> T) (set : T -> S -> S) (m : M T A)
  : M S A :=
  fun s => let '(r, t', tr) := m (get s) in (r, set t' s, tr).
End Monad.

Arguments M E S A : clear implicits.

Definition result {E S A} (x : outcome A * S * list E) : outcome A :=
  fst (fst x).
Definition final {E S A} (x : outcome A * S * list E) : S := snd (fst x).
Definition trace {E S A} (x : outcome A * S * list E) : list E := snd x.

End Eff.

Import Eff.

Declare Scope eff_scope.
Delimit Scope eff_scope with eff.
Notation "x <- m ;; k" := (bind m (fun x => k))
  (at level 61, m at next level, right associativity) : eff_scope.
Notation "m ;; k" := (bind m (fun _ => k))
  (at level 61, right associativity) : eff_scope.

(* ================================================================== *)
(** * The JavaScript data model *)

Module JS.

Inductive number : Type :=
| Int (z : Z)
| NaN.

#[local] Set Warnings "-register-all".

Inductive value : Type :=
| VUndef
| VNull
| VBool (b : bool)
| VNum (n : number)
| VStr (s : string)
| VArr (items : list value)
| VObj (fields : list (string * value)).

(** ** Numbers *)

Definition add (a b : number) : number :=
  match a, b with
  | Int x, Int y => Int (x + y)
  | _, _ => NaN
  end.

Definition neg (a : number) : number :=
  match a with
  | Int x => Int (- x)
  | NaN => NaN
  end.

(** [a >= b]: false as soon as an operand is [NaN]. *)
Definition geb (a b : number) : bool :=
  match a, b with
  | Int x, Int y => y <=? x
  | _, _ => false
  end.

(** ** Strings *)

Definition is_digit (c : ascii) : bool :=
  let n := Z.of_nat (nat_of_ascii c) in (48 <=? n) && (n <=? 57).

Definition digit_value (c : ascii) : Z := Z.of_nat (nat_of_ascii c) - 48.

(** White space of the numeric-string grammar, ASCII part. *)
Definition is_space (c : ascii) : bool :=
  let n := Z.of_nat (nat_of_ascii c) in
  ((9 <=? n) && (n <=? 13)) || (n =? 32).

(** [String.prototype.toLowerCase] on the ASCII letters.  The keyword
    tables below are Japanese text and lower-case ASCII words; no other
    character lower-cases into one of their letters except the Kelvin sign
    (into [k]), which the model leaves unchanged. *)
Definition lower_ascii (c : ascii) : ascii :=
  let n := nat_of_ascii c in
  if (65 <=? Z.of_nat n) && (Z.of_nat n <=? 90)
  then ascii_of_nat (n + 32) else c.

Fixpoint toLowerCase (s : string) : string :=
  match s with
  | EmptyString => EmptyString
  | String c s' => String (lower_ascii c) (toLowerCase s')
  end.

(** [s.includes(sub)] *)
Fixpoint includes (s sub : string) : bool :=
  prefix sub s ||
  match s with
  | EmptyString => false
  | String _ s' => includes s' sub
  end.

(** [s.match(/\d+/g)]: the maximal runs of ASCII digits from left to
    right, or [null] ([None]) when there is none. *)
Fixpoint digit_runs (s run : string) : list string :=
  match s with
  | EmptyString => if (run =? EmptyString)%string then [] else [run]
  | String c s' =>
      if is_digit c then digit_runs s' (run ++ String c EmptyString)%string
      else (if (run =? EmptyString)%string then [] else [run])
           ++ digit_runs s' EmptyString
  end.

Definition match_digits (s : string) : option (list string) :=
  match digit_runs s EmptyString with
  | [] => None
  | runs => Some runs
  end.

Fixpoint digits_value (s : string) (acc : Z) : Z :=
  match s with
  | EmptyString => acc
  | String c s' => digits_value s' (10 * acc + digit_value c)
  end.

Fixpoint all_digits (s : string) : bool :=
  match s with
  | EmptyString => true
  | String c s' => is_digit c && all_digits s'
  end.

Fixpoint leading_digits (s : string) : string :=
  match s with
  | EmptyString => EmptyString
  | String c s' =>
      if is_digit c then String c (leading_digits s') else EmptyString
  end.

Fixpoint drop_spaces (s : string) : string :=
  match s with
  | EmptyString => EmptyString
  | String c s' => if is_space c then drop_spaces s' else s
  end.

(** [parseInt(s)] in radix 10: leading white space, then the longest
    prefix of decimal digits; [NaN] without a digit.  (Signs and the [0x]
    prefix do not occur in the one call of the source, whose argument is a
    run of digits.) *)
Definition parseInt (s : string) : number :=
  let d := leading_digits (drop_spaces s) in
  if (d =? EmptyString)%string then NaN else Int (digits_value d 0).

Definition string_of_Z (z : Z) : string :=
  NilZero.string_of_int (Z.to_int z).

Definition string_of_number (n : number) : string :=
  match n with
  | Int z => string_of_Z z
  | NaN => "NaN"
  end.

Fixpoint rev_string (s acc : string) : string :=
  match s with
  | EmptyString => acc
  | String c s' => rev_string s' (String c acc)
  end.

Definition trim (s : string) : string :=
  rev_string (drop_spaces (rev_string (drop_spaces s) EmptyString)) EmptyString.

(** [Number(s)] on a string: white space is trimmed; the empty string is
    0; an optionally signed run of decimal digits is its value; anything
    else that the model can hold is [NaN].  (Fractions, exponents, radix
    prefixes and [Infinity] denote numbers outside the model.) *)
Definition StringToNumber (s : string) : number :=
  match trim s with
  | EmptyString => Int 0
  | String c s' =>
      let digits := all_digits s' && negb (s' =? EmptyString)%string in
      if (Ascii.eqb c "-") && digits
      then Int (- digits_value s' 0)
      else if (Ascii.eqb c "+") && digits
      then Int (digits_value s' 0)
      else if all_digits (String c s') then Int (digits_value (String c s') 0)
      else NaN
  end.

(** ** Values *)

(** Truthiness, as tested by [if], [!], [||], [&&] and [?:]. *)
Definition truthy (v : value) : bool :=
  match v with
  | VUndef | VNull => false
  | VBool b => b
  | VNum (Int z) => negb (z =? 0)
  | VNum NaN => false
  | VStr s => negb (s =? EmptyString)%string
  | VArr _ | VObj _ => true
  end.

(** [a || b] *)
Definition or_else (a b : value) : value := if truthy a then a else b.

Definition typeof_number (v : value) : bool :=
  match v with VNum _ => true | _ => false end.

(** [typeof v === 'object'], which holds of [null] too. *)
Definition typeof_object (v : value) : bool :=
  match v with VNull | VArr _ | VObj _ => true | _ => false end.

Definition is_undefined (v : value) : bool :=
  match v with VUndef => true | _ => false end.

Fixpoint lookup (k : string) (fields : list (string * value)) : value :=
  match fields with
  | [] => VUndef
  | (k', v) :: rest => if (k =? k')%string then v else lookup k rest
  end.

(** Property read [v.k] for a key [k] that no prototype defines (every key
    read by the sources is such): a [TypeError] on [undefined] and [null],
    the own field of an object (objects hold each key once), [undefined]
    on every other value. *)
Definition get (k : string) (v : value) : outcome value :=
  match v with
  | VUndef =>
      Throw ("Cannot read properties of undefined (reading '" ++ k
             ++ "')")%string
  | VNull =>
      Throw ("Cannot read properties of null (reading '" ++ k ++ "')")%string
  | VObj fields => Ret (lookup k fields)
  | _ => Ret VUndef
  end.

(** Optional chaining [v?.k] *)
Definition get_opt (k : string) (v : value) : value :=
  match v with
  | VObj fields => lookup k fields
  | _ => VUndef
  end.

(** Destructuring default [{ k = d } = v]: the default replaces
    [undefined] only. *)
Definition default_to (d v : value) : value :=
  match v with VUndef => d | _ => v end.

Fixpoint join (sep : string) (parts : list string) : string :=
  match parts with
  | [] => EmptyString
  | [p] => p
  | p :: rest => (p ++ sep ++ join sep rest)%string
  end.

(** [String(v)] *)
Fixpoint ToString (v : value) : string :=
  match v with
  | VUndef => "undefined"
  | VNull => "null"
  | VBool b => if b then "true" else "false"
  | VNum n => string_of_number n
  | VStr s => s
  | VArr items =>
      join ","
        (map (fun x => match x with
                       | VUndef | VNull => EmptyString
                       | _ => ToString x
                       end) items)
  | VObj _ => "[object Object]"
  end.

(** [Number(v)], the coercion applied by unary minus and by comparisons. *)
Definition ToNumber (v : value) : number :=
  match v with
  | VUndef => NaN
  | VNull => Int 0
  | VBool b => Int (if b then 1 else 0)
  | VNum n => n
  | VStr s => StringToNumber s
  | VArr _ | VObj _ => StringToNumber (ToString v)
  end.

Definition num (z : Z) : value := VNum (Int z).

End JS.

Import JS.

(* ================================================================== *)
(** * Data shared by the three classes *)

(** An element of [parsedCommand.actions]: [{ action, params }].  The
    executor also accepts the older spelling [parameters] of the second
    field; an absent field is [VUndef]. *)
Record Action : Type := {
  action : string;
  params : value;
  parameters : value
}.

(** The object returned by [LLMInterface.parseCommand]. *)
Record ParsedCommand : Type := {
  success : bool;
  actions : list Action;
  reasoning : value;
  originalInput : string;
  fallback : bool;
  error : option string
}.

Record Vec3 : Type := { vx : Z; vy : Z; vz : Z }.

(** [pos.offset(dx, dy, dz)] *)
Definition offset (p : Vec3) (dx dy dz : Z) : Vec3 :=
  {| vx := vx p + dx; vy := vy p + dy; vz := vz p + dz |}.

(** The square of [a.distanceTo(b)]; the distance itself is its square
    root, so [distanceTo > r] is [r * r < distance2] and
    [Math.floor(distanceTo)] is [Z.sqrt distance2]. *)
Definition distance2 (a b : Vec3) : Z :=
  (vx a - vx b) * (vx a - vx b) + (vy a - vy b) * (vy a - vy b)
  + (vz a - vz b) * (vz a - vz b).

(** Goals of mineflayer-pathfinder built by the bot. *)
Inductive Goal : Type :=
| GoalBlock (x y z : number)
| GoalLookAtBlock (pos : Vec3).

Record Block : Type := { block_name : string; block_position : Vec3 }.

Record Item : Type := {
  item_name : string;
  item_displayName : string;
  item_count : Z;
  item_slot : Z
}.

(** [entity.metadata[8]] of a dropped item: [{ present, value: { name } }]. *)
Record ItemMetadata : Type := { present : bool; value_name : string }.

(** An entry of [bot.entities].  [entity_id] stands for the identity of
    the object ([entity === this.bot.entity]); [entity_name] and
    [entity_username] are [None] when the property is undefined. *)
Record Entity : Type := {
  entity_id : Z;
  entity_type : string;
  entity_name : option string;
  entity_username : option string;
  entity_metadata8 : option ItemMetadata;
  entity_position : Vec3
}.

(** The mineflayer bot object ([MinecraftBot.bot]) with the pathfinder
    plugin loaded: the part of the game session the sources read, and the
    goal currently set on the pathfinder. *)
Record Mineflayer : Type := {
  entity : Entity;
  health : Z;
  food : Z;
  inventory_items : list Item;
  entities : list Entity;                  (* Object.values(bot.entities) *)
  blockAt : Vec3 -> option Block;
  findBlocks : (Block -> bool) -> Z -> Z -> list Vec3;
  timeOfDay : Z;
  isRaining : bool;
  pathfinder_goal : option Goal
}.

Definition setGoal (g : option Goal) (w : Mineflayer) : Mineflayer :=
  {| entity := entity w; health := health w; food := food w;
     inventory_items := inventory_items w; entities := entities w;
     blockAt := blockAt w; findBlocks := findBlocks w;
     timeOfDay := timeOfDay w; isRaining := isRaining w;
     pathfinder_goal := g |}.

Record NearbyBlock : Type := { nb_name : string; nb_position : Vec3 }.

Record NearbyEntity : Type := {
  ne_type : string;
  ne_name : string;
  ne_position : Vec3;
  ne_distance : Z
}.

(** The snapshot returned by [MinecraftBot.getGameState]. *)
Record GameState : Type := {
  position : Vec3;
  gs_health : Z;
  gs_food : Z;
  inventory : list Item;
  nearbyBlocks : list NearbyBlock;
  nearbyEntities : list NearbyEntity;
  time : Z;
  weather : string
}.

(** Observable events of a run, in the order in which they happen. *)
Inductive Event : Type :=
| Dispatch (a : Action)            (* executeCommand calls executeTask(a) *)
| Completed (ok : bool)            (* ... and the awaited call resolves *)
| Wait (ms : Z)                    (* TaskExecutor.wait(ms) *)
| SetGoal (g : option Goal)        (* bot.pathfinder.setGoal(g) *)
| AwaitGoal (ms : Z) (reached : bool)
                                   (* 'goal_reached' raced with a timer *)
| Dig (target : option Block)      (* bot.dig(target) *)
| Chat (message : value)           (* bot.chat(message) *)
| BotWait (ms : Z)                 (* MinecraftBot.wait(ms) *)
| Ask (instruction : string).      (* the request to the language model *)

(** What the outside world answers at each [await] of an external
    promise.  Every answer comes with the game session as it is when the
    method resumes and with [true] if a ['kicked'] or ['end'] event was
    delivered meanwhile. *)
Record Environment : Type := {
  (** the ['goal_reached'] event fires before a timer of [ms] does *)
  await_goal : Z -> Mineflayer -> bool * (Mineflayer * bool);
  (** a timer of [ms] fires *)
  await_timer : Z -> Mineflayer -> Mineflayer * bool;
  (** [bot.dig(target)] resolves, or rejects *)
  await_dig : option Block -> Mineflayer -> outcome unit * (Mineflayer * bool);
  (** [LLMInterface.analyzeTask]: the remote call and the parsing of its
      reply yield a JSON value, or throw *)
  llm_reply : string -> GameState -> outcome value;
  (** ... while the game goes on *)
  await_llm : Mineflayer -> Mineflayer * bool
}.

(* ================================================================== *)
(** * MinecraftBot: the bot control class *)

Module MinecraftBot.

(** The fields of a [MinecraftBot] that its methods read or write:
    [this.bot] ([null] before [connect] and after [disconnect]) and
    [this.isConnected]. *)
Record t : Type := {
  bot : option Mineflayer;
  isConnected : bool
}.

Definition M := Eff.M Event t.

Definition not_connected : string := "ボットが接続されていません".

(** [!this.bot || !this.isConnected] *)
Definition unavailable (b : t) : bool :=
  match bot b with
  | None => true
  | Some _ => negb (isConnected b)
  end.

(** Reading through [this.bot], a [TypeError] when it is [null]. *)
Definition world {A} (f : Mineflayer -> A) : M A :=
  fun b =>
    match bot b with
    | None => (Throw "Cannot read properties of null", b, [])
    | Some w => (Ret (f w), b, [])
    end.

(** The event handlers installed by [setupEventHandlers] run while a
    method is suspended: ['kicked'] and ['end'] clear [isConnected]. *)
Definition resume (b : t) (w : Mineflayer) (lost : bool) : t :=
  {| bot := Some w; isConnected := isConnected b && negb lost |}.

(** [this.bot.pathfinder.setGoal(g)] *)
Definition pathfinder_setGoal (g : option Goal) : M unit :=
  fun b =>
    match bot b with
    | None => (Throw "Cannot read properties of null", b, [])
    | Some w =>
        (Ret tt, {| bot := Some (setGoal g w); isConnected := isConnected b |},
         [SetGoal g])
    end.

Section Methods.
Variable env : Environment.

(** [new Promise(resolve => { setTimeout(..., ms);
    this.bot.once('goal_reached', ...) })]: [true] when the event wins. *)
Definition goal_reached_within (ms : Z) : M bool :=
  fun b =>
    match bot b with
    | None => (Throw "Cannot read properties of null", b, [])
    | Some w =>
        let '(reached, (w', lost)) := await_goal env ms w in
        (Ret reached, resume b w' lost, [AwaitGoal ms reached])
    end.

(** [this.bot.dig(target)] *)
Definition dig (target : option Block) : M unit :=
  fun b =>
    match bot b with
    | None => (Throw "Cannot read properties of null", b, [])
    | Some w =>
        let '(r, (w', lost)) := await_dig env target w in
        (r, resume b w' lost, [Dig target])
    end.

(** The game goes on during a timer of [ms]. *)
Definition sleep (ms : Z) (b : t) : t :=
  match bot b with
  | None => b
  | Some w => let '(w', lost) := await_timer env ms w in resume b w' lost
  end.

(** [wait(ms)] *)
Definition wait (ms : Z) : M unit :=
  fun b => (Ret tt, sleep ms b, [BotWait ms]).

(** ** State queries *)

Definition getInventoryItems (b : t) : list Item :=
  match bot b with
  | None => []
  | Some w => inventory_items w
  end.

(** The integers from [lo] to [hi], in increasing order. *)
Definition range (lo hi : Z) : list Z :=
  map (fun i => lo + Z.of_nat i) (seq 0 (Z.to_nat (hi - lo + 1))).

Definition getNearbyBlocks (radius : Z) (b : t) : list NearbyBlock :=
  match bot b with
  | None => []
  | Some w =>
      let pos := entity_position (entity w) in
      let maxBlocks := 50 in
      let below (blocks : list NearbyBlock) :=
        Z.of_nat (List.length blocks) <? maxBlocks in
      fold_left (fun blocks x =>
        if below blocks then
        fold_left (fun blocks y =>
          if below blocks then
          fold_left (fun blocks z =>
            if below blocks then
              match blockAt w (offset pos x y z) with
              | Some block =>
                  if negb (block_name block =? "air")%string
                  then blocks ++ [{| nb_name := block_name block;
                                     nb_position := block_position block |}]
                  else blocks
              | None => blocks
              end
            else blocks)
            (range (- radius) radius) blocks
          else blocks)
          (range (-2) 2) blocks
        else blocks)
        (range (- radius) radius) []
  end.

(** [a || b] on optional strings: the empty string is falsy too. *)
Definition or_string (a : option string) (b : option string)
  : option string :=
  match a with
  | Some s => if (s =? EmptyString)%string then b else a
  | None => b
  end.

(** [distance <= radius] is compared on the squares ([radius] is 10). *)
Definition getNearbyEntities (radius : Z) (b : t) : list NearbyEntity :=
  match bot b with
  | None => []
  | Some w =>
      let found :=
        fold_left (fun acc e =>
          if entity_id e =? entity_id (entity w) then acc
          else
            let d2 := distance2 (entity_position (entity w))
                        (entity_position e) in
            if d2 <=? radius * radius then
              acc ++ [{| ne_type := entity_type e;
                         ne_name :=
                           match or_string (entity_username e)
                                   (entity_name e) with
                           | Some s =>
                               if (s =? EmptyString)%string
                               then entity_type e else s
                           | None => entity_type e
                           end;
                         ne_position := entity_position e;
                         ne_distance := Z.sqrt d2 |}]
            else acc)
          (entities w) [] in
      firstn 20 found
  end.

Definition getGameState (b : t) : option GameState :=
  match bot b with
  | None => None
  | Some w =>
      if negb (isConnected b) then None
      else Some {| position := entity_position (entity w);
                   gs_health := health w;
                   gs_food := food w;
                   inventory := getInventoryItems b;
                   nearbyBlocks := getNearbyBlocks 5 b;
                   nearbyEntities := getNearbyEntities 10 b;
                   time := timeOfDay w;
                   weather := if isRaining w then "rain" else "clear" |}
  end.

(** [this.bot && this.isConnected && this.bot.health > 0], as tested by
    [!this.bot.isAlive()]. *)
Definition isAlive (b : t) : bool :=
  match bot b with
  | None => false
  | Some w => isConnected b && (0 <? health w)
  end.

(** ** Actions *)

Definition moveToPosition (x y z : number) : M bool :=
  (b <- gets (fun b => b) ;;
   if unavailable b then throw not_connected
   else
     pathfinder_setGoal (Some (GoalBlock x y z)) ;;
     reached <- goal_reached_within 30000 ;;
     if reached then ret true
     else pathfinder_setGoal None ;; ret false)%eff.

(** The body of [for (const blockPos of blocks.slice(0, 3))]: the [try]
    block returns [true] from the method, the [catch] block continues
    with the next position. *)
Fixpoint mine_each (blocks : list Vec3) : M bool :=
  match blocks with
  | [] => ret false
  | blockPos :: rest =>
      (broken <-
         try_catch
           (targetBlock <- world (fun w => blockAt w blockPos) ;;
            pathfinder_setGoal (Some (GoalLookAtBlock blockPos)) ;;
            _ <- goal_reached_within 5000 ;;
            dig targetBlock ;;
            ret true)
           (fun _ => ret false) ;;
       if broken : bool then ret true else mine_each rest)%eff
  end.

(** [block.name === blockType] *)
Definition name_is (blockType : value) (block : Block) : bool :=
  match blockType with
  | VStr s => (block_name block =? s)%string
  | _ => false
  end.

Definition mineBlock (blockType : value) : M bool :=
  (b <- gets (fun b => b) ;;
   if unavailable b then throw not_connected
   else
     blocks <- world (fun w => findBlocks w (name_is blockType) 32 10) ;;
     if (Z.of_nat (List.length blocks) =? 0) then ret false
     else mine_each (firstn 3 blocks))%eff.

(** [!metadata || !metadata.present ||
     !metadata.value.name.includes(itemType)] *)
Definition filtered_out (itemType : value) (e : Entity) : bool :=
  match entity_metadata8 e with
  | None => true
  | Some metadata =>
      negb (present metadata)
      || negb (includes (value_name metadata) (ToString itemType))
  end.

(** The loop of [collectItems] over the entity objects listed when it
    starts, read as they were then; [collected] is the running count.
    An entity is counted once the bot has walked towards it, whether the
    goal was reached or the 10 s timer fired. *)
Fixpoint collect_each (itemType amount : value) (ents : list Entity)
    (collected : Z) : M Z :=
  match ents with
  | [] => ret collected
  | e :: rest =>
      if negb (match entity_name e with
               | Some n => (n =? "item")%string
               | None => false
               end)
      then collect_each itemType amount rest collected
      else if geb (Int collected) (ToNumber amount) then ret collected
      else if truthy itemType && filtered_out itemType e
      then collect_each itemType amount rest collected
      else
        (collected' <-
           try_catch
             (own <- world (fun w => entity_position (entity w)) ;;
              if 32 * 32 <? distance2 own (entity_position e)
              then ret collected
              else
                pathfinder_setGoal
                  (Some (GoalBlock (Int (vx (entity_position e)))
                                   (Int (vy (entity_position e)))
                                   (Int (vz (entity_position e))))) ;;
                _ <- goal_reached_within 10000 ;;
                wait 1000 ;;
                ret (collected + 1))
             (fun _ => ret collected) ;;
         collect_each itemType amount rest collected')%eff
  end.

(** [collectItems(itemType = null, amount = 1)] *)
Definition collectItems (itemType amount : value) : M Z :=
  let itemType := default_to VNull itemType in
  let amount := default_to (num 1) amount in
  (b <- gets (fun b => b) ;;
   if unavailable b then throw not_connected
   else
     ents <- world entities ;;
     collect_each itemType amount ents 0)%eff.

Definition sendChat (message : value) : M unit :=
  (b <- gets (fun b => b) ;;
   if unavailable b then throw not_connected
   else emit (Chat message))%eff.

Definition disconnect (b : t) : t :=
  match bot b with
  | None => b
  | Some _ => {| bot := None; isConnected := false |}
  end.
End Methods.

End MinecraftBot.

(* ================================================================== *)
(** * LLMInterface: from an instruction to a list of actions *)

Module LLMInterface.

Definition obj (fields : list (string * value)) : value := VObj fields.

Definition mkAction (name : string) (fields : list (string * value))
  : Action :=
  {| action := name; params := obj fields; parameters := VUndef |}.

(** [parseDirection(direction, distance = 1)].  [direction.toLowerCase()]
    is a [TypeError] unless [direction] is a string. *)
Definition parseDirection (direction distance : value) : outcome value :=
  let distance := default_to (num 1) distance in
  match direction with
  | VStr d =>
      let dir := toLowerCase d in
      let minus := VNum (neg (ToNumber distance)) in
      Ret
        (if includes dir "前" || includes dir "forward"
            || includes dir "まっすぐ"
         then obj [("x", distance); ("y", num 0); ("z", num 0)]
         else if includes dir "後" || includes dir "back"
         then obj [("x", minus); ("y", num 0); ("z", num 0)]
         else if includes dir "右" || includes dir "right"
         then obj [("x", num 0); ("y", num 0); ("z", distance)]
         else if includes dir "左" || includes dir "left"
         then obj [("x", num 0); ("y", num 0); ("z", minus)]
         else if includes dir "上" || includes dir "up"
         then obj [("x", num 0); ("y", distance); ("z", num 0)]
         else if includes dir "下" || includes dir "down"
         then obj [("x", num 0); ("y", minus); ("z", num 0)]
         else obj [("x", distance); ("y", num 0); ("z", num 0)])
  | _ => Throw "direction.toLowerCase is not a function"
  end.

(** Sequencing of pure expressions that may throw. *)
Definition and_then {A B} (o : outcome A) (k : A -> outcome B) : outcome B :=
  match o with
  | Ret a => k a
  | Throw e => Throw e
  | ThrowNullish v => ThrowNullish v
  end.

(** [task.details?.amount || 1] *)
Definition amount_or_1 (details : value) : value :=
  or_else (get_opt "amount" details) (num 1).

(** One iteration of the loop of [convertTasksToActions]: the actions
    pushed for [task] (one, or none for an unknown type). *)
Definition convertTask (task : value) : outcome (list Action) :=
  and_then (get "type" task) (fun type =>
  and_then (get "target" task) (fun target =>
  and_then (get "details" task) (fun details =>
  match type with
  | VStr "move" =>
      and_then
        (if typeof_object target
         then and_then (get "x" target)
                (fun x => Ret (negb (is_undefined x)))
         else Ret false)
        (fun absolute : bool =>
           if absolute then
             Ret [mkAction "move"
                    [("x", get_opt "x" target);
                     ("y", or_else (get_opt "y" target) (num 64));
                     ("z", get_opt "z" target)]]
           else if truthy details && truthy (get_opt "direction" details)
           then
             and_then
               (parseDirection (get_opt "direction" details)
                  (or_else (get_opt "distance" details) (num 1)))
               (fun direction =>
                  Ret [{| action := "moveRelative"; params := direction;
                          parameters := VUndef |}])
           else
             Ret [mkAction "moveRelative"
                    [("x", num 1); ("y", num 0); ("z", num 0)]])
  | VStr "dig" | VStr "mine" =>
      Ret [mkAction "mine"
             [("blockType", target); ("amount", amount_or_1 details)]]
  | VStr "collect" =>
      Ret [mkAction "collect"
             [("itemType", target); ("amount", amount_or_1 details)]]
  | VStr "place" =>
      Ret [mkAction "place"
             [("blockType", target);
              ("position", or_else (get_opt "position" details) VNull)]]
  | VStr "craft" =>
      Ret [mkAction "craft"
             [("item", target); ("amount", amount_or_1 details)]]
  | VStr "chat" =>
      Ret [mkAction "chat"
             [("message",
               or_else target
                 (or_else (get_opt "message" details)
                    (VStr "こんにちは")))]]
  | _ => Ret []
  end))).

(** The elements visited by [for (const task of tasks)]: those of an
    array; the characters of a string (one entry per byte here: each is a
    string, on which [convertTask] pushes nothing); a [TypeError] for a
    value that is not iterable. *)
Definition iterate (tasks : value) : outcome (list value) :=
  match tasks with
  | VArr items => Ret items
  | VStr s =>
      Ret (map (fun c => VStr (String c EmptyString))
             (list_ascii_of_string s))
  | _ => Throw "tasks is not iterable"
  end.

Fixpoint convertTasks (tasks : list value) (actions : list Action)
  : outcome (list Action) :=
  match tasks with
  | [] => Ret actions
  | task :: rest =>
      and_then (convertTask task) (fun pushed =>
        convertTasks rest (actions ++ pushed))
  end.

Definition convertTasksToActions (tasks : value) : outcome (list Action) :=
  and_then (iterate tasks) (fun items => convertTasks items []).

(** [createFallbackCommand(instruction)], the keyword parser used when the
    call to the language model fails. *)
Definition createFallbackCommand (instruction : string) : ParsedCommand :=
  let input := toLowerCase instruction in
  if includes input "歩" || includes input "進" || includes input "移動"
  then
    let numbers := match_digits instruction in
    let distance :=
      match numbers with
      | Some (first :: _) => parseInt first
      | Some [] => NaN
      | None => Int 1
      end in
    {| success := true;
       actions := [mkAction "moveRelative"
                     [("x", VNum distance); ("y", num 0); ("z", num 0)]];
       reasoning :=
         VStr (string_of_number distance ++ "ブロック前進します")%string;
       originalInput := instruction;
       fallback := true;
       error := None |}
  else if includes input "チャット" || includes input "話"
          || includes input "言"
  then
    {| success := true;
       actions := [mkAction "chat" [("message", VStr "こんにちは！")]];
       reasoning := VStr "チャットでメッセージを送信します";
       originalInput := instruction;
       fallback := true;
       error := None |}
  else if includes input "掘" || includes input "採掘"
          || includes input "mine"
  then
    {| success := true;
       actions := [mkAction "mine"
                     [("blockType", VStr "any"); ("amount", num 1)]];
       reasoning := VStr "ブロックを採掘します";
       originalInput := instruction;
       fallback := true;
       error := None |}
  else
    {| success := false;
       actions := [mkAction "chat"
                     [("message",
                       VStr "すみません、指示を理解できませんでした")]];
       reasoning := VStr "指示が不明確です";
       originalInput := instruction;
       fallback := true;
       error := Some "指示を理解できませんでした" |}.

Section Remote.
Variable env : Environment.

(** [analyzeTask(instruction, context)]: the request to the model, the
    game going on meanwhile, and the parsed reply or the error thrown. *)
Definition analyzeTask (instruction : string) (context : GameState)
  : MinecraftBot.M value :=
  fun b =>
    (llm_reply env instruction context,
     match MinecraftBot.bot b with
     | None => b
     | Some w =>
         let '(w', lost) := await_llm env w in MinecraftBot.resume b w' lost
     end,
     [Ask instruction]).

(** [parseCommand(instruction, context)] *)
Definition parseCommand (instruction : string) (context : GameState)
  : MinecraftBot.M ParsedCommand :=
  try_catch_any
    (analysisResult <- analyzeTask instruction context ;;
     tasks <- lift_outcome (get "tasks" analysisResult) ;;
     actions <-
       lift_outcome (convertTasksToActions (or_else tasks (VArr []))) ;;
     reasoning <- lift_outcome (get "reasoning" analysisResult) ;;
     ret {| success := true;
            actions := actions;
            reasoning := or_else reasoning (VStr EmptyString);
            originalInput := instruction;
            fallback := false;
            error := None |})%eff
    (ret (createFallbackCommand instruction)).
End Remote.

End LLMInterface.

(* ================================================================== *)
(** * TaskExecutor: the task execution pipeline *)

Module TaskExecutor.

(** An entry of [executionHistory]. *)
Record HistoryEntry : Type := {
  input : string;
  tasks : list Action;
  successCount : Z;
  timestamp : string
}.

(** The fields of a [TaskExecutor].  [bot] is the [MinecraftBot] handed to
    the constructor (an object, so [this.bot] is truthy); [llm] is the
    section variable below. *)
Record t : Type := {
  bot : MinecraftBot.t;
  taskQueue : list Action;
  isExecuting : bool;
  executionHistory : list HistoryEntry
}.

Record ExecutorStatus : Type := {
  status_isExecuting : bool;
  queueLength : Z;
  historyCount : Z
}.

Definition M := Eff.M Event t.

Definition set_bot (b : MinecraftBot.t) (s : t) : t :=
  {| bot := b; taskQueue := taskQueue s; isExecuting := isExecuting s;
     executionHistory := executionHistory s |}.

Definition set_isExecuting (v : bool) (s : t) : t :=
  {| bot := bot s; taskQueue := taskQueue s; isExecuting := v;
     executionHistory := executionHistory s |}.

Definition set_taskQueue (q : list Action) (s : t) : t :=
  {| bot := bot s; taskQueue := q; isExecuting := isExecuting s;
     executionHistory := executionHistory s |}.

Definition push_history (e : HistoryEntry) (s : t) : t :=
  {| bot := bot s; taskQueue := taskQueue s; isExecuting := isExecuting s;
     executionHistory := executionHistory s ++ [e] |}.

(** A call [this.bot.method(...)]. *)
Definition on_bot {A} (m : MinecraftBot.M A) : M A := zoom bot set_bot m.

Section Methods.
Variable env : Environment.

(** [this.llm.parseCommand]: any object with such a method; it resolves
    to a parsed command or to [null], or rejects. *)
Variable llm_parseCommand :
  string -> GameState -> MinecraftBot.M (option ParsedCommand).

(** [new Date().toISOString()] *)
Variable toISOString_now : t -> string.

(** ** The handlers of the action kinds *)

Definition executeMove (params : value) : M bool :=
  (x <- lift_outcome (get "x" params) ;;
   y <- lift_outcome (get "y" params) ;;
   z <- lift_outcome (get "z" params) ;;
   match x, y, z with
   | VNum x, VNum y, VNum z => on_bot (MinecraftBot.moveToPosition env x y z)
   | _, _, _ => ret false
   end)%eff.

Definition executeMoveRelative (params : value) : M bool :=
  (x <- lift_outcome (get "x" params) ;;
   y <- lift_outcome (get "y" params) ;;
   z <- lift_outcome (get "z" params) ;;
   match x, y, z with
   | VNum x, VNum y, VNum z =>
       currentPos <-
         on_bot (MinecraftBot.world (fun w => entity_position (entity w))) ;;
       let targetX := add (Int (vx currentPos)) x in
       let targetY := add (Int (vy currentPos)) y in
       let targetZ := add (Int (vz currentPos)) z in
       on_bot (MinecraftBot.moveToPosition env targetX targetY targetZ)
   | _, _, _ => ret false
   end)%eff.

Definition executeMine (params : value) : M bool :=
  (blockType <- lift_outcome (get "blockType" params) ;;
   if negb (truthy blockType) then ret false
   else on_bot (MinecraftBot.mineBlock env blockType))%eff.

Definition executeCollect (params : value) : M bool :=
  (itemType <- lift_outcome (get "itemType" params) ;;
   amount <- lift_outcome (get "amount" params) ;;
   let amount := default_to (num 1) amount in
   collected <- on_bot (MinecraftBot.collectItems env itemType amount) ;;
   ret (0 <? collected))%eff.

Definition executeChat (params : value) : M bool :=
  (message <- lift_outcome (get "message" params) ;;
   if negb (truthy message) then ret false
   else on_bot (MinecraftBot.sendChat message) ;; ret true)%eff.

Definition executePlace (params : value) : M bool := ret false.

Definition executeCraft (params : value) : M bool := ret false.

(** ** [executeTask(task)] *)
Definition executeTask (task : Action) : M bool :=
  (alive <- gets (fun s => MinecraftBot.isAlive (bot s)) ;;
   if negb alive then ret false
   else
     try_catch
       (let p := or_else (params task) (parameters task) in
        if (action task =? "move")%string then executeMove p
        else if (action task =? "moveRelative")%string
        then executeMoveRelative p
        else if (action task =? "mine")%string then executeMine p
        else if (action task =? "collect")%string then executeCollect p
        else if (action task =? "chat")%string then executeChat p
        else if (action task =? "place")%string then executePlace p
        else if (action task =? "craft")%string then executeCraft p
        else ret false)
       (fun _ => ret false))%eff.

(** [wait(ms)] *)
Definition wait (ms : Z) : M unit :=
  fun s => (Ret tt, set_bot (MinecraftBot.sleep env ms (bot s)) s, [Wait ms]).

(** ** [executeCommand(userInput)] *)

(** The loop [for (let i = 0; i < actions.length; i++)], entered at index
    [i] with the actions from [i] on still to run; [len] is
    [actions.length]. *)
Fixpoint dispatch (len i : Z) (rest : list Action) (successCount : Z)
  : M Z :=
  match rest with
  | [] => ret successCount
  | a :: rest' =>
      (emit (Dispatch a) ;;
       success <- executeTask a ;;
       emit (Completed success) ;;
       let successCount :=
         if success : bool then successCount + 1 else successCount in
       (if i <? len - 1 then wait 1000 else ret tt) ;;
       dispatch len (i + 1) rest' successCount)%eff
  end.

(** The body of the [try] block; the checks of the action names and
    parameters between the parse and the loop only write to the log. *)
Definition executeCommand_body (userInput : string) : M bool :=
  (modify (set_isExecuting true) ;;
   gameState <- gets (fun s => MinecraftBot.getGameState (bot s)) ;;
   match gameState with
   | None => ret false
   | Some gameState =>
       parsedCommand <- on_bot (llm_parseCommand userInput gameState) ;;
       match parsedCommand with
       | None => ret false
       | Some parsedCommand =>
           let len := Z.of_nat (List.length (actions parsedCommand)) in
           if len =? 0 then ret false
           else
             successCount <- dispatch len 0 (actions parsedCommand) 0 ;;
             stamp <- gets toISOString_now ;;
             modify (push_history
                       {| input := userInput;
                          tasks := actions parsedCommand;
                          successCount := successCount;
                          timestamp := stamp |}) ;;
             ret (0 <? successCount)
       end
   end)%eff.

Definition executeCommand (userInput : string) : M bool :=
  (executing <- gets isExecuting ;;
   if executing : bool then ret false
   else
     finally
       (try_catch (executeCommand_body userInput) (fun _ => ret false))
       (modify (set_isExecuting false)))%eff.

(** ** Queries and controls *)

(** [array.slice(start)] *)
Definition slice {A} (start : Z) (l : list A) : list A :=
  let len := Z.of_nat (List.length l) in
  let from := if start <? 0 then Z.max (len + start) 0
              else Z.min start len in
  skipn (Z.to_nat from) l.

(** [getExecutionHistory(limit = 10)] *)
Definition getExecutionHistory (limit : Z) (s : t) : list HistoryEntry :=
  slice (- limit) (executionHistory s).

Definition getStatus (s : t) : ExecutorStatus :=
  {| status_isExecuting := isExecuting s;
     queueLength := Z.of_nat (List.length (taskQueue s));
     historyCount := Z.of_nat (List.length (executionHistory s)) |}.

Definition clearQueue : M unit := modify (set_taskQueue []).

(** [emergencyStop()] *)
Definition emergencyStop : M unit :=
  (modify (set_isExecuting false) ;;
   modify (set_taskQueue []) ;;
   has_bot <- gets (fun s => match MinecraftBot.bot (bot s) with
                             | Some _ => true
                             | None => false
                             end) ;;
   if has_bot : bool then on_bot (MinecraftBot.pathfinder_setGoal None)
   else ret tt)%eff.
End Methods.

(** The executor as wired by the application: its [llm] is the
    [LLMInterface], whose [parseCommand] always resolves to an object. *)
Definition llm_of (env : Environment)
  : string -> GameState -> MinecraftBot.M (option ParsedCommand) :=
  fun instruction context =>
    (parsed <- LLMInterface.parseCommand env instruction context ;;
     ret (Some parsed))%eff.

End TaskExecutor.

(* ================================================================== *)
(** * Concrete sessions, used to run the model *)

Module Scenario.

Definition at_ (x y z : Z) : Vec3 := {| vx := x; vy := y; vz := z |}.

Definition player (pos : Vec3) : Entity :=
  {| entity_id := 1; entity_type := "player";
     entity_name := Some "player"; entity_username := Some "MineAI_Bot";
     entity_metadata8 := None; entity_position := pos |}.

(** A dropped item stack lying at [pos]. *)
Definition dropped (id : Z) (name : string) (pos : Vec3) : Entity :=
  {| entity_id := id; entity_type := "object";
     entity_name := Some "item"; entity_username := None;
     entity_metadata8 := Some {| present := true; value_name := name |};
     entity_position := pos |}.

(** A healthy bot standing at [pos] in an empty world with the entities
    [others] around, no goal set. *)
Definition session (pos : Vec3) (others : list Entity) : Mineflayer :=
  {| entity := player pos; health := 20; food := 20;
     inventory_items := [];
     entities := player pos :: others;
     blockAt := fun _ => None;
     findBlocks := fun _ _ _ => [];
     timeOfDay := 1000; isRaining := false;
     pathfinder_goal := None |}.

(** As [session] without other entities, with one block of stone at
    [stone], which every search for stone finds. *)
Definition quarry (pos stone : Vec3) : Mineflayer :=
  let block := {| block_name := "stone"; block_position := stone |} in
  {| entity := player pos; health := 20; food := 20;
     inventory_items := [];
     entities := [player pos];
     blockAt := fun p =>
       if (vx p =? vx stone) && (vy p =? vy stone) && (vz p =? vz stone)
       then Some block else None;
     findBlocks := fun matching _ _ => if matching block then [stone] else [];
     timeOfDay := 1000; isRaining := false;
     pathfinder_goal := None |}.

Definition connected (w : Mineflayer) : MinecraftBot.t :=
  {| MinecraftBot.bot := Some w; MinecraftBot.isConnected := true |}.

Definition never_connected : MinecraftBot.t :=
  {| MinecraftBot.bot := None; MinecraftBot.isConnected := false |}.

Definition idle (b : MinecraftBot.t) : TaskExecutor.t :=
  {| TaskExecutor.bot := b; TaskExecutor.taskQueue := [];
     TaskExecutor.isExecuting := false;
     TaskExecutor.executionHistory := [] |}.

Definition busy (b : MinecraftBot.t) : TaskExecutor.t :=
  {| TaskExecutor.bot := b; TaskExecutor.taskQueue := [];
     TaskExecutor.isExecuting := true;
     TaskExecutor.executionHistory := [] |}.

(** An environment in which nothing else happens: every goal is reached
    in time, digging succeeds, the connection stays up, and the language
    model answers [reply]. *)
Definition calm (reply : outcome value) : Environment :=
  {| await_goal := fun _ w => (true, (w, false));
     await_timer := fun _ w => (w, false);
     await_dig := fun _ w => (Ret tt, (w, false));
     llm_reply := fun _ _ => reply;
     await_llm := fun w => (w, false) |}.

(** The language model cannot be reached. *)
Definition offline : Environment := calm (Throw "Connection error.").

(** As [calm], but no goal is ever reached: every walk times out. *)
Definition stuck (reply : outcome value) : Environment :=
  {| await_goal := fun _ w => (false, (w, false));
     await_timer := fun _ w => (w, false);
     await_dig := fun _ w => (Ret tt, (w, false));
     llm_reply := fun _ _ => reply;
     await_llm := fun w => (w, false) |}.

(** As [calm] with a silent language model, but [bot.dig] rejects with
    [undefined] or [null]. *)
Definition slippery (reason : nullish) : Environment :=
  {| await_goal := fun _ w => (true, (w, false));
     await_timer := fun _ w => (w, false);
     await_dig := fun _ w => (ThrowNullish reason, (w, false));
     llm_reply := fun _ _ => Ret VNull;
     await_llm := fun w => (w, false) |}.

Definition clock : TaskExecutor.t -> string :=
  fun _ => "2025-01-01T00:00:00.000Z".

(** [executeCommand] of the executor wired to the [LLMInterface]. *)
Definition run (env : Environment) (userInput : string) (s : TaskExecutor.t)
  : outcome bool * TaskExecutor.t * list Event :=
  TaskExecutor.executeCommand env (TaskExecutor.llm_of env) clock userInput s.

(** The reply [{ tasks: [{ type: 'collect', target, details: { amount } }],
    reasoning }] of the language model. *)
Definition collect_reply (target : string) (amount : value) : value :=
  VObj [("tasks",
         VArr [VObj [("type", VStr "collect");
                     ("target", VStr target);
                     ("details", VObj [("amount", amount)])]]);
        ("reasoning", VStr "collect the items")].

Definition chat_action (message : string) : Action :=
  LLMInterface.mkAction "chat" [("message", VStr message)].

Definition place_action : Action :=
  LLMInterface.mkAction "place"
    [("blockType", VStr "dirt"); ("position", VNull)].

(** A parser that always answers the plan [acts]. *)
Definition planned (acts : list Action)
  : string -> GameState -> MinecraftBot.M (option ParsedCommand) :=
  fun instruction _ =>
    ret (Some {| success := true; actions := acts;
                 reasoning := VStr EmptyString;
                 originalInput := instruction; fallback := false;
                 error := None |}).

(** A parser that rejects. *)
Definition failing
  : string -> GameState -> MinecraftBot.M (option ParsedCommand) :=
  fun _ _ => throw "parse failed".

(** A parser that rejects with [undefined]
    ([parseCommand: () => Promise.reject()]). *)
Definition rejecting
  : string -> GameState -> MinecraftBot.M (option ParsedCommand) :=
  fun _ _ => lift_outcome (ThrowNullish Undefined).

End Scenario.

(* ================================================================== *)
(** * Vocabulary of the specification *)

Module Spec.

(** The events emitted by [executeCommand] itself, as opposed to those of
    the bot and of the language model underneath. *)
Definition executor_event (e : Event) : bool :=
  match e with
  | Dispatch _ | Completed _ | Wait _ => true
  | _ => false
  end.

Definition executor_view (tr : list Event) : list Event :=
  filter executor_event tr.

(** The events of the bot control layer. *)
Definition bot_event (e : Event) : Prop := executor_event e = false.

(** The schedule of a plan whose actions complete with [results]: each
    action is dispatched and awaited in plan order, with a wait of 1000 ms
    between two consecutive actions and none after the last. *)
Fixpoint schedule (plan : list Action) (results : list bool) : list Event :=
  match plan, results with
  | a :: plan', ok :: results' =>
      Dispatch a :: Completed ok ::
        match plan' with
        | [] => []
        | _ :: _ => Wait 1000 :: schedule plan' results'
        end
  | _, _ => []
  end.

(** The actions dispatched in a trace, in order. *)
Fixpoint dispatched (tr : list Event) : list Action :=
  match tr with
  | [] => []
  | Dispatch a :: tr' => a :: dispatched tr'
  | _ :: tr' => dispatched tr'
  end.

(** The number of dispatched actions that completed successfully. *)
Fixpoint successes (tr : list Event) : Z :=
  match tr with
  | [] => 0
  | Completed true :: tr' => 1 + successes tr'
  | _ :: tr' => successes tr'
  end.

Definition count_true (results : list bool) : Z :=
  Z.of_nat (List.length (filter (fun ok : bool => ok) results)).

(** The run of a plan: what the calls of [executeTask] resolved to, the
    executor they leave and the events of the run, in order. *)
Record Run : Type := {
  run_results : list bool;
  run_final : TaskExecutor.t;
  run_events : list Event
}.

(** The dispatch of a plan as the specification words it: the actions of
    [plan] executed one after the other from the executor [s].  Each action
    is handed to [executeTask] in the state left by the action before it
    and, between two actions, by the wait of 1000 ms; its call is awaited,
    so all its events come before the next dispatch, and its result is
    recorded.  A call that throws would end the run. *)
Fixpoint in_sequence (env : Environment) (plan : list Action)
    (s : TaskExecutor.t) : Run :=
  match plan with
  | [] => {| run_results := []; run_final := s; run_events := [] |}
  | a :: rest =>
      let call := TaskExecutor.executeTask env a s in
      match result call with
      | Ret ok =>
          match rest with
          | [] =>
              {| run_results := [ok];
                 run_final := final call;
                 run_events := Dispatch a :: trace call ++ [Completed ok] |}
          | _ :: _ =>
              let next :=
                in_sequence env rest
                  (TaskExecutor.set_bot
                     (MinecraftBot.sleep env 1000
                        (TaskExecutor.bot (final call)))
                     (final call)) in
              {| run_results := ok :: run_results next;
                 run_final := run_final next;
                 run_events :=
                   Dispatch a :: trace call
                     ++ Completed ok :: Wait 1000 :: run_events next |}
          end
      | _ =>
          {| run_results := [];
             run_final := final call;
             run_events := Dispatch a :: trace call |}
      end
  end.

(** The fields of the executor other than its bot are the same. *)
Definition same_fields (s s' : TaskExecutor.t) : Prop :=
  TaskExecutor.taskQueue s' = TaskExecutor.taskQueue s
  /\ TaskExecutor.isExecuting s' = TaskExecutor.isExecuting s
  /\ TaskExecutor.executionHistory s' = TaskExecutor.executionHistory s.

(** [m] moves the state along [R] and emits events of kind [T] only. *)
Definition keeps {S A} (R : S -> S -> Prop) (T : Event -> Prop)
    (m : Eff.M Event S A) : Prop :=
  forall s, R s (final (m s)) /\ Forall T (trace (m s)).

Definition any_change {S} (_ _ : S) : Prop := True.

(** What [m] throws is never [undefined] or [null]. *)
Definition errors_only {S A} (m : Eff.M Event S A) : Prop :=
  forall s reason, result (m s) <> ThrowNullish reason.

(** A method of the bot emits events of the bot only. *)
Definition bot_level {A} (m : MinecraftBot.M A) : Prop :=
  keeps any_change bot_event m.

(** A method of the executor that changes nothing of the executor but its
    bot, and emits events of the bot only. *)
Definition handler_level {A} (m : TaskExecutor.M A) : Prop :=
  keeps same_fields bot_event m.

(** The keywords of the fallback parser. *)
Definition vocabulary : list string :=
  ["歩"; "進"; "移動"; "チャット"; "話"; "言"; "掘"; "採掘"; "mine"].

Definition unrecognized (instruction : string) : bool :=
  forallb (fun k => negb (includes (toLowerCase instruction) k)) vocabulary.

(** The plan of the fallback parser for an instruction it does not
    recognize: one chat action that apologizes. *)
Definition apology : Action :=
  LLMInterface.mkAction "chat"
    [("message", VStr "すみません、指示を理解できませんでした")].

(** [Number.isSafeInteger]: the integers that a JavaScript number holds
    exactly.  The sum of two of them, when it is one of them, is the sum of
    the integers. *)
Definition safe_integer (z : Z) : Prop := Z.abs z < 2 ^ 53.

(** [entity.name === 'item'] *)
Definition is_item (e : Entity) : bool :=
  match entity_name e with
  | Some n => (n =? "item")%string
  | None => false
  end.

(** The goal of a walk to the entity [e]: the block it lies in. *)
Definition goal_at (e : Entity) : Goal :=
  GoalBlock (Int (vx (entity_position e))) (Int (vy (entity_position e)))
    (Int (vz (entity_position e))).

(** The goals handed to the pathfinder in a trace, in order: where the
    bot set out to walk ([null], which clears the goal, is not one). *)
Fixpoint walked (tr : list Event) : list Goal :=
  match tr with
  | [] => []
  | SetGoal (Some g) :: tr' => g :: walked tr'
  | _ :: tr' => walked tr'
  end.

(** The pathfinder has no goal (there may be no pathfinder at all). *)
Definition no_pending_goal (s : TaskExecutor.t) : Prop :=
  match MinecraftBot.bot (TaskExecutor.bot s) with
  | None => True
  | Some w => pathfinder_goal w = None
  end.

End Spec.

(* ================================================================== *)
(** * The reply of the language model *)

(** How [LLMInterface.analyzeTask] turns the text of the reply into a
    value, and [extractJSON] of the earlier [LLMInterface], which the same
    regular expression serves.  [JSON.parse] is a parameter. *)
Module Reply.

Definition open_brace : ascii := "{"%char.
Definition close_brace : ascii := "}"%char.

(** The longest prefix of [s] that ends with a closing brace: what
    [[\s\S]*\}] matches at the start of [s], the star being greedy. *)
Fixpoint upto_last_brace (s : string) : option string :=
  match s with
  | EmptyString => None
  | String c s' =>
      match upto_last_brace s' with
      | Some p => Some (String c p)
      | None => if Ascii.eqb c close_brace then Some (String c EmptyString)
                else None
      end
  end.

(** [content.match(/\{[\s\S]*\}/)]: the match is tried at each position
    from the left; [None] is [null], [Some m] the matched text
    [jsonMatch[0]]. *)
Fixpoint match_braces (content : string) : option string :=
  match content with
  | EmptyString => None
  | String c s' =>
      if Ascii.eqb c open_brace then
        match upto_last_brace s' with
        | Some p => Some (String c p)
        | None => match_braces s'
        end
      else match_braces s'
  end.

Definition isArray (v : value) : bool :=
  match v with VArr _ => true | _ => false end.

Section Parse.
Variable JSON_parse : string -> outcome value.

(** The inner [try ... catch] of [analyzeTask], applied to the text
    [content] of the reply; the outer [catch] throws the error again. *)
Definition parseContent (content : string) : outcome value :=
  match JSON_parse content with
  | Ret parsed => Ret parsed
  | _ =>
      match match_braces content with
      | Some jsonMatch => JSON_parse jsonMatch
      | None => Throw "Failed to parse LLM response as JSON"
      end
  end.

(** [extractJSON(content)]: [None] is [null].  The [catch] block reads
    [error.message]. *)
Definition extractJSON (content : string) : outcome (option value) :=
  let attempt : outcome value :=
    match match_braces content with
    | Some jsonMatch =>
        LLMInterface.and_then (JSON_parse jsonMatch) (fun parsed =>
        LLMInterface.and_then (get "tasks" parsed) (fun tasks =>
          if truthy tasks && isArray tasks then Ret parsed
          else Throw "有効なJSON形式が見つかりませんでした"))
    | None => Throw "有効なJSON形式が見つかりませんでした"
    end in
  match attempt with
  | Ret parsed => Ret (Some parsed)
  | Throw _ => Ret None
  | ThrowNullish reason => Throw (cannot_read reason "message")
  end.
End Parse.

End Reply.

(* ================================================================== *)
(** * Asking for advice, and the console *)

Module Advice.

Definition newline : string := String (ascii_of_nat 10) EmptyString.

Definition count {A} (l : list A) : string :=
  string_of_Z (Z.of_nat (List.length l)).

(** The template literal [currentSituation]. *)
Definition currentSituation (gameState : GameState) : string :=
  (newline
   ++ "位置: (" ++ string_of_Z (vx (position gameState)) ++ ", "
   ++ string_of_Z (vy (position gameState)) ++ ", "
   ++ string_of_Z (vz (position gameState)) ++ ")" ++ newline
   ++ "体力: " ++ string_of_Z (gs_health gameState) ++ "/20" ++ newline
   ++ "空腹度: " ++ string_of_Z (gs_food gameState) ++ "/20" ++ newline
   ++ "インベントリアイテム数: " ++ count (inventory gameState) ++ newline
   ++ "周辺ブロック数: " ++ count (nearbyBlocks gameState) ++ newline
   ++ "時間: " ++ string_of_Z (time gameState) ++ newline
   ++ "天候: " ++ weather gameState ++ newline)%string.

(** [TaskExecutor.consultLLMForNextAction(goal)].  [llm] is [this.llm]
    ([None] when it is [null]) reduced to its method [getNextAction],
    which resolves to a text or to [null], or rejects. *)
Definition consultLLMForNextAction
    (llm : option (string -> string -> MinecraftBot.M (option string)))
    (goal : string) : TaskExecutor.M (option string) :=
  match llm with
  | None => ret None
  | Some getNextAction =>
      (gameState <-
         gets (fun s => MinecraftBot.getGameState (TaskExecutor.bot s)) ;;
       match gameState with
       | None => ret None
       | Some gameState =>
           TaskExecutor.on_bot
             (getNextAction (currentSituation gameState) goal)
       end)%eff
  end.

End Advice.

(** [MinecraftAIAgent.handleUserInput] of the entry point (index.js).  The
    agent's [executor] is the state; [displayStatus], [displayHelp],
    [console.clear] and [displayExecutionHistory] only read it and write
    to the console.  [shutdown], which ends the process, is a parameter. *)
Module Console.

Section Agent.
Variable env : Environment.
Variable llm_parseCommand :
  string -> GameState -> MinecraftBot.M (option ParsedCommand).
Variable toISOString_now : TaskExecutor.t -> string.
Variable shutdown : TaskExecutor.M unit.

Definition handleUserInput (input : string) : TaskExecutor.M unit :=
  let command := toLowerCase input in
  try_catch
    (if (command =? "exit")%string || (command =? "quit")%string
     then shutdown
     else if (command =? "status")%string then ret tt
     else if (command =? "help")%string then ret tt
     else if (command =? "clear")%string then ret tt
     else if (command =? "stop")%string then TaskExecutor.emergencyStop
     else if (command =? "history")%string then ret tt
     else
       (_ <- TaskExecutor.executeCommand env llm_parseCommand
               toISOString_now input ;;
        ret tt)%eff)
    (fun _ => ret tt).
End Agent.

End Console.

(* ================================================================== *)
(** * Vocabulary of the further properties *)

Module Observe.

(** The number of calls of [bot.dig] in a trace. *)
Fixpoint digs (tr : list Event) : Z :=
  match tr with
  | [] => 0
  | Dig _ :: tr' => 1 + digs tr'
  | _ :: tr' => digs tr'
  end.

(** The number of goals handed to the pathfinder in a trace ([null], which
    clears the goal, is not counted). *)
Fixpoint goals (tr : list Event) : Z :=
  match tr with
  | [] => 0
  | SetGoal (Some _) :: tr' => 1 + goals tr'
  | _ :: tr' => goals tr'
  end.

(** The requests to the language model in a trace. *)
Fixpoint asked (tr : list Event) : list string :=
  match tr with
  | [] => []
  | Ask instruction :: tr' => instruction :: asked tr'
  | _ :: tr' => asked tr'
  end.

(** The action kinds for which [executeTask] has a case. *)
Definition dispatchable : list string :=
  ["move"; "moveRelative"; "mine"; "collect"; "chat"; "place"; "craft"].

(** ... and those whose case calls the bot. *)
Definition implemented : list string :=
  ["move"; "moveRelative"; "mine"; "collect"; "chat"].

(** An action as [convertTasksToActions] builds them: of a kind that
    [executeTask] has a case for, with an object of parameters. *)
Definition well_formed_action (a : Action) : Prop :=
  In (action a) dispatchable
  /\ (exists fields, params a = VObj fields)
  /\ parameters a = VUndef.

(** The six moves of [distance] blocks along an axis. *)
Definition axis_moves (distance : Z) : list value :=
  [VObj [("x", num distance); ("y", num 0); ("z", num 0)];
   VObj [("x", num (- distance)); ("y", num 0); ("z", num 0)];
   VObj [("x", num 0); ("y", num 0); ("z", num distance)];
   VObj [("x", num 0); ("y", num 0); ("z", num (- distance))];
   VObj [("x", num 0); ("y", num distance); ("z", num 0)];
   VObj [("x", num 0); ("y", num (- distance)); ("z", num 0)]].

(** No character of [s] is [c]. *)
Fixpoint lacks (c : ascii) (s : string) : bool :=
  match s with
  | EmptyString => true
  | String c' s' => negb (Ascii.eqb c' c) && lacks c s'
  end.

(** The words that [handleUserInput] keeps for itself. *)
Definition reserved_words : list string :=
  ["exit"; "quit"; "status"; "help"; "clear"; "stop"; "history"].

Definition quote : string := String (ascii_of_nat 34) EmptyString.

(** The text of an empty plan: an object whose [tasks] is an empty
    array. *)
Definition empty_plan_text : string :=
  ("{" ++ quote ++ "tasks" ++ quote ++ ":[]}")%string.

(** A [JSON.parse] restricted to that one text. *)
Definition parse_empty_plan (text : string) : outcome value :=
  if (text =? empty_plan_text)%string then Ret (VObj [("tasks", VArr [])])
  else Throw "Unexpected token".

(** [suffix] is what remains of [l] after some first elements. *)
Definition is_suffix {A} (suffix l : list A) : Prop :=
  exists front, l = front ++ suffix.

End Observe.

(* ================================================================== *)
(** * Facts about the effect monad *)

Module EffFacts.

Import Spec.

Section Keeps.
Context {S : Type}.
Variable R : S -> S -> Prop.
Variable T : Event -> Prop.
Hypothesis R_refl : forall s, R s s.
Hypothesis R_trans : forall a b c, R a b -> R b c -> R a c.

Lemma keeps_ret {A} (a : A) : keeps R T (ret a).
Proof. intro s. split; [apply R_refl | constructor]. Qed.

Lemma keeps_throw {A} (e : string) : keeps R T (@throw Event S A e).
Proof. intro s. split; [apply R_refl | constructor]. Qed.

Lemma keeps_gets {A} (f : S -> A) : keeps R T (gets f).
Proof. intro s. split; [apply R_refl | constructor]. Qed.

Lemma keeps_lift_outcome {A} (o : outcome A) : keeps R T (lift_outcome o).
Proof. intro s. split; [apply R_refl | constructor]. Qed.

Lemma keeps_emit (e : Event) : T e -> keeps R T (emit e).
Proof.
  intros He s. split; [apply R_refl | repeat constructor; exact He].
Qed.

Lemma keeps_modify (f : S -> S) :
  (forall s, R s (f s)) -> keeps R T (modify f).
Proof. intros Hf s. split; [apply Hf | constructor]. Qed.

Lemma keeps_bind {A B} (m : Eff.M Event S A) (k : A -> Eff.M Event S B) :
  keeps R T m -> (forall a, keeps R T (k a)) -> keeps R T (bind m k).
Proof.
  intros Hm Hk s. unfold bind, final, trace.
  destruct (Hm s) as [Hs Ht]. unfold final, trace in Hs, Ht.
  destruct (m s) as [[[a | e | v] s1] t1]; simpl in *.
  - destruct (Hk a s1) as [Hs2 Ht2]. unfold final, trace in Hs2, Ht2.
    destruct (k a s1) as [[r s2] t2]; simpl in *. split.
    + eapply R_trans; eassumption.
    + apply Forall_app. split; assumption.
  - split; assumption.
  - split; assumption.
Qed.

Lemma keeps_try_catch {A} (body : Eff.M Event S A)
    (handler : string -> Eff.M Event S A) :
  keeps R T body -> (forall e, keeps R T (handler e)) ->
  keeps R T (try_catch body handler).
Proof.
  intros Hm Hk s. unfold try_catch, final, trace.
  destruct (Hm s) as [Hs Ht]. unfold final, trace in Hs, Ht.
  destruct (body s) as [[[a | e | v] s1] t1]; simpl in *.
  - split; assumption.
  - destruct (Hk e s1) as [Hs2 Ht2]. unfold final, trace in Hs2, Ht2.
    destruct (handler e s1) as [[r s2] t2]; simpl in *. split.
    + eapply R_trans; eassumption.
    + apply Forall_app. split; assumption.
  - split; assumption.
Qed.

Lemma keeps_try_catch_any {A} (body handler : Eff.M Event S A) :
  keeps R T body -> keeps R T handler ->
  keeps R T (try_catch_any body handler).
Proof.
  intros Hm Hk s. unfold try_catch_any, final, trace.
  destruct (Hm s) as [Hs Ht]. unfold final, trace in Hs, Ht.
  destruct (body s) as [[[a | e | v] s1] t1]; simpl in *;
    [split; assumption | |];
    destruct (Hk s1) as [Hs2 Ht2]; unfold final, trace in Hs2, Ht2;
    destruct (handler s1) as [[r s2] t2]; simpl in *;
    (split; [eapply R_trans; eassumption |];
     apply Forall_app; split; assumption).
Qed.
End Keeps.

(** ** Computations that throw [Error]s only *)

Section ErrorsOnly.
Context {S : Type}.

Lemma errors_only_ret {A} (a : A) : errors_only (@ret Event S A a).
Proof. intros s v. discriminate. Qed.

Lemma errors_only_throw {A} (e : string) : errors_only (@throw Event S A e).
Proof. intros s v. discriminate. Qed.

Lemma errors_only_gets {A} (f : S -> A) : errors_only (@gets Event S A f).
Proof. intros s v. discriminate. Qed.

Lemma errors_only_modify (f : S -> S) : errors_only (@modify Event S f).
Proof. intros s v. discriminate. Qed.

Lemma errors_only_emit (e : Event) : errors_only (@emit Event S e).
Proof. intros s v. discriminate. Qed.

Lemma errors_only_lift_outcome {A} (o : outcome A) :
  (forall v, o <> ThrowNullish v) -> errors_only (@lift_outcome Event S A o).
Proof. intros Ho s v. apply Ho. Qed.

Lemma errors_only_bind {A B} (m : Eff.M Event S A)
    (k : A -> Eff.M Event S B) :
  errors_only m -> (forall a, errors_only (k a)) -> errors_only (bind m k).
Proof.
  intros Hm Hk s v. unfold bind, result.
  specialize (Hm s). unfold result in Hm.
  destruct (m s) as [[[a | e | v'] s1] t1]; simpl in *.
  - specialize (Hk a s1 v). unfold result in Hk.
    destruct (k a s1) as [[r s2] t2]; simpl in *. exact Hk.
  - discriminate.
  - destruct (Hm v'). reflexivity.
Qed.

(** A [catch] block that reads [error.message] turns [undefined] and
    [null] into a [TypeError], whatever its [try] block does. *)
Lemma errors_only_try_catch {A} (body : Eff.M Event S A)
    (handler : string -> Eff.M Event S A) :
  (forall e, errors_only (handler e)) -> errors_only (try_catch body handler).
Proof.
  intros Hk s v. unfold try_catch, result.
  destruct (body s) as [[[a | e | v'] s1] t1]; simpl; try discriminate.
  specialize (Hk e s1 v). unfold result in Hk.
  destruct (handler e s1) as [[r s2] t2]; simpl in *. exact Hk.
Qed.

Lemma errors_only_try_catch_any {A} (body handler : Eff.M Event S A) :
  errors_only handler -> errors_only (try_catch_any body handler).
Proof.
  intros Hk s v. unfold try_catch_any, result.
  destruct (body s) as [[[a | e | v'] s1] t1]; simpl; try discriminate;
    specialize (Hk s1 v); unfold result in Hk;
    destruct (handler s1) as [[r s2] t2]; simpl in *; exact Hk.
Qed.

Lemma errors_only_zoom {U A} (get : S -> U) (set : U -> S -> S)
    (m : Eff.M Event U A) :
  errors_only m -> errors_only (zoom get set m).
Proof.
  intros Hm s v. unfold zoom, result.
  specialize (Hm (get s) v). unfold result in Hm.
  destruct (m (get s)) as [[r u] tr]; simpl in *. exact Hm.
Qed.
End ErrorsOnly.

(** A handler that returns makes the whole [try ... catch] return, when
    the [try] block throws [Error]s only. *)
Lemma try_catch_returns {S A} (body : Eff.M Event S A)
    (handler : string -> Eff.M Event S A) (s : S) :
  errors_only body ->
  (forall e s1, exists a, result (handler e s1) = Ret a) ->
  exists a, result (try_catch body handler s) = Ret a.
Proof.
  intros Hb Hh. unfold try_catch, result.
  specialize (Hb s). unfold result in Hb.
  destruct (body s) as [[[a | e | v] s1] t1]; simpl in *.
  - exists a. reflexivity.
  - destruct (Hh e s1) as [a Ha]. unfold result in Ha.
    destruct (handler e s1) as [[r s2] t2]; simpl in *. exists a. exact Ha.
  - destruct (Hb v). reflexivity.
Qed.

(** A [catch] block that reads nothing of the error and returns makes the
    whole [try ... catch] return. *)
Lemma try_catch_any_returns {S A} (body handler : Eff.M Event S A) (s : S) :
  (forall s1, exists a, result (handler s1) = Ret a) ->
  exists a, result (try_catch_any body handler s) = Ret a.
Proof.
  intros Hh. unfold try_catch_any, result.
  destruct (body s) as [[[a | e | v] s1] t1]; simpl;
    [exists a; reflexivity | |];
    destruct (Hh s1) as [a Ha]; unfold result in Ha;
    destruct (handler s1) as [[r s2] t2]; simpl in *; exists a; exact Ha.
Qed.

Lemma keeps_zoom {S U A} (R : S -> S -> Prop) (T : Event -> Prop)
    (get : S -> U) (set : U -> S -> S) (m : Eff.M Event U A) :
  (forall s u, R s (set u s)) ->
  keeps any_change T m ->
  keeps R T (zoom get set m).
Proof.
  intros Hset Hm s. unfold zoom, final, trace.
  destruct (Hm (get s)) as [_ Ht]. unfold trace in Ht.
  destruct (m (get s)) as [[r u] tr]; simpl in *.
  split; [apply Hset | exact Ht].
Qed.

End EffFacts.

(* ================================================================== *)
(** * Facts about the bot control layer *)

Module Facts.

Import Spec EffFacts.

Lemma any_change_trans {S} (a b c : S) :
  any_change a b -> any_change b c -> any_change a c.
Proof. intros _ _. exact I. Qed.

Lemma any_change_refl {S} (s : S) : any_change s s.
Proof. exact I. Qed.

Lemma same_fields_refl (s : TaskExecutor.t) : same_fields s s.
Proof. repeat split. Qed.

Lemma same_fields_trans (a b c : TaskExecutor.t) :
  same_fields a b -> same_fields b c -> same_fields a c.
Proof.
  intros (H1 & H2 & H3) (K1 & K2 & K3).
  repeat split; etransitivity; eassumption.
Qed.

Lemma same_fields_set_bot (s : TaskExecutor.t) (b : MinecraftBot.t) :
  same_fields s (TaskExecutor.set_bot b s).
Proof. repeat split. Qed.

Create HintDb quiet.
#[local] Hint Resolve any_change_refl any_change_trans
  same_fields_refl same_fields_trans same_fields_set_bot : quiet.

(** One step of a proof that a method is [bot_level] or [handler_level]:
    follow the structure of its body. *)
Ltac quiet_step :=
  match goal with
  | |- keeps _ _ (bind _ _) =>
      apply keeps_bind; [solve [eauto with quiet] | | intros ?]
  | |- keeps _ _ (try_catch _ _) =>
      apply keeps_try_catch; [solve [eauto with quiet] | | intros ?]
  | |- keeps _ _ (ret _) => apply keeps_ret; solve [eauto with quiet]
  | |- keeps _ _ (throw _) => apply keeps_throw; solve [eauto with quiet]
  | |- keeps _ _ (gets _) => apply keeps_gets; solve [eauto with quiet]
  | |- keeps _ _ (lift_outcome _) =>
      apply keeps_lift_outcome; solve [eauto with quiet]
  | |- keeps _ _ (if ?c then _ else _) => destruct c
  | |- keeps _ _ (match ?v with _ => _ end) => destruct v
  | |- keeps _ _ (let _ := _ in _) => cbv zeta
  end.

Ltac fold_level :=
  match goal with
  | |- keeps any_change bot_event ?m => change (bot_level m)
  | |- keeps same_fields bot_event ?m => change (handler_level m)
  end.

Ltac quiet :=
  repeat quiet_step;
  try solve [eauto with quiet | fold_level; eauto with quiet].

Lemma bot_level_intro {A} (m : MinecraftBot.M A) :
  (forall b, Forall bot_event (trace (m b))) -> bot_level m.
Proof. intros H b. split; [exact I | apply H]. Qed.

Lemma world_bot_level {A} (f : Mineflayer -> A) :
  bot_level (MinecraftBot.world f).
Proof.
  apply bot_level_intro. intro b. unfold MinecraftBot.world, trace.
  destruct (MinecraftBot.bot b); constructor.
Qed.

Lemma setGoal_bot_level (g : option Goal) :
  bot_level (MinecraftBot.pathfinder_setGoal g).
Proof.
  apply bot_level_intro. intro b. unfold MinecraftBot.pathfinder_setGoal, trace.
  destruct (MinecraftBot.bot b); simpl; repeat constructor.
Qed.

#[local] Hint Resolve world_bot_level setGoal_bot_level : quiet.

(** ** What the methods throw *)

Lemma get_errors_only (k : string) (v : value) (reason : nullish) :
  get k v <> ThrowNullish reason.
Proof. destruct v; discriminate. Qed.

Lemma world_errors_only {A} (f : Mineflayer -> A) :
  errors_only (MinecraftBot.world f).
Proof.
  intros b v. unfold MinecraftBot.world, result.
  destruct (MinecraftBot.bot b); discriminate.
Qed.

Lemma setGoal_errors_only (g : option Goal) :
  errors_only (MinecraftBot.pathfinder_setGoal g).
Proof.
  intros b v. unfold MinecraftBot.pathfinder_setGoal, result.
  destruct (MinecraftBot.bot b); discriminate.
Qed.

Create HintDb tame.
#[local] Hint Resolve world_errors_only setGoal_errors_only : tame.

(** One step of a proof that a method throws [Error]s only: follow the
    structure of its body.  A [catch] block that reads [error.message]
    needs no look at its [try] block. *)
Ltac tame_step :=
  match goal with
  | |- errors_only (bind _ _) => apply errors_only_bind; [| intros ?]
  | |- errors_only (try_catch _ _) => apply errors_only_try_catch; intros ?
  | |- errors_only (ret _) => apply errors_only_ret
  | |- errors_only (throw _) => apply errors_only_throw
  | |- errors_only (gets _) => apply errors_only_gets
  | |- errors_only (emit _) => apply errors_only_emit
  | |- errors_only (lift_outcome (get _ _)) =>
      apply errors_only_lift_outcome; intros ?; apply get_errors_only
  | |- errors_only (TaskExecutor.on_bot _) => apply errors_only_zoom
  | |- errors_only (if ?c then _ else _) => destruct c
  | |- errors_only (match ?v with _ => _ end) => destruct v
  | |- errors_only (let _ := _ in _) => cbv zeta
  end.

Ltac tame := repeat tame_step; try solve [eauto with tame].

Section Methods.
Variable env : Environment.

Lemma goal_reached_within_errors_only (ms : Z) :
  errors_only (MinecraftBot.goal_reached_within env ms).
Proof.
  intros b v. unfold MinecraftBot.goal_reached_within, result.
  destruct (MinecraftBot.bot b) as [w |]; [| discriminate].
  destruct (await_goal env ms w) as [reached [w' lost]]. discriminate.
Qed.

Lemma wait_errors_only (ms : Z) : errors_only (MinecraftBot.wait env ms).
Proof. intros b v. discriminate. Qed.

#[local] Hint Resolve goal_reached_within_errors_only wait_errors_only : tame.

Lemma moveToPosition_errors_only (x y z : number) :
  errors_only (MinecraftBot.moveToPosition env x y z).
Proof. unfold MinecraftBot.moveToPosition. tame. Qed.

(** What [bot.dig] rejects with is caught inside the loop. *)
Lemma mine_each_errors_only (blocks : list Vec3) :
  errors_only (MinecraftBot.mine_each env blocks).
Proof. induction blocks as [| blockPos rest IH]; simpl; tame. Qed.

#[local] Hint Resolve mine_each_errors_only : tame.

Lemma mineBlock_errors_only (blockType : value) :
  errors_only (MinecraftBot.mineBlock env blockType).
Proof. unfold MinecraftBot.mineBlock. tame. Qed.

Lemma collect_each_errors_only (itemType amount : value)
    (ents : list Entity) :
  forall collected,
    errors_only (MinecraftBot.collect_each env itemType amount ents collected).
Proof.
  induction ents as [| e rest IH]; intro collected; simpl; tame.
Qed.

#[local] Hint Resolve collect_each_errors_only : tame.

Lemma collectItems_errors_only (itemType amount : value) :
  errors_only (MinecraftBot.collectItems env itemType amount).
Proof. unfold MinecraftBot.collectItems. tame. Qed.

Lemma sendChat_errors_only (message : value) :
  errors_only (MinecraftBot.sendChat message).
Proof. unfold MinecraftBot.sendChat. tame. Qed.

#[local] Hint Resolve moveToPosition_errors_only mineBlock_errors_only
  collectItems_errors_only sendChat_errors_only : tame.

Lemma goal_reached_within_bot_level (ms : Z) :
  bot_level (MinecraftBot.goal_reached_within env ms).
Proof.
  apply bot_level_intro. intro b.
  unfold MinecraftBot.goal_reached_within, trace.
  destruct (MinecraftBot.bot b) as [w |]; simpl; [| constructor].
  destruct (await_goal env ms w) as [reached [w' lost]]; simpl.
  repeat constructor.
Qed.

Lemma dig_bot_level (target : option Block) :
  bot_level (MinecraftBot.dig env target).
Proof.
  apply bot_level_intro. intro b. unfold MinecraftBot.dig, trace.
  destruct (MinecraftBot.bot b) as [w |]; simpl; [| constructor].
  destruct (await_dig env target w) as [r [w' lost]]; simpl.
  repeat constructor.
Qed.

Lemma wait_bot_level (ms : Z) : bot_level (MinecraftBot.wait env ms).
Proof.
  apply bot_level_intro. intro b. unfold MinecraftBot.wait, trace; simpl.
  repeat constructor.
Qed.

#[local] Hint Resolve goal_reached_within_bot_level dig_bot_level
  wait_bot_level : quiet.

Lemma moveToPosition_bot_level (x y z : number) :
  bot_level (MinecraftBot.moveToPosition env x y z).
Proof.
  unfold MinecraftBot.moveToPosition, bot_level. quiet.
Qed.

Lemma mine_each_bot_level (blocks : list Vec3) :
  bot_level (MinecraftBot.mine_each env blocks).
Proof.
  unfold bot_level. induction blocks as [| blockPos rest IH]; simpl; quiet.
Qed.

#[local] Hint Resolve mine_each_bot_level : quiet.

Lemma mineBlock_bot_level (blockType : value) :
  bot_level (MinecraftBot.mineBlock env blockType).
Proof.
  unfold MinecraftBot.mineBlock, bot_level. quiet.
Qed.

Lemma collect_each_bot_level (itemType amount : value) (ents : list Entity) :
  forall collected,
    bot_level (MinecraftBot.collect_each env itemType amount ents collected).
Proof.
  unfold bot_level. induction ents as [| e rest IH]; intro collected; simpl.
  - quiet.
  - quiet.
Qed.

#[local] Hint Resolve collect_each_bot_level : quiet.

Lemma collectItems_bot_level (itemType amount : value) :
  bot_level (MinecraftBot.collectItems env itemType amount).
Proof.
  unfold MinecraftBot.collectItems, bot_level. quiet.
Qed.

Lemma sendChat_bot_level (message : value) :
  bot_level (MinecraftBot.sendChat message).
Proof.
  unfold MinecraftBot.sendChat, bot_level. quiet.
  apply keeps_emit; [eauto with quiet | reflexivity].
Qed.

#[local] Hint Resolve moveToPosition_bot_level mineBlock_bot_level
  collectItems_bot_level sendChat_bot_level : quiet.

(** ** Collecting items *)

Lemma walked_app (a b : list Event) : walked (a ++ b) = walked a ++ walked b.
Proof.
  induction a as [| e a IH]; [reflexivity |].
  destruct e as [| | | [g |] | | | | |]; cbn [walked app]; rewrite ?IH;
    reflexivity.
Qed.

(** The loop of [collectItems] from a running count [c]: the count grows
    by one for each entity the bot sets out to walk to.  These entities are
    items of the list that pass the filter on the item type; with an amount
    that is a number the count does not grow beyond it. *)
Lemma collect_each_walks (itemType amount : value) (ents : list Entity) :
  forall c b,
    let r := MinecraftBot.collect_each env itemType amount ents c b in
    exists sought,
      result r = Ret (c + Z.of_nat (List.length sought))
      /\ walked (trace r) = map goal_at sought
      /\ Forall (fun e => In e ents /\ is_item e = true
                         /\ truthy itemType
                            && MinecraftBot.filtered_out itemType e = false)
           sought
      /\ (List.length sought <= List.length (filter is_item ents))%nat
      /\ (forall k, ToNumber amount = Int k -> c <= Z.max k 0 ->
                    c + Z.of_nat (List.length sought) <= Z.max k 0).
Proof.
  induction ents as [| e rest IH]; intros c b.
  - exists []. cbn. rewrite Z.add_0_r.
    repeat split; try constructor. intros k _ Hc. exact Hc.
  - cbv zeta. cbn [MinecraftBot.collect_each filter]. fold (is_item e).
    assert (Hlater :
      forall sought,
        Forall (fun e0 => In e0 rest /\ is_item e0 = true
                          /\ truthy itemType
                             && MinecraftBot.filtered_out itemType e0 = false)
          sought ->
        Forall (fun e0 => In e0 (e :: rest) /\ is_item e0 = true
                          /\ truthy itemType
                             && MinecraftBot.filtered_out itemType e0 = false)
          sought).
    { intros sought H. eapply Forall_impl; [| exact H].
      intros e0 (Hin & Hrest). split; [right; exact Hin | exact Hrest]. }
    destruct (is_item e) eqn:Hitem; cbn [negb].
    2: { destruct (IH c b) as (sought & Hr & Hw & Hall & Hlen & Hk).
         exists sought. repeat split; auto. }
    destruct (geb (Int c) (ToNumber amount)) eqn:Hge.
    { exists []. cbn. rewrite Z.add_0_r.
      repeat split; try constructor; try lia. }
    destruct (truthy itemType && MinecraftBot.filtered_out itemType e)
      eqn:Hfilter.
    { destruct (IH c b) as (sought & Hr & Hw & Hall & Hlen & Hk).
      exists sought. cbn [List.length].
      repeat split; auto. }
    set (attempt :=
      try_catch
        (bind (MinecraftBot.world (fun w => entity_position (entity w)))
           (fun own =>
              if 32 * 32 <? distance2 own (entity_position e)
              then ret c
              else
                bind (MinecraftBot.pathfinder_setGoal
                        (Some (GoalBlock (Int (vx (entity_position e)))
                                 (Int (vy (entity_position e)))
                                 (Int (vz (entity_position e))))))
                  (fun _ =>
                     bind (MinecraftBot.goal_reached_within env 10000)
                       (fun _ =>
                          bind (MinecraftBot.wait env 1000)
                            (fun _ => ret (c + 1))))))
        (fun _ => ret c)).
    unfold bind.
    assert (Hattempt :
      exists c1 b1 t1,
        attempt b = (Ret c1, b1, t1)
        /\ (c1 = c /\ walked t1 = []
            \/ c1 = c + 1 /\ walked t1 = [goal_at e])).
    { subst attempt.
      unfold try_catch, bind, MinecraftBot.world,
        MinecraftBot.pathfinder_setGoal, MinecraftBot.goal_reached_within,
        MinecraftBot.wait, ret.
      destruct b as [[w |] isConnected]; cbn [MinecraftBot.bot].
      - destruct (32 * 32 <? distance2 (entity_position (entity w))
                               (entity_position e)).
        + do 3 eexists. split; [reflexivity |]. left. split; reflexivity.
        + cbn [MinecraftBot.bot].
          match goal with
          | |- context [await_goal env 10000 ?w0] =>
              destruct (await_goal env 10000 w0) as [reached [w1 lost1]]
          end.
          do 3 eexists. split; [reflexivity |]. right.
          split; reflexivity.
      - do 3 eexists. split; [reflexivity |]. left. split; reflexivity. }
    destruct Hattempt as (c1 & b1 & t1 & Heq & Hc1).
    rewrite Heq.
    destruct (IH c1 b1) as (sought & Hr & Hw & Hall & Hlen & Hk).
    unfold result, trace in *.
    destruct (MinecraftBot.collect_each env itemType amount rest c1 b1)
      as [[r2 b2] t2].
    cbn [fst snd] in *.
    assert (Hroom : forall k, ToNumber amount = Int k -> c + 1 <= Z.max k 0).
    { intros k Hamount. rewrite Hamount in Hge. cbn [geb] in Hge.
      apply Z.leb_gt in Hge. lia. }
    destruct Hc1 as [[Hsame Hnone] | [Hmore Hone]]; subst c1.
    + exists sought. rewrite walked_app, Hnone. cbn [List.length app].
      split; [exact Hr |]. split; [exact Hw |].
      split; [apply Hlater; exact Hall |]. split; [lia |]. exact Hk.
    + exists (e :: sought). rewrite walked_app, Hone.
      cbn [List.length app map].
      split; [rewrite Hr; f_equal; lia |]. split; [rewrite Hw; reflexivity |].
      split; [| split; [lia |]].
      * constructor; [| apply Hlater; exact Hall].
        split; [left; reflexivity |]. split; [exact Hitem | exact Hfilter].
      * intros k Hamount _.
        specialize (Hk k Hamount (Hroom k Hamount)). lia.
Qed.

(** On a connected bot [collectItems] never throws, and the count it
    resolves to is the number of item entities it set out to walk to. *)
Lemma collectItems_walks (itemType amount : value) (b : MinecraftBot.t)
    (w : Mineflayer) :
  MinecraftBot.bot b = Some w ->
  MinecraftBot.isConnected b = true ->
  let r := MinecraftBot.collectItems env itemType amount b in
  let itemType := default_to VNull itemType in
  let amount := default_to (num 1) amount in
  exists sought,
    result r = Ret (Z.of_nat (List.length sought))
    /\ walked (trace r) = map goal_at sought
    /\ Forall (fun e => In e (entities w) /\ is_item e = true
                       /\ truthy itemType
                          && MinecraftBot.filtered_out itemType e = false)
         sought
    /\ (List.length sought <= List.length (filter is_item (entities w)))%nat
    /\ (forall k, ToNumber amount = Int k ->
                  Z.of_nat (List.length sought) <= Z.max k 0).
Proof.
  intros Hw Hc r. subst r. cbv zeta.
  destruct b as [[w0 |] c]; simpl in Hw, Hc; [| discriminate].
  injection Hw as Hw. subst w0 c.
  unfold MinecraftBot.collectItems, bind, gets, MinecraftBot.unavailable,
    MinecraftBot.world.
  cbn [MinecraftBot.bot MinecraftBot.isConnected negb].
  set (b := {| MinecraftBot.bot := Some w; MinecraftBot.isConnected := true |}).
  destruct (collect_each_walks (default_to VNull itemType)
              (default_to (num 1) amount) (entities w) 0 b)
    as (sought & Hr & Hwalk & Hall & Hlen & Hk).
  unfold result, trace in *.
  destruct (MinecraftBot.collect_each env (default_to VNull itemType)
              (default_to (num 1) amount) (entities w) 0 b)
    as [[r2 b2] t2].
  cbn [fst snd app] in *. exists sought.
  split; [exact Hr |]. split; [exact Hwalk |]. split; [exact Hall |].
  split; [exact Hlen |].
  intros k Hamount. apply (Hk k Hamount). lia.
Qed.

(** ** The handlers of the executor *)

Lemma on_bot_handler_level {A} (m : MinecraftBot.M A) :
  bot_level m -> handler_level (TaskExecutor.on_bot m).
Proof.
  intro Hm. unfold handler_level, TaskExecutor.on_bot.
  apply keeps_zoom; [intros; apply same_fields_set_bot | exact Hm].
Qed.

#[local] Hint Resolve on_bot_handler_level : quiet.

Lemma executeMove_handler_level (p : value) :
  handler_level (TaskExecutor.executeMove env p).
Proof. unfold handler_level, TaskExecutor.executeMove. quiet. Qed.

Lemma executeMoveRelative_handler_level (p : value) :
  handler_level (TaskExecutor.executeMoveRelative env p).
Proof. unfold handler_level, TaskExecutor.executeMoveRelative. quiet. Qed.

Lemma executeMine_handler_level (p : value) :
  handler_level (TaskExecutor.executeMine env p).
Proof. unfold handler_level, TaskExecutor.executeMine. quiet. Qed.

Lemma executeCollect_handler_level (p : value) :
  handler_level (TaskExecutor.executeCollect env p).
Proof. unfold handler_level, TaskExecutor.executeCollect. quiet. Qed.

Lemma executeChat_handler_level (p : value) :
  handler_level (TaskExecutor.executeChat p).
Proof. unfold handler_level, TaskExecutor.executeChat. quiet. Qed.

#[local] Hint Resolve executeMove_handler_level
  executeMoveRelative_handler_level executeMine_handler_level
  executeCollect_handler_level executeChat_handler_level : quiet.

(** [executeTask] changes nothing of the executor but its bot, and emits
    events of the bot only. *)
Lemma executeTask_handler_level (task : Action) :
  handler_level (TaskExecutor.executeTask env task).
Proof.
  unfold handler_level, TaskExecutor.executeTask,
    TaskExecutor.executePlace, TaskExecutor.executeCraft.
  quiet.
Qed.

(** The handlers throw [Error]s only: what the bot is rejected with by the
    game is caught in the bot's own methods. *)
Lemma handlers_errors_only (task : Action) :
  errors_only
    (let p := or_else (params task) (parameters task) in
     if (action task =? "move")%string then TaskExecutor.executeMove env p
     else if (action task =? "moveRelative")%string
     then TaskExecutor.executeMoveRelative env p
     else if (action task =? "mine")%string then TaskExecutor.executeMine env p
     else if (action task =? "collect")%string
     then TaskExecutor.executeCollect env p
     else if (action task =? "chat")%string then TaskExecutor.executeChat p
     else if (action task =? "place")%string then TaskExecutor.executePlace p
     else if (action task =? "craft")%string then TaskExecutor.executeCraft p
     else ret false).
Proof.
  unfold TaskExecutor.executeMove, TaskExecutor.executeMoveRelative,
    TaskExecutor.executeMine, TaskExecutor.executeCollect,
    TaskExecutor.executeChat, TaskExecutor.executePlace,
    TaskExecutor.executeCraft.
  tame.
Qed.

(** [executeTask] resolves to a boolean: whatever a handler throws is
    caught. *)
Lemma executeTask_returns (task : Action) (s : TaskExecutor.t) :
  exists ok, result (TaskExecutor.executeTask env task s) = Ret ok.
Proof.
  unfold TaskExecutor.executeTask, bind, gets.
  destruct (negb (MinecraftBot.isAlive (TaskExecutor.bot s))).
  - exists false. reflexivity.
  - match goal with
    | |- context [try_catch ?b ?h s] =>
        destruct (try_catch_returns b h s) as [ok Hok]
    end.
    { apply handlers_errors_only. }
    { intros e s1. exists false. reflexivity. }
    exists ok. unfold result in *.
    match goal with
    | |- context [try_catch ?b ?h s] =>
        destruct (try_catch b h s) as [[r s2] t2]
    end.
    simpl in *. exact Hok.
Qed.


(** ** The dispatch loop *)

Lemma dispatch_cons (len i : Z) (a : Action) (rest : list Action) (n0 : Z)
    (s : TaskExecutor.t) :
  TaskExecutor.dispatch env len i (a :: rest) n0 s =
  let '(r, s1, t1) := TaskExecutor.executeTask env a s in
  match r with
  | Ret ok =>
      let n1 := if ok then n0 + 1 else n0 in
      let '(s2, w) :=
        if i <? len - 1
        then (TaskExecutor.set_bot
                (MinecraftBot.sleep env 1000 (TaskExecutor.bot s1)) s1,
              [Wait 1000])
        else (s1, []) in
      let '(r3, s3, t3) := TaskExecutor.dispatch env len (i + 1) rest n1 s2 in
      (r3, s3, Dispatch a :: t1 ++ Completed ok :: w ++ t3)
  | Throw e => (Throw e, s1, Dispatch a :: t1)
  | ThrowNullish v => (ThrowNullish v, s1, Dispatch a :: t1)
  end.
Proof.
  cbn [TaskExecutor.dispatch]. unfold bind at 1, emit at 1.
  unfold bind at 1.
  destruct (TaskExecutor.executeTask env a s) as [[[ok | e | v] s1] t1];
    [| reflexivity | reflexivity].
  unfold bind at 1, emit at 1. unfold bind at 1.
  destruct (i <? len - 1).
  - unfold TaskExecutor.wait at 1.
    destruct (TaskExecutor.dispatch env len (i + 1) rest
                (if ok then n0 + 1 else n0)
                (TaskExecutor.set_bot
                   (MinecraftBot.sleep env 1000 (TaskExecutor.bot s1)) s1))
      as [[r3 s3] t3].
    reflexivity.
  - unfold ret at 1.
    destruct (TaskExecutor.dispatch env len (i + 1) rest
                (if ok then n0 + 1 else n0) s1) as [[r3 s3] t3].
    reflexivity.
Qed.

Lemma executor_view_bot (tr : list Event) :
  Forall bot_event tr -> executor_view tr = [].
Proof.
  induction 1 as [| e tr He _ IH]; [reflexivity |].
  unfold executor_view in *. simpl. rewrite He. exact IH.
Qed.

Lemma count_true_cons (ok : bool) (results : list bool) :
  count_true (ok :: results) = (if ok then 1 else 0) + count_true results.
Proof.
  unfold count_true. destruct ok; simpl List.length; lia.
Qed.

(** One step of a run with a further action to come. *)
Lemma in_sequence_cons (a b : Action) (rest : list Action)
    (s : TaskExecutor.t) :
  in_sequence env (a :: b :: rest) s =
  let call := TaskExecutor.executeTask env a s in
  match result call with
  | Ret ok =>
      let next :=
        in_sequence env (b :: rest)
          (TaskExecutor.set_bot
             (MinecraftBot.sleep env 1000 (TaskExecutor.bot (final call)))
             (final call)) in
      {| run_results := ok :: run_results next;
         run_final := run_final next;
         run_events :=
           Dispatch a :: trace call
             ++ Completed ok :: Wait 1000 :: run_events next |}
  | _ =>
      {| run_results := [];
         run_final := final call;
         run_events := Dispatch a :: trace call |}
  end.
Proof. reflexivity. Qed.

(** The loop is the run of the plan in sequence: its counter is the number
    of calls of [executeTask] that resolved to [true]. *)
Lemma dispatch_in_sequence (rest : list Action) :
  forall len i n0 s,
    i + Z.of_nat (List.length rest) = len ->
    let run := in_sequence env rest s in
    TaskExecutor.dispatch env len i rest n0 s
    = (Ret (n0 + count_true (run_results run)), run_final run, run_events run)
    /\ List.length (run_results run) = List.length rest
    /\ executor_view (run_events run) = schedule rest (run_results run)
    /\ same_fields s (run_final run).
Proof.
  induction rest as [| a rest IH]; intros len i n0 s Hlen.
  - cbn [in_sequence TaskExecutor.dispatch run_results run_final run_events].
    replace (n0 + count_true []) with n0 by (unfold count_true; simpl; lia).
    repeat split.
  - cbv zeta. rewrite dispatch_cons.
    destruct (executeTask_returns a s) as [ok Hok].
    destruct (executeTask_handler_level a s) as [Hsame Hquiet].
    destruct rest as [| a' rest].
    + cbn [in_sequence]. unfold result, final, trace in *.
      destruct (TaskExecutor.executeTask env a s) as [[r s1] t1].
      cbn [fst snd] in *. subst r.
      assert (Hlast : (i <? len - 1) = false).
      { apply Z.ltb_ge. simpl List.length in Hlen. lia. }
      rewrite Hlast. cbn [TaskExecutor.dispatch ret].
      cbn [run_results run_final run_events List.length].
      split; [| split; [reflexivity | split; [| exact Hsame]]].
      * rewrite count_true_cons.
        replace (count_true []) with 0 by reflexivity.
        replace (n0 + ((if ok then 1 else 0) + 0))
          with (if ok then n0 + 1 else n0) by (destruct ok; lia).
        rewrite app_nil_r. reflexivity.
      * unfold executor_view. simpl. rewrite filter_app. simpl.
        fold (executor_view t1). rewrite (executor_view_bot t1 Hquiet).
        reflexivity.
    + rewrite in_sequence_cons. cbv zeta. unfold result, final, trace in *.
      destruct (TaskExecutor.executeTask env a s) as [[r s1] t1].
      cbn [fst snd] in *. subst r.
      assert (Hmore : (i <? len - 1) = true).
      { apply Z.ltb_lt. simpl List.length in Hlen. lia. }
      rewrite Hmore.
      set (s2 := TaskExecutor.set_bot
                   (MinecraftBot.sleep env 1000 (TaskExecutor.bot s1)) s1).
      destruct (IH len (i + 1) (if ok then n0 + 1 else n0) s2)
        as (Hrun & Hl & Hv & Hf).
      { simpl List.length in *. lia. }
      rewrite Hrun.
      set (next := in_sequence env (a' :: rest) s2) in *.
      cbn [run_results run_final run_events].
      split; [| split; [| split]].
      * rewrite count_true_cons.
        replace (n0 + ((if ok then 1 else 0) + count_true (run_results next)))
          with ((if ok then n0 + 1 else n0) + count_true (run_results next))
          by (destruct ok; lia).
        reflexivity.
      * cbn [List.length]. rewrite Hl. reflexivity.
      * unfold executor_view in *. cbn [filter executor_event].
        rewrite filter_app. cbn [filter executor_event].
        fold (executor_view t1). rewrite (executor_view_bot t1 Hquiet).
        rewrite Hv. reflexivity.
      * apply same_fields_trans with s1; [exact Hsame |].
        apply same_fields_trans with s2; [apply same_fields_set_bot |].
        exact Hf.
Qed.

Lemma keeps_weaken {S A} (R : S -> S -> Prop) (T T' : Event -> Prop)
    (m : Eff.M Event S A) :
  (forall e, T e -> T' e) -> keeps R T m -> keeps R T' m.
Proof.
  intros HT Hm s. destruct (Hm s) as [Hs Ht]. split; [exact Hs |].
  eapply Forall_impl; eassumption.
Qed.

(** Whatever the indices, the loop changes nothing of the executor but its
    bot. *)
Lemma dispatch_same_fields (rest : list Action) :
  forall len i n,
    keeps same_fields (fun _ => True) (TaskExecutor.dispatch env len i rest n).
Proof.
  induction rest as [| a rest IH]; intros len i n; simpl.
  - quiet.
  - quiet; try (apply keeps_emit; [eauto with quiet | exact I]).
    + apply keeps_weaken with (T := bot_event); [intros; exact I |].
      apply executeTask_handler_level.
    + intro s. split; [apply same_fields_set_bot | repeat constructor].
Qed.

Lemma dispatch_keeps_history (len i : Z) (rest : list Action) (n : Z)
    (s : TaskExecutor.t) :
  TaskExecutor.executionHistory
    (final (TaskExecutor.dispatch env len i rest n s))
  = TaskExecutor.executionHistory s.
Proof.
  destruct (dispatch_same_fields rest len i n s) as [(_ & _ & H) _]. exact H.
Qed.

Lemma successes_view (tr : list Event) :
  successes (executor_view tr) = successes tr.
Proof.
  induction tr as [| e tr IH]; [reflexivity |].
  unfold executor_view in *. destruct e as [| [|] | | | | | | |]; simpl;
    rewrite ?IH; reflexivity.
Qed.

Lemma dispatched_view (tr : list Event) :
  dispatched (executor_view tr) = dispatched tr.
Proof.
  induction tr as [| e tr IH]; [reflexivity |].
  unfold executor_view in *. destruct e; simpl; rewrite ?IH; reflexivity.
Qed.

Lemma successes_schedule (plan : list Action) :
  forall results,
    List.length results = List.length plan ->
    successes (schedule plan results) = count_true results.
Proof.
  induction plan as [| a plan IH]; intros [| ok results] Hl;
    try discriminate; [reflexivity |].
  rewrite count_true_cons. simpl in Hl. injection Hl as Hl.
  specialize (IH results Hl).
  destruct plan as [| a' plan].
  - destruct results; [| discriminate]. destruct ok; reflexivity.
  - cbn [schedule successes] in *. destruct ok; rewrite IH; reflexivity.
Qed.

Lemma dispatched_schedule (plan : list Action) :
  forall results,
    List.length results = List.length plan ->
    dispatched (schedule plan results) = plan.
Proof.
  induction plan as [| a plan IH]; intros [| ok results] Hl;
    try discriminate; [reflexivity |].
  simpl in Hl. injection Hl as Hl. specialize (IH results Hl).
  destruct plan as [| a' plan]; [reflexivity |].
  cbn [schedule dispatched] in *. rewrite IH. reflexivity.
Qed.

Lemma count_true_bounds (results : list bool) :
  0 <= count_true results <= Z.of_nat (List.length results).
Proof.
  unfold count_true. split; [lia |].
  apply inj_le. apply filter_length_le.
Qed.

End Methods.

(** ** [executeCommand], path by path *)

Section Pipeline.
Variable env : Environment.
Variable llm : string -> GameState -> MinecraftBot.M (option ParsedCommand).
Variable now : TaskExecutor.t -> string.

Lemma executeCommand_busy_run (userInput : string) (s : TaskExecutor.t) :
  TaskExecutor.isExecuting s = true ->
  TaskExecutor.executeCommand env llm now userInput s = (Ret false, s, []).
Proof.
  intro Hbusy. unfold TaskExecutor.executeCommand, bind, gets.
  rewrite Hbusy. reflexivity.
Qed.

(** The state in which the [finally] block leaves an executor whose [try]
    block ended in [s1]. *)
Lemma executeCommand_idle_run (userInput : string) (s : TaskExecutor.t) :
  TaskExecutor.isExecuting s = false ->
  TaskExecutor.executeCommand env llm now userInput s =
  let '(r, s1, t1) :=
    TaskExecutor.executeCommand_body env llm now userInput s in
  (match r with
   | Ret ok => Ret ok
   | Throw _ => Ret false
   | ThrowNullish reason => Throw (cannot_read reason "message")
   end,
   TaskExecutor.set_isExecuting false s1, t1).
Proof.
  intro Hidle. unfold TaskExecutor.executeCommand, bind at 1, gets at 1.
  rewrite Hidle. unfold finally, try_catch, modify, ret.
  destruct (TaskExecutor.executeCommand_body env llm now userInput s)
    as [[[ok | e | v] s1] t1]; simpl; rewrite ?app_nil_r; reflexivity.
Qed.

Lemma body_no_state (userInput : string) (s : TaskExecutor.t) :
  MinecraftBot.getGameState (TaskExecutor.bot s) = None ->
  TaskExecutor.executeCommand_body env llm now userInput s =
  (Ret false, TaskExecutor.set_isExecuting true s, []).
Proof.
  intro Hgs. unfold TaskExecutor.executeCommand_body, bind, modify, gets.
  simpl. rewrite Hgs. reflexivity.
Qed.

Lemma body_parse_throws (userInput : string) (s : TaskExecutor.t)
    (gs : GameState) (e : string) (b' : MinecraftBot.t) (tr : list Event) :
  MinecraftBot.getGameState (TaskExecutor.bot s) = Some gs ->
  llm userInput gs (TaskExecutor.bot s) = (Throw e, b', tr) ->
  TaskExecutor.executeCommand_body env llm now userInput s =
  (Throw e, TaskExecutor.set_bot b' (TaskExecutor.set_isExecuting true s), tr).
Proof.
  intros Hgs Hllm.
  unfold TaskExecutor.executeCommand_body, bind, modify, gets,
    TaskExecutor.on_bot, zoom.
  cbn [TaskExecutor.bot TaskExecutor.set_isExecuting]. rewrite Hgs.
  cbn [TaskExecutor.bot TaskExecutor.set_isExecuting]. rewrite Hllm.
  reflexivity.
Qed.

Lemma body_no_plan (userInput : string) (s : TaskExecutor.t)
    (gs : GameState) (parsed : option ParsedCommand) (b' : MinecraftBot.t)
    (tr : list Event) :
  MinecraftBot.getGameState (TaskExecutor.bot s) = Some gs ->
  llm userInput gs (TaskExecutor.bot s) = (Ret parsed, b', tr) ->
  match parsed with
  | None => True
  | Some parsedCommand => actions parsedCommand = []
  end ->
  TaskExecutor.executeCommand_body env llm now userInput s =
  (Ret false, TaskExecutor.set_bot b' (TaskExecutor.set_isExecuting true s),
   tr).
Proof.
  intros Hgs Hllm Hplan.
  unfold TaskExecutor.executeCommand_body, bind, modify, gets,
    TaskExecutor.on_bot, zoom.
  cbn [TaskExecutor.bot TaskExecutor.set_isExecuting]. rewrite Hgs.
  cbn [TaskExecutor.bot TaskExecutor.set_isExecuting]. rewrite Hllm.
  destruct parsed as [pc |]; simpl.
  - rewrite Hplan. simpl. rewrite app_nil_r. reflexivity.
  - rewrite app_nil_r. reflexivity.
Qed.

(** A rejection with [undefined] or [null] leaves the [try] block as it
    is. *)
Lemma body_parse_rejects (userInput : string) (s : TaskExecutor.t)
    (gs : GameState) (reason : nullish) (b' : MinecraftBot.t)
    (tr : list Event) :
  MinecraftBot.getGameState (TaskExecutor.bot s) = Some gs ->
  llm userInput gs (TaskExecutor.bot s) = (ThrowNullish reason, b', tr) ->
  TaskExecutor.executeCommand_body env llm now userInput s =
  (ThrowNullish reason,
   TaskExecutor.set_bot b' (TaskExecutor.set_isExecuting true s), tr).
Proof.
  intros Hgs Hllm.
  unfold TaskExecutor.executeCommand_body, bind, modify, gets,
    TaskExecutor.on_bot, zoom.
  cbn [TaskExecutor.bot TaskExecutor.set_isExecuting]. rewrite Hgs.
  cbn [TaskExecutor.bot TaskExecutor.set_isExecuting]. rewrite Hllm.
  reflexivity.
Qed.

(** With a plan of at least one action the [try] block runs the plan in
    sequence, from the executor as the parser left it, and then appends the
    history entry. *)
Lemma body_plan (userInput : string) (s : TaskExecutor.t)
    (gs : GameState) (pc : ParsedCommand) (b' : MinecraftBot.t)
    (tr : list Event) :
  MinecraftBot.getGameState (TaskExecutor.bot s) = Some gs ->
  llm userInput gs (TaskExecutor.bot s) = (Ret (Some pc), b', tr) ->
  actions pc <> [] ->
  let run :=
    in_sequence env (actions pc)
      (TaskExecutor.set_bot b' (TaskExecutor.set_isExecuting true s)) in
  TaskExecutor.executeCommand_body env llm now userInput s =
  (Ret (0 <? count_true (run_results run)),
   TaskExecutor.push_history
     {| TaskExecutor.input := userInput;
        TaskExecutor.tasks := actions pc;
        TaskExecutor.successCount := count_true (run_results run);
        TaskExecutor.timestamp := now (run_final run) |} (run_final run),
   tr ++ run_events run).
Proof.
  intros Hgs Hllm Hplan run.
  set (s1 := TaskExecutor.set_bot b' (TaskExecutor.set_isExecuting true s))
    in *.
  destruct (dispatch_in_sequence env (actions pc)
              (Z.of_nat (List.length (actions pc))) 0 0 s1)
    as (Hd & _); [lia |].
  fold run in Hd. rewrite Z.add_0_l in Hd.
  unfold TaskExecutor.executeCommand_body, bind at 1, modify at 1.
  unfold bind at 1, gets at 1.
  cbn [TaskExecutor.bot TaskExecutor.set_isExecuting]. rewrite Hgs.
  unfold bind at 1, TaskExecutor.on_bot at 1, zoom at 1.
  cbn [TaskExecutor.bot TaskExecutor.set_isExecuting]. rewrite Hllm.
  assert (Hn : (Z.of_nat (List.length (actions pc)) =? 0) = false).
  { apply Z.eqb_neq. destruct (actions pc); [congruence | simpl; lia]. }
  rewrite Hn. unfold bind at 1. fold s1. rewrite Hd.
  unfold bind, gets, modify, ret. simpl.
  rewrite !app_nil_r. reflexivity.
Qed.

(** What the run of a plan from [s1] leaves of the executor's own
    fields, and how its events read. *)
Lemma in_sequence_facts (plan : list Action) (s1 : TaskExecutor.t) :
  let run := in_sequence env plan s1 in
  List.length (run_results run) = List.length plan
  /\ executor_view (run_events run) = schedule plan (run_results run)
  /\ dispatched (run_events run) = plan
  /\ successes (run_events run) = count_true (run_results run)
  /\ same_fields s1 (run_final run).
Proof.
  intro run.
  destruct (dispatch_in_sequence env plan (Z.of_nat (List.length plan)) 0 0 s1)
    as (_ & Hl & Hv & Hf); [lia |].
  fold run in Hl, Hv, Hf.
  split; [exact Hl |]. split; [exact Hv |]. split; [| split; [| exact Hf]].
  - rewrite <- dispatched_view. unfold executor_view in *. rewrite Hv.
    apply dispatched_schedule. exact Hl.
  - rewrite <- successes_view. unfold executor_view in *. rewrite Hv.
    apply successes_schedule. exact Hl.
Qed.

(** What leaves the [try] block is what the parser rejected with. *)
Lemma body_outcome (userInput : string) (s : TaskExecutor.t) :
  match result (TaskExecutor.executeCommand_body env llm now userInput s) with
  | Ret _ => True
  | thrown =>
      exists gs,
        MinecraftBot.getGameState (TaskExecutor.bot s) = Some gs
        /\ match result (llm userInput gs (TaskExecutor.bot s)), thrown with
           | Throw e, Throw e' => e = e'
           | ThrowNullish v, ThrowNullish v' => v = v'
           | _, _ => False
           end
  end.
Proof.
  destruct (MinecraftBot.getGameState (TaskExecutor.bot s)) as [gs |] eqn:Hgs.
  - destruct (llm userInput gs (TaskExecutor.bot s))
      as [[[[pc |] | e | v] b'] tr] eqn:Hllm.
    + destruct (actions pc) as [| a plan] eqn:Hplan.
      * rewrite (body_no_plan userInput s gs (Some pc) b' tr Hgs Hllm Hplan).
        exact I.
      * assert (Hne : actions pc <> []) by (rewrite Hplan; discriminate).
        rewrite (body_plan userInput s gs pc b' tr Hgs Hllm Hne). exact I.
    + rewrite (body_no_plan userInput s gs None b' tr Hgs Hllm I). exact I.
    + rewrite (body_parse_throws userInput s gs e b' tr Hgs Hllm).
      exists gs. rewrite Hllm. split; reflexivity.
    + rewrite (body_parse_rejects userInput s gs v b' tr Hgs Hllm).
      exists gs. rewrite Hllm. split; reflexivity.
  - rewrite (body_no_state userInput s Hgs). exact I.
Qed.

End Pipeline.

(** ** The parser of the application *)

(** When the call to the language model throws, [parseCommand] resolves to
    the plan of the fallback parser. *)
Lemma parseCommand_falls_back (env : Environment) (instruction : string)
    (context : GameState) (b : MinecraftBot.t) (e : string) :
  llm_reply env instruction context = Throw e ->
  LLMInterface.parseCommand env instruction context b
  = (Ret (LLMInterface.createFallbackCommand instruction),
     final (LLMInterface.analyzeTask env instruction context b),
     [Ask instruction]).
Proof.
  intro Hreply.
  unfold LLMInterface.parseCommand, try_catch_any, bind,
    LLMInterface.analyzeTask, final.
  rewrite Hreply. reflexivity.
Qed.

(** [parseCommand] never rejects: what the call to the language model or
    the conversion of its reply throws is caught. *)
Lemma parseCommand_always_resolves (env : Environment) (instruction : string)
    (context : GameState) (b : MinecraftBot.t) :
  exists plan,
    result (LLMInterface.parseCommand env instruction context b) = Ret plan.
Proof.
  unfold LLMInterface.parseCommand. apply try_catch_any_returns.
  intros s1. eexists. reflexivity.
Qed.

Lemma llm_of_resolves (env : Environment) (instruction : string)
    (context : GameState) (b : MinecraftBot.t) :
  exists plan,
    result (TaskExecutor.llm_of env instruction context b) = Ret (Some plan).
Proof.
  destruct (parseCommand_always_resolves env instruction context b)
    as [plan Hplan].
  exists plan. unfold TaskExecutor.llm_of, bind, ret, result in *.
  destruct (LLMInterface.parseCommand env instruction context b)
    as [[r b1] t1].
  simpl in Hplan. subst r. reflexivity.
Qed.

End Facts.

(* ================================================================== *)
(** * Properties of the pipeline *)

Module Properties.

Import Spec EffFacts Facts Scenario.

(** ** The single-flight guard *)

(** C1. A call of [executeCommand] made while another call is in flight
    ([isExecuting] is true) returns [false] at once, dispatches no action
    and has no effect on the executor: no history entry is appended, and
    [isExecuting] and [taskQueue] are unchanged. *)
Theorem busy_call_is_rejected (env : Environment)
    (llm : string -> GameState -> MinecraftBot.M (option ParsedCommand))
    (now : TaskExecutor.t -> string) (userInput : string)
    (s : TaskExecutor.t) :
  TaskExecutor.isExecuting s = true ->
  let r := TaskExecutor.executeCommand env llm now userInput s in
  result r = Ret false
  /\ trace r = []
  /\ dispatched (trace r) = []
  /\ final r = s
  /\ TaskExecutor.executionHistory (final r) = TaskExecutor.executionHistory s
  /\ TaskExecutor.isExecuting (final r) = TaskExecutor.isExecuting s
  /\ TaskExecutor.taskQueue (final r) = TaskExecutor.taskQueue s.
Proof.
  intros Hbusy r. subst r.
  rewrite (executeCommand_busy_run env llm now userInput s Hbusy).
  repeat split.
Qed.

Lemma busy_call_is_rejected_witness :
  let s := busy (connected (session (at_ 10 64 20) [])) in
  TaskExecutor.isExecuting s = true
  /\ result (run offline "前に3歩歩いて" s) = Ret false
  /\ trace (run offline "前に3歩歩いて" s) = [].
Proof.
  intro s. split; [reflexivity |].
  destruct (busy_call_is_rejected offline (TaskExecutor.llm_of offline) clock
              "前に3歩歩いて" s eq_refl) as (Hr & Ht & _).
  split; [exact Hr | exact Ht].
Defined.

(** ** The dispatch loop *)

(** C2. For a parsed plan of n >= 1 actions that reaches the dispatch
    loop, [executeCommand] returns [true] if and only if [successCount],
    the number of dispatched actions that succeeded, is positive; so a
    partial success, 0 < successCount < n, is reported as a success.
    [successCount] is the number of calls of [executeTask], one per action
    of the plan, run in sequence, that resolved to [true]. *)
Theorem success_iff_some_action_succeeded (env : Environment)
    (llm : string -> GameState -> MinecraftBot.M (option ParsedCommand))
    (now : TaskExecutor.t -> string) (userInput : string)
    (s : TaskExecutor.t) (gs : GameState) (pc : ParsedCommand)
    (b' : MinecraftBot.t) (tr : list Event) :
  TaskExecutor.isExecuting s = false ->
  MinecraftBot.getGameState (TaskExecutor.bot s) = Some gs ->
  llm userInput gs (TaskExecutor.bot s) = (Ret (Some pc), b', tr) ->
  actions pc <> [] ->
  let r := TaskExecutor.executeCommand env llm now userInput s in
  let run :=
    in_sequence env (actions pc)
      (TaskExecutor.set_bot b' (TaskExecutor.set_isExecuting true s)) in
  exists entry,
    trace r = tr ++ run_events run
    /\ List.length (run_results run) = List.length (actions pc)
    /\ TaskExecutor.executionHistory (final r)
       = TaskExecutor.executionHistory s ++ [entry]
    /\ TaskExecutor.successCount entry = count_true (run_results run)
    /\ TaskExecutor.successCount entry = successes (run_events run)
    /\ 0 <= TaskExecutor.successCount entry
         <= Z.of_nat (List.length (actions pc))
    /\ result r = Ret (0 <? TaskExecutor.successCount entry)
    /\ (result r = Ret true <-> 0 < TaskExecutor.successCount entry)
    /\ (result r = Ret true <-> In true (run_results run))
    /\ (0 < TaskExecutor.successCount entry
          < Z.of_nat (List.length (actions pc)) -> result r = Ret true).
Proof.
  intros Hidle Hgs Hllm Hplan r run. subst r.
  rewrite (executeCommand_idle_run env llm now userInput s Hidle).
  rewrite (body_plan env llm now userInput s gs pc b' tr Hgs Hllm Hplan).
  fold run.
  destruct (in_sequence_facts env (actions pc)
              (TaskExecutor.set_bot b' (TaskExecutor.set_isExecuting true s)))
    as (Hl & _ & _ & Hsucc & (_ & _ & Hhist)).
  fold run in Hl, Hsucc, Hhist.
  eexists. unfold result, final, trace.
  cbn [fst snd TaskExecutor.set_isExecuting TaskExecutor.push_history
         TaskExecutor.executionHistory TaskExecutor.successCount].
  split; [reflexivity |]. split; [exact Hl |].
  split; [rewrite Hhist; reflexivity |].
  split; [reflexivity |]. split; [symmetry; exact Hsucc |].
  split; [rewrite <- Hl; apply count_true_bounds |].
  split; [reflexivity |].
  assert (Hpos : 0 < count_true (run_results run)
                 <-> In true (run_results run)).
  { unfold count_true. generalize (run_results run) as l.
    induction l as [| [|] l IH]; simpl.
    - split; [lia | tauto].
    - split; [auto | lia].
    - rewrite IH. split; [auto | intros [H | H]; [discriminate | exact H]]. }
  split; [| split].
  - split.
    + intro H. injection H as H. apply Z.ltb_lt. exact H.
    + intro H. f_equal. apply Z.ltb_lt. exact H.
  - rewrite <- Hpos. split.
    + intro H. injection H as H. apply Z.ltb_lt. exact H.
    + intro H. f_equal. apply Z.ltb_lt. exact H.
  - intros [H _]. f_equal. apply Z.ltb_lt. exact H.
Qed.

Lemma success_iff_some_action_succeeded_witness :
  let s := idle (connected (session (at_ 10 64 20) [])) in
  let plan := [chat_action "hello"; place_action] in
  let r := TaskExecutor.executeCommand (calm (Ret VNull)) (planned plan)
             clock "say hello and place dirt" s in
  exists entry,
    TaskExecutor.executionHistory (final r) = [entry]
    /\ TaskExecutor.successCount entry = 1
    /\ Z.of_nat (List.length plan) = 2
    /\ result r = Ret true
    /\ trace r
       = [Dispatch (chat_action "hello"); Chat (VStr "hello"); Completed true;
          Wait 1000; Dispatch place_action; Completed false].
Proof.
  intros s plan r.
  destruct (success_iff_some_action_succeeded (calm (Ret VNull))
              (planned plan) clock "say hello and place dirt" s
              {| position := at_ 10 64 20; gs_health := 20; gs_food := 20;
                 inventory := []; nearbyBlocks := []; nearbyEntities := [];
                 time := 1000; weather := "clear" |}
              {| success := true; actions := plan;
                 reasoning := VStr EmptyString;
                 originalInput := "say hello and place dirt";
                 fallback := false; error := None |}
              (connected (session (at_ 10 64 20) [])) [])
    as (entry & Htrace & _ & Hhist & Hcount & _ & _ & Hres & _).
  - reflexivity.
  - vm_compute. reflexivity.
  - reflexivity.
  - discriminate.
  - exists entry. split; [exact Hhist |].
    split; [rewrite Hcount; vm_compute; reflexivity |].
    split; [reflexivity |].
    split; [fold r in Hres; rewrite Hres, Hcount; vm_compute; reflexivity |].
    fold r in Htrace. rewrite Htrace. vm_compute. reflexivity.
Defined.

(** C3. For a plan of n >= 1 actions, [executeCommand] dispatches exactly
    the n actions, in plan order, each one awaited before the next is
    dispatched, with a wait of 1000 ms between two consecutive dispatches
    and none after the last; a failed action does not stop the dispatch of
    the following ones.  After the events of the parser, the events of the
    call are those of the plan run in sequence: for each action its
    dispatch, the events of its [executeTask] call in the state left by the
    action before, and its completion. *)
Theorem plan_is_dispatched_in_order (env : Environment)
    (llm : string -> GameState -> MinecraftBot.M (option ParsedCommand))
    (now : TaskExecutor.t -> string) (userInput : string)
    (s : TaskExecutor.t) (gs : GameState) (pc : ParsedCommand)
    (b' : MinecraftBot.t) (tr : list Event) :
  TaskExecutor.isExecuting s = false ->
  MinecraftBot.getGameState (TaskExecutor.bot s) = Some gs ->
  llm userInput gs (TaskExecutor.bot s) = (Ret (Some pc), b', tr) ->
  actions pc <> [] ->
  let r := TaskExecutor.executeCommand env llm now userInput s in
  let run :=
    in_sequence env (actions pc)
      (TaskExecutor.set_bot b' (TaskExecutor.set_isExecuting true s)) in
  trace r = tr ++ run_events run
  /\ List.length (run_results run) = List.length (actions pc)
  /\ executor_view (run_events run) = schedule (actions pc) (run_results run)
  /\ dispatched (run_events run) = actions pc
  /\ TaskExecutor.bot (final r) = TaskExecutor.bot (run_final run).
Proof.
  intros Hidle Hgs Hllm Hplan r run. subst r.
  rewrite (executeCommand_idle_run env llm now userInput s Hidle).
  rewrite (body_plan env llm now userInput s gs pc b' tr Hgs Hllm Hplan).
  fold run.
  destruct (in_sequence_facts env (actions pc)
              (TaskExecutor.set_bot b' (TaskExecutor.set_isExecuting true s)))
    as (Hl & Hv & Hd & _ & _).
  fold run in Hl, Hv, Hd. unfold trace, final; simpl.
  repeat split; assumption.
Qed.

Lemma plan_is_dispatched_in_order_witness :
  let s := idle (connected (session (at_ 10 64 20) [])) in
  let move := LLMInterface.mkAction "move"
                [("x", num 0); ("y", num 64); ("z", num 0)] in
  let plan := [move; place_action; chat_action "hello"] in
  let r := TaskExecutor.executeCommand (stuck (Ret VNull)) (planned plan)
             clock "go, place dirt and say hello" s in
  trace r
  = [Dispatch move;
     SetGoal (Some (GoalBlock (Int 0) (Int 64) (Int 0)));
     AwaitGoal 30000 false;
     SetGoal None;
     Completed false;
     Wait 1000;
     Dispatch place_action;
     Completed false;
     Wait 1000;
     Dispatch (chat_action "hello");
     Chat (VStr "hello");
     Completed true]
  /\ dispatched (trace r) = plan.
Proof.
  intros s move plan r.
  destruct (plan_is_dispatched_in_order (stuck (Ret VNull)) (planned plan)
              clock "go, place dirt and say hello" s
              {| position := at_ 10 64 20; gs_health := 20; gs_food := 20;
                 inventory := []; nearbyBlocks := []; nearbyEntities := [];
                 time := 1000; weather := "clear" |}
              {| success := true; actions := plan;
                 reasoning := VStr EmptyString;
                 originalInput := "go, place dirt and say hello";
                 fallback := false; error := None |}
              (connected (session (at_ 10 64 20) [])) [])
    as (Htrace & _ & _ & Hd & _).
  - reflexivity.
  - vm_compute. reflexivity.
  - reflexivity.
  - discriminate.
  - fold r in Htrace. rewrite Htrace. split; [vm_compute; reflexivity |].
    cbn [app]. exact Hd.
Defined.

(** ** Exits of [executeCommand] *)

(** C4, amended. [executeCommand] never propagates an [Error] thrown
    inside it: the exception is caught and yields [false].  Wired to the
    [LLMInterface] of the application it always resolves to a boolean.  When
    the call is not rejected as busy (missing game state, no plan, empty
    plan, completed dispatch loop, internal exception), [isExecuting] is
    false after it.  When the call is rejected as busy, the executor is left
    as it was, so [isExecuting] is still true: it belongs to the call in
    flight. *)
Theorem executeCommand_returns_and_releases (env : Environment)
    (llm : string -> GameState -> MinecraftBot.M (option ParsedCommand))
    (now : TaskExecutor.t -> string) (userInput : string)
    (s : TaskExecutor.t) :
  let r := TaskExecutor.executeCommand env llm now userInput s in
  ((forall gs reason,
      MinecraftBot.getGameState (TaskExecutor.bot s) = Some gs ->
      result (llm userInput gs (TaskExecutor.bot s)) <> ThrowNullish reason) ->
   exists ok, result r = Ret ok)
  /\ (exists ok,
        result (TaskExecutor.executeCommand env (TaskExecutor.llm_of env) now
                  userInput s) = Ret ok)
  /\ (TaskExecutor.isExecuting s = false ->
      TaskExecutor.isExecuting (final r) = false)
  /\ (TaskExecutor.isExecuting s = true ->
      final r = s /\ TaskExecutor.isExecuting (final r) = true)
  /\ (forall gs e b' tr,
        TaskExecutor.isExecuting s = false ->
        MinecraftBot.getGameState (TaskExecutor.bot s) = Some gs ->
        llm userInput gs (TaskExecutor.bot s) = (Throw e, b', tr) ->
        result r = Ret false).
Proof.
  assert (Hcaught :
    forall llm0,
      (forall gs reason,
         MinecraftBot.getGameState (TaskExecutor.bot s) = Some gs ->
         result (llm0 userInput gs (TaskExecutor.bot s))
         <> ThrowNullish reason) ->
      exists ok,
        result (TaskExecutor.executeCommand env llm0 now userInput s)
        = Ret ok).
  { intros llm0 Herrors.
    destruct (TaskExecutor.isExecuting s) eqn:Hlatch.
    - rewrite (executeCommand_busy_run env llm0 now userInput s Hlatch).
      exists false. reflexivity.
    - rewrite (executeCommand_idle_run env llm0 now userInput s Hlatch).
      pose proof (body_outcome env llm0 now userInput s) as Hbody.
      unfold result in Hbody |- *.
      destruct (TaskExecutor.executeCommand_body env llm0 now userInput s)
        as [[[ok | e | v] s1] t1]; cbn [fst snd] in *.
      + exists ok. reflexivity.
      + exists false. reflexivity.
      + destruct Hbody as (gs & Hgs & Hllm).
        destruct (Herrors gs v Hgs). unfold result.
        destruct (llm0 userInput gs (TaskExecutor.bot s))
          as [[[p | e | v'] b1] t2];
          cbn [fst] in *; try contradiction. subst v'. reflexivity. }
  intro r. subst r. split; [apply Hcaught |]. split.
  { apply Hcaught. intros gs reason _ Hreject.
    destruct (llm_of_resolves env userInput gs (TaskExecutor.bot s))
      as [plan Hplan].
    rewrite Hplan in Hreject. discriminate. }
  destruct (TaskExecutor.isExecuting s) eqn:Hlatch.
  - rewrite (executeCommand_busy_run env llm now userInput s Hlatch).
    unfold final; simpl.
    split; [discriminate |]. split; [auto | discriminate].
  - rewrite (executeCommand_idle_run env llm now userInput s Hlatch).
    destruct (TaskExecutor.executeCommand_body env llm now userInput s)
      as [[[ok | e | v] s1] t1] eqn:Hbody; unfold result, final; simpl;
      (split; [reflexivity |]); (split; [discriminate |]);
      intros gs e' b' tr _ Hgs Hllm;
      rewrite (body_parse_throws env llm now userInput s gs e' b' tr Hgs Hllm)
        in Hbody;
      try discriminate.
    reflexivity.
Qed.

Lemma executeCommand_returns_and_releases_witness :
  let s := idle (connected (session (at_ 10 64 20) [])) in
  let r := TaskExecutor.executeCommand offline failing clock "dig" s in
  result r = Ret false /\ TaskExecutor.isExecuting (final r) = false.
Proof.
  intros s r.
  destruct (executeCommand_returns_and_releases offline failing clock "dig" s)
    as (_ & _ & Hrelease & _ & Hthrow).
  split.
  - refine (Hthrow
              {| position := at_ 10 64 20; gs_health := 20; gs_food := 20;
                 inventory := []; nearbyBlocks := []; nearbyEntities := [];
                 time := 1000; weather := "clear" |}
              "parse failed" (connected (session (at_ 10 64 20) [])) []
              _ _ _).
    + reflexivity.
    + vm_compute. reflexivity.
    + reflexivity.
  - apply Hrelease. reflexivity.
Defined.

(** C4 as stated fails on the busy rejection: the call returns with
    [isExecuting] still true. *)
Lemma busy_rejection_keeps_the_latch :
  let s := busy (connected (session (at_ 10 64 20) [])) in
  let r := run offline "前に3歩歩いて" s in
  result r = Ret false
  /\ TaskExecutor.isExecuting (final r) <> false.
Proof. intros s r. split; [reflexivity | discriminate]. Qed.

(** A parser that rejects with [undefined] is outside the amended C4: the
    [catch] block of [executeCommand] fails reading [error.message], and
    its [TypeError] reaches the caller, after the [finally] block has
    cleared [isExecuting]. *)
Example undefined_rejection_escapes :
  let s := idle (connected (session (at_ 10 64 20) [])) in
  let r := TaskExecutor.executeCommand offline rejecting clock "dig" s in
  result r = Throw "Cannot read properties of undefined (reading 'message')"
  /\ TaskExecutor.isExecuting (final r) = false
  /\ TaskExecutor.executionHistory (final r) = [].
Proof. intros s r. repeat split. Qed.

(** C10. Whenever [executeCommand] returns before the dispatch loop (the
    executor is busy, the game state is unavailable, the parser yields
    nothing or an empty plan) or the parser throws, [executionHistory] is
    unchanged.  Otherwise exactly one entry is appended, for the plan whose
    actions have all been dispatched; the loop itself does not touch the
    history, so the entry is appended after it. *)
Theorem history_grows_only_after_the_loop (env : Environment)
    (llm : string -> GameState -> MinecraftBot.M (option ParsedCommand))
    (now : TaskExecutor.t -> string) (userInput : string)
    (s : TaskExecutor.t) :
  let r := TaskExecutor.executeCommand env llm now userInput s in
  let unchanged :=
    TaskExecutor.executionHistory (final r) = TaskExecutor.executionHistory s
    /\ result r = Ret false in
  let appended (pc : ParsedCommand) (tr : list Event) :=
    exists entry loop,
      TaskExecutor.executionHistory (final r)
      = TaskExecutor.executionHistory s ++ [entry]
      /\ TaskExecutor.input entry = userInput
      /\ TaskExecutor.tasks entry = actions pc
      /\ trace r = tr ++ loop
      /\ dispatched loop = actions pc in
  (TaskExecutor.isExecuting s = true -> unchanged)
  /\ (MinecraftBot.getGameState (TaskExecutor.bot s) = None -> unchanged)
  /\ (forall gs out b' tr,
        TaskExecutor.isExecuting s = false ->
        MinecraftBot.getGameState (TaskExecutor.bot s) = Some gs ->
        llm userInput gs (TaskExecutor.bot s) = (out, b', tr) ->
        match out with
        | Throw _ => unchanged
        | ThrowNullish _ =>
            TaskExecutor.executionHistory (final r)
            = TaskExecutor.executionHistory s
        | Ret None => unchanged
        | Ret (Some pc) =>
            match actions pc with
            | [] => unchanged
            | _ :: _ => appended pc tr
            end
        end)
  /\ (forall len i rest n s0,
        TaskExecutor.executionHistory
          (final (TaskExecutor.dispatch env len i rest n s0))
        = TaskExecutor.executionHistory s0).
Proof.
  intros r unchanged appended. subst r unchanged appended. cbv beta.
  split; [| split; [| split]].
  - intro Hbusy.
    rewrite (executeCommand_busy_run env llm now userInput s Hbusy).
    split; reflexivity.
  - intro Hgs. destruct (TaskExecutor.isExecuting s) eqn:Hlatch.
    + rewrite (executeCommand_busy_run env llm now userInput s Hlatch).
      split; reflexivity.
    + rewrite (executeCommand_idle_run env llm now userInput s Hlatch).
      rewrite (body_no_state env llm now userInput s Hgs).
      split; reflexivity.
  - intros gs out b' tr Hidle Hgs Hllm.
    rewrite (executeCommand_idle_run env llm now userInput s Hidle).
    destruct out as [[pc |] | e | v].
    + destruct (actions pc) as [| a plan] eqn:Hplan.
      * rewrite (body_no_plan env llm now userInput s gs (Some pc) b' tr
                   Hgs Hllm Hplan).
        split; reflexivity.
      * assert (Hne : actions pc <> []) by (rewrite Hplan; discriminate).
        rewrite (body_plan env llm now userInput s gs pc b' tr Hgs Hllm Hne).
        destruct (in_sequence_facts env (actions pc)
                    (TaskExecutor.set_bot b'
                       (TaskExecutor.set_isExecuting true s)))
          as (_ & _ & Hd & _ & (_ & _ & Hhist)).
        eexists. eexists. unfold final, trace; simpl.
        rewrite Hhist. split; [reflexivity |]. split; [reflexivity |].
        split; [exact Hplan |]. split; [reflexivity |].
        rewrite <- Hplan. exact Hd.
    + rewrite (body_no_plan env llm now userInput s gs None b' tr Hgs Hllm I).
      split; reflexivity.
    + rewrite (body_parse_throws env llm now userInput s gs e b' tr Hgs Hllm).
      split; reflexivity.
    + rewrite (body_parse_rejects env llm now userInput s gs v b' tr Hgs Hllm).
      reflexivity.
  - intros len i rest n s0. apply dispatch_keeps_history.
Qed.

Lemma history_grows_only_after_the_loop_witness :
  let s := idle (connected (session (at_ 10 64 20) [])) in
  let plan := [chat_action "hello"; place_action] in
  let r := TaskExecutor.executeCommand (calm (Ret VNull)) (planned plan)
             clock "say hello and place dirt" s in
  exists entry loop,
    TaskExecutor.executionHistory (final r)
    = TaskExecutor.executionHistory s ++ [entry]
    /\ TaskExecutor.input entry = "say hello and place dirt"
    /\ TaskExecutor.tasks entry = plan
    /\ trace r = [] ++ loop
    /\ dispatched loop = plan.
Proof.
  intros s plan.
  destruct (history_grows_only_after_the_loop (calm (Ret VNull))
              (planned plan) clock "say hello and place dirt" s)
    as (_ & _ & Hparsed & _).
  refine (Hparsed
            {| position := at_ 10 64 20; gs_health := 20; gs_food := 20;
               inventory := []; nearbyBlocks := []; nearbyEntities := [];
               time := 1000; weather := "clear" |}
            (Ret (Some {| success := true; actions := plan;
                          reasoning := VStr EmptyString;
                          originalInput := "say hello and place dirt";
                          fallback := false; error := None |}))
            (connected (session (at_ 10 64 20) [])) [] _ _ _).
  - reflexivity.
  - vm_compute. reflexivity.
  - reflexivity.
Defined.

(** ** Emergency stop *)

(** C8. [emergencyStop] is idempotent: called twice in a row it leaves the
    executor in the state in which one call leaves it, with [isExecuting]
    false, an empty [taskQueue] and no pending pathfinder goal; it never
    throws, whether the executor is idle or not. *)
Theorem emergencyStop_idempotent (s : TaskExecutor.t) :
  let once := TaskExecutor.emergencyStop s in
  let twice := TaskExecutor.emergencyStop (final once) in
  final twice = final once
  /\ result once = Ret tt
  /\ result twice = Ret tt
  /\ TaskExecutor.isExecuting (final once) = false
  /\ TaskExecutor.taskQueue (final once) = []
  /\ no_pending_goal (final once).
Proof.
  destruct s as [[[w |] connected] queue latch history];
    repeat split; reflexivity.
Qed.

(** ** Relative moves *)

Lemma executeMoveRelative_target (env : Environment) (s : TaskExecutor.t)
    (w : Mineflayer) (fields : list (string * value)) (x y z : number) :
  MinecraftBot.bot (TaskExecutor.bot s) = Some w ->
  lookup "x" fields = VNum x ->
  lookup "y" fields = VNum y ->
  lookup "z" fields = VNum z ->
  TaskExecutor.executeMoveRelative env (VObj fields) s
  = TaskExecutor.on_bot
      (MinecraftBot.moveToPosition env
         (add (Int (vx (entity_position (entity w)))) x)
         (add (Int (vy (entity_position (entity w)))) y)
         (add (Int (vz (entity_position (entity w)))) z)) s.
Proof.
  intros Hw Hx Hy Hz.
  unfold TaskExecutor.executeMoveRelative, bind, lift_outcome,
    TaskExecutor.on_bot, zoom, MinecraftBot.world.
  cbn [get]. rewrite Hx, Hy, Hz. simpl. rewrite Hw. simpl.
  destruct (MinecraftBot.moveToPosition env _ _ _ (TaskExecutor.bot s))
    as [[r b1] t1].
  reflexivity.
Qed.

(** On a connected bot [moveToPosition] starts by handing its target to
    the pathfinder. *)
Lemma moveToPosition_sets_goal (env : Environment) (x y z : number)
    (s : TaskExecutor.t) (w : Mineflayer) :
  MinecraftBot.bot (TaskExecutor.bot s) = Some w ->
  MinecraftBot.isConnected (TaskExecutor.bot s) = true ->
  exists rest,
    trace (TaskExecutor.on_bot (MinecraftBot.moveToPosition env x y z) s)
    = SetGoal (Some (GoalBlock x y z)) :: rest.
Proof.
  intros Hw Hc.
  unfold TaskExecutor.on_bot, zoom, MinecraftBot.moveToPosition, bind, gets,
    MinecraftBot.unavailable, MinecraftBot.pathfinder_setGoal,
    MinecraftBot.goal_reached_within.
  rewrite Hw, Hc. simpl. rewrite Hw. simpl.
  match goal with
  | |- context [await_goal env 30000 ?w0] =>
      destruct (await_goal env 30000 w0) as [[|] [w' lost]]
  end; simpl; eexists; reflexivity.
Qed.

(** C9. A [moveRelative] action with parameters [{x: 3, y: 0, z: 0}],
    executed while the bot stands at (10, 64, 20), calls [moveToPosition]
    with the absolute target (13, 64, 20): the current position plus the
    delta, componentwise.  So it is for every position and every delta of
    three numbers (the sum being that of the integers on safe integers); on
    a connected bot the target is the goal set on the pathfinder. *)
Theorem moveRelative_resolves_to_absolute_target (env : Environment)
    (s : TaskExecutor.t) (w : Mineflayer) :
  MinecraftBot.bot (TaskExecutor.bot s) = Some w ->
  let here := entity_position (entity w) in
  (forall (fields : list (string * value)) (x y z : number),
     lookup "x" fields = VNum x ->
     lookup "y" fields = VNum y ->
     lookup "z" fields = VNum z ->
     let targetX := add (Int (vx here)) x in
     let targetY := add (Int (vy here)) y in
     let targetZ := add (Int (vz here)) z in
     TaskExecutor.executeMoveRelative env (VObj fields) s
     = TaskExecutor.on_bot
         (MinecraftBot.moveToPosition env targetX targetY targetZ) s
     /\ (MinecraftBot.isConnected (TaskExecutor.bot s) = true ->
         exists rest,
           trace (TaskExecutor.executeMoveRelative env (VObj fields) s)
           = SetGoal (Some (GoalBlock targetX targetY targetZ)) :: rest))
  /\ (forall dx dy dz : Z,
        Forall safe_integer
          [vx here; vy here; vz here; dx; dy; dz;
           vx here + dx; vy here + dy; vz here + dz] ->
        TaskExecutor.executeMoveRelative env
          (VObj [("x", num dx); ("y", num dy); ("z", num dz)]) s
        = TaskExecutor.on_bot
            (MinecraftBot.moveToPosition env (Int (vx here + dx))
               (Int (vy here + dy)) (Int (vz here + dz))) s)
  /\ (here = {| vx := 10; vy := 64; vz := 20 |} ->
      let move := TaskExecutor.executeMoveRelative env
                    (VObj [("x", num 3); ("y", num 0); ("z", num 0)]) in
      move s
      = TaskExecutor.on_bot
          (MinecraftBot.moveToPosition env (Int 13) (Int 64) (Int 20)) s
      /\ (MinecraftBot.isConnected (TaskExecutor.bot s) = true ->
          exists rest,
            trace (move s)
            = SetGoal (Some (GoalBlock (Int 13) (Int 64) (Int 20))) :: rest)).
Proof.
  intros Hw here. subst here.
  assert (Hgeneral :
    forall (fields : list (string * value)) (x y z : number),
      lookup "x" fields = VNum x ->
      lookup "y" fields = VNum y ->
      lookup "z" fields = VNum z ->
      TaskExecutor.executeMoveRelative env (VObj fields) s
      = TaskExecutor.on_bot
          (MinecraftBot.moveToPosition env
             (add (Int (vx (entity_position (entity w)))) x)
             (add (Int (vy (entity_position (entity w)))) y)
             (add (Int (vz (entity_position (entity w)))) z)) s
      /\ (MinecraftBot.isConnected (TaskExecutor.bot s) = true ->
          exists rest,
            trace (TaskExecutor.executeMoveRelative env (VObj fields) s)
            = SetGoal
                (Some (GoalBlock
                         (add (Int (vx (entity_position (entity w)))) x)
                         (add (Int (vy (entity_position (entity w)))) y)
                         (add (Int (vz (entity_position (entity w)))) z)))
                :: rest)).
  { intros fields x y z Hx Hy Hz.
    rewrite (executeMoveRelative_target env s w fields x y z Hw Hx Hy Hz).
    split; [reflexivity |]. intro Hc.
    apply (moveToPosition_sets_goal env _ _ _ s w Hw Hc). }
  split; [exact Hgeneral |]. split.
  - intros dx dy dz _.
    apply (Hgeneral [("x", num dx); ("y", num dy); ("z", num dz)]
             (Int dx) (Int dy) (Int dz)); reflexivity.
  - intros Hpos move. subst move.
    destruct (Hgeneral [("x", num 3); ("y", num 0); ("z", num 0)]
                (Int 3) (Int 0) (Int 0) eq_refl eq_refl eq_refl)
      as [Hcall Hgoal].
    rewrite Hpos in Hcall, Hgoal. split; [exact Hcall | exact Hgoal].
Qed.

Lemma moveRelative_resolves_to_absolute_target_witness :
  let s := idle (connected (session (at_ 10 64 20) [])) in
  MinecraftBot.bot (TaskExecutor.bot s) = Some (session (at_ 10 64 20) [])
  /\ TaskExecutor.executeMoveRelative offline
       (VObj [("x", num 3); ("y", num 0); ("z", num 0)]) s
     = TaskExecutor.on_bot
         (MinecraftBot.moveToPosition offline (Int 13) (Int 64) (Int 20)) s
  /\ TaskExecutor.executeMoveRelative offline
       (VObj [("x", num (-2)); ("y", num 1); ("z", num 5)]) s
     = TaskExecutor.on_bot
         (MinecraftBot.moveToPosition offline (Int 8) (Int 65) (Int 25)) s.
Proof.
  intro s. split; [reflexivity |].
  destruct (moveRelative_resolves_to_absolute_target offline s
              (session (at_ 10 64 20) []) eq_refl)
    as (_ & Hdelta & Hinstance).
  split.
  - apply (Hinstance eq_refl).
  - apply (Hdelta (-2) 1 5). repeat constructor.
Defined.

(** ** The fallback parser *)

Lemma append_nonempty (a b : string) :
  b <> EmptyString -> (a ++ b)%string <> EmptyString.
Proof. intro Hb. destruct a; simpl; [exact Hb | discriminate]. Qed.

(** C5. The fallback parser, applied to any input string (empty or
    garbage input included), terminates and returns a well-formed result:
    an [actions] array (of one action of a known kind, with an object of
    parameters) and a non-empty [reasoning] string.  It never throws, and
    [parseCommand] resolves to its result when the language model fails. *)
Theorem fallback_always_yields_a_plan (instruction : string) :
  let plan := LLMInterface.createFallbackCommand instruction in
  (exists a text fields,
     actions plan = [a]
     /\ reasoning plan = VStr text
     /\ text <> EmptyString
     /\ params a = VObj fields
     /\ In (action a) ["moveRelative"; "chat"; "mine"])
  /\ originalInput plan = instruction
  /\ fallback plan = true
  /\ (forall env context b e,
        llm_reply env instruction context = Throw e ->
        result (LLMInterface.parseCommand env instruction context b)
        = Ret plan).
Proof.
  intro plan. subst plan. split; [| split; [| split]].
  - unfold LLMInterface.createFallbackCommand.
    repeat match goal with
           | |- context [if ?c then _ else _] => destruct c
           end;
      simpl; do 3 eexists;
      (split; [reflexivity |]); (split; [reflexivity |]);
      (split; [| split; [reflexivity | simpl; tauto]]);
      try discriminate.
    apply append_nonempty. discriminate.
  - unfold LLMInterface.createFallbackCommand.
    repeat match goal with
           | |- context [if ?c then _ else _] => destruct c
           end; reflexivity.
  - unfold LLMInterface.createFallbackCommand.
    repeat match goal with
           | |- context [if ?c then _ else _] => destruct c
           end; reflexivity.
  - intros env context b e Hreply.
    rewrite (parseCommand_falls_back env instruction context b e Hreply).
    reflexivity.
Qed.

Lemma fallback_always_yields_a_plan_witness :
  result (LLMInterface.parseCommand offline EmptyString
            {| position := at_ 0 0 0; gs_health := 20; gs_food := 20;
               inventory := []; nearbyBlocks := []; nearbyEntities := [];
               time := 0; weather := "clear" |} never_connected)
  = Ret (LLMInterface.createFallbackCommand EmptyString).
Proof.
  destruct (fallback_always_yields_a_plan EmptyString) as (_ & _ & _ & H).
  apply (H offline _ never_connected "Connection error."). reflexivity.
Defined.

Lemma createFallbackCommand_unrecognized (instruction : string) :
  unrecognized instruction = true ->
  LLMInterface.createFallbackCommand instruction
  = {| success := false;
       actions := [apology];
       reasoning := VStr "指示が不明確です";
       originalInput := instruction;
       fallback := true;
       error := Some "指示を理解できませんでした" |}.
Proof.
  unfold unrecognized, vocabulary. cbn [forallb]. intro H.
  repeat match type of H with
         | (_ && _)%bool = true => apply andb_prop in H; destruct H as [?H H]
         end.
  repeat match goal with
         | K : negb _ = true |- _ => apply negb_true_iff in K
         end.
  unfold LLMInterface.createFallbackCommand.
  repeat match goal with
         | K : includes _ _ = false |- _ => rewrite K; clear K
         end.
  reflexivity.
Qed.

(** The apology is a chat action that succeeds exactly when the bot is
    alive. *)
Lemma executeTask_apology (env : Environment) (s : TaskExecutor.t) :
  TaskExecutor.executeTask env apology s
  = (Ret (MinecraftBot.isAlive (TaskExecutor.bot s)), s,
     if MinecraftBot.isAlive (TaskExecutor.bot s)
     then [Chat (VStr "すみません、指示を理解できませんでした")] else []).
Proof.
  destruct s as [[[w |] connected] queue latch history];
    unfold TaskExecutor.executeTask, bind, gets, MinecraftBot.isAlive; simpl;
    [| reflexivity].
  destruct connected; simpl; [| reflexivity].
  destruct (0 <? health w); reflexivity.
Qed.

(** C6 as stated fails: for ["何か叫んで"], which no keyword matches, the
    fallback plan holds one action, which [executeCommand] dispatches, and
    the command succeeds. *)
Lemma unrecognized_instruction_is_dispatched :
  let s := idle (connected (session (at_ 10 64 20) [])) in
  let r := run offline "何か叫んで" s in
  unrecognized "何か叫んで" = true
  /\ List.length (actions (LLMInterface.createFallbackCommand "何か叫んで"))
     = 1%nat
  /\ result r = Ret true
  /\ dispatched (trace r) = [apology].
Proof. intros s r. repeat split; vm_compute; reflexivity. Qed.

(** C6, amended. For an instruction matched by none of the keywords of the
    fallback parser, with the call to the language model failing, the
    fallback produces a plan of exactly one action, a chat message saying
    that the instruction was not understood (the plan is marked
    [success: false]).  [executeCommand] dispatches that one action and
    returns [true] if the bot is alive, so that the message is sent, and
    [false] otherwise. *)
Theorem unrecognized_instruction_apologizes (env : Environment)
    (now : TaskExecutor.t -> string) (instruction : string)
    (s : TaskExecutor.t) (gs : GameState) (e : string) :
  unrecognized instruction = true ->
  TaskExecutor.isExecuting s = false ->
  MinecraftBot.getGameState (TaskExecutor.bot s) = Some gs ->
  llm_reply env instruction gs = Throw e ->
  let r := TaskExecutor.executeCommand env (TaskExecutor.llm_of env) now
             instruction s in
  let alive :=
    MinecraftBot.isAlive
      (final (LLMInterface.analyzeTask env instruction gs
                (TaskExecutor.bot s))) in
  actions (LLMInterface.createFallbackCommand instruction) = [apology]
  /\ success (LLMInterface.createFallbackCommand instruction) = false
  /\ dispatched (trace r) = [apology]
  /\ result r = Ret alive
  /\ trace r
     = Ask instruction :: Dispatch apology ::
         (if alive
          then [Chat (VStr "すみません、指示を理解できませんでした")]
          else [])
         ++ [Completed alive].
Proof.
  intros Hunk Hidle Hgs Hreply r alive.
  pose proof (createFallbackCommand_unrecognized instruction Hunk) as Hplan.
  assert (Hrun :
    r = (Ret alive,
         TaskExecutor.set_isExecuting false
           (TaskExecutor.push_history
              {| TaskExecutor.input := instruction;
                 TaskExecutor.tasks := [apology];
                 TaskExecutor.successCount := if alive then 1 else 0;
                 TaskExecutor.timestamp :=
                   now (TaskExecutor.set_bot
                          (final (LLMInterface.analyzeTask env instruction gs
                                    (TaskExecutor.bot s)))
                          (TaskExecutor.set_isExecuting true s)) |}
              (TaskExecutor.set_bot
                 (final (LLMInterface.analyzeTask env instruction gs
                           (TaskExecutor.bot s)))
                 (TaskExecutor.set_isExecuting true s))),
         Ask instruction :: Dispatch apology ::
           (if alive
            then [Chat (VStr "すみません、指示を理解できませんでした")]
            else [])
           ++ [Completed alive])).
  { subst r.
    rewrite (executeCommand_idle_run env (TaskExecutor.llm_of env) now
               instruction s Hidle).
    unfold TaskExecutor.executeCommand_body, bind at 1, modify at 1.
    unfold bind at 1, gets at 1.
    cbn [TaskExecutor.bot TaskExecutor.set_isExecuting]. rewrite Hgs.
    unfold bind at 1, TaskExecutor.on_bot at 1, zoom at 1,
      TaskExecutor.llm_of at 1.
    cbn [TaskExecutor.bot TaskExecutor.set_isExecuting].
    unfold bind at 1.
    rewrite (parseCommand_falls_back env instruction gs (TaskExecutor.bot s)
               e Hreply).
    unfold ret at 1. rewrite Hplan. cbn [actions List.length Z.of_nat].
    cbn [Z.eqb Pos.of_succ_nat]. unfold bind at 1.
    cbn [TaskExecutor.dispatch]. unfold bind at 1, emit at 1.
    unfold bind at 1. rewrite executeTask_apology.
    cbn [TaskExecutor.bot TaskExecutor.set_bot]. fold alive.
    unfold bind, emit, ret, gets, modify. simpl.
    destruct alive; reflexivity. }
  rewrite Hrun, Hplan. unfold result, trace; simpl.
  repeat split. destruct alive; reflexivity.
Qed.

Lemma unrecognized_instruction_apologizes_witness :
  let s := idle (connected (session (at_ 10 64 20) [])) in
  let r := run offline "何か叫んで" s in
  unrecognized "何か叫んで" = true
  /\ dispatched (trace r) = [apology]
  /\ result r = Ret true.
Proof.
  intros s r.
  destruct (unrecognized_instruction_apologizes offline clock "何か叫んで" s
              {| position := at_ 10 64 20; gs_health := 20; gs_food := 20;
                 inventory := []; nearbyBlocks := []; nearbyEntities := [];
                 time := 1000; weather := "clear" |}
              "Connection error.")
    as (_ & _ & Hd & Hr & _).
  - vm_compute. reflexivity.
  - reflexivity.
  - vm_compute. reflexivity.
  - reflexivity.
  - split; [vm_compute; reflexivity |]. split; [exact Hd | exact Hr].
Defined.

(** ** Collecting items *)




(** ** The model at work *)

(** The scenario of the specification: ["前に3歩歩いて"] with the language
    model out of reach.  The fallback parser extracts the distance 3 and
    plans one relative move of 3 blocks along x, which the pipeline turns
    into a walk to (13, 64, 20). *)
Example fallback_walks_three_blocks :
  actions (LLMInterface.createFallbackCommand "前に3歩歩いて")
  = [LLMInterface.mkAction "moveRelative"
       [("x", num 3); ("y", num 0); ("z", num 0)]]
  /\ trace (run offline "前に3歩歩いて"
              (idle (connected (session (at_ 10 64 20) []))))
     = [Ask "前に3歩歩いて";
        Dispatch (LLMInterface.mkAction "moveRelative"
                    [("x", num 3); ("y", num 0); ("z", num 0)]);
        SetGoal (Some (GoalBlock (Int 13) (Int 64) (Int 20)));
        AwaitGoal 30000 true;
        Completed true].
Proof. split; vm_compute; reflexivity. Qed.

Example fallback_without_a_number_walks_one_block :
  actions (LLMInterface.createFallbackCommand "前に進んで")
  = [LLMInterface.mkAction "moveRelative"
       [("x", num 1); ("y", num 0); ("z", num 0)]].
Proof. vm_compute. reflexivity. Qed.

Example fallback_matches_mine_in_any_case :
  actions (LLMInterface.createFallbackCommand "MINE some stone")
  = [LLMInterface.mkAction "mine"
       [("blockType", VStr "any"); ("amount", num 1)]].
Proof. vm_compute. reflexivity. Qed.

Example parseDirection_left :
  LLMInterface.parseDirection (VStr "to the LEFT") (num 4)
  = Ret (VObj [("x", num 0); ("y", num 0); ("z", num (-4))]).
Proof. vm_compute. reflexivity. Qed.

Example parseDirection_of_a_number_throws :
  LLMInterface.parseDirection (num 90) (num 4)
  = Throw "direction.toLowerCase is not a function".
Proof. reflexivity. Qed.

(** A task of unknown type is dropped, the others are kept in order. *)
Example unknown_task_types_are_dropped :
  LLMInterface.convertTasksToActions
    (VArr [VObj [("type", VStr "dance")];
           VObj [("type", VStr "chat"); ("target", VStr "hi")];
           VObj [("type", VStr "move");
                 ("target", VObj [("x", num 1); ("z", num 2)])]])
  = Ret [LLMInterface.mkAction "chat" [("message", VStr "hi")];
         LLMInterface.mkAction "move"
           [("x", num 1); ("y", num 64); ("z", num 2)]].
Proof. vm_compute. reflexivity. Qed.

(** A timed out walk clears the goal and fails; the next action still
    runs. *)
Example timed_out_move_does_not_stop_the_plan :
  let move := LLMInterface.mkAction "move"
                [("x", num 0); ("y", num 64); ("z", num 0)] in
  let r := TaskExecutor.executeCommand (stuck (Ret VNull))
             (planned [move; chat_action "hello"]) clock "go and greet"
             (idle (connected (session (at_ 10 64 20) []))) in
  result r = Ret true
  /\ trace r
     = [Dispatch move;
        SetGoal (Some (GoalBlock (Int 0) (Int 64) (Int 0)));
        AwaitGoal 30000 false;
        SetGoal None;
        Completed false;
        Wait 1000;
        Dispatch (chat_action "hello");
        Chat (VStr "hello");
        Completed true].
Proof. intros move r. split; vm_compute; reflexivity. Qed.

(** Without a connection there is no game state and nothing is parsed. *)
Example not_connected_returns_false :
  run offline "前に3歩歩いて" (idle never_connected)
  = (Ret false, idle never_connected, []).
Proof. reflexivity. Qed.

Example getExecutionHistory_keeps_the_last_entries :
  let entry (n : Z) :=
    {| TaskExecutor.input := "go"; TaskExecutor.tasks := [];
       TaskExecutor.successCount := n;
       TaskExecutor.timestamp := "2025-01-01T00:00:00.000Z" |} in
  let s := {| TaskExecutor.bot := never_connected;
              TaskExecutor.taskQueue := [];
              TaskExecutor.isExecuting := false;
              TaskExecutor.executionHistory :=
                [entry 1; entry 2; entry 3] |} in
  TaskExecutor.getExecutionHistory 2 s = [entry 2; entry 3]
  /\ TaskExecutor.getExecutionHistory 10 s = [entry 1; entry 2; entry 3]
  /\ TaskExecutor.getExecutionHistory 0 s = [entry 1; entry 2; entry 3].
Proof. intros entry s. repeat split. Qed.

End Properties.

(* ================================================================== *)
(** * Further properties of the three classes *)

Module Extras.

Import Spec EffFacts Facts Scenario Observe.

(** ** Dispatch of one action *)

(** X1. [executeTask] never rejects: whatever the action and its
    parameters (missing ones included), it resolves to a boolean, leaves
    the executor's queue, latch and history as they are, and emits events
    of the bot only. *)
Theorem executeTask_always_resolves (env : Environment) (task : Action)
    (s : TaskExecutor.t) :
  let r := TaskExecutor.executeTask env task s in
  (exists ok, result r = Ret ok)
  /\ TaskExecutor.taskQueue (final r) = TaskExecutor.taskQueue s
  /\ TaskExecutor.isExecuting (final r) = TaskExecutor.isExecuting s
  /\ TaskExecutor.executionHistory (final r) = TaskExecutor.executionHistory s
  /\ executor_view (trace r) = [].
Proof.
  intro r. subst r.
  destruct (executeTask_handler_level env task s) as [(Hq & Hl & Hh) Ht].
  split; [apply executeTask_returns |].
  repeat split; try assumption.
  apply executor_view_bot. exact Ht.
Qed.

Lemma not_in_cons {A} (x a : A) (l : list A) :
  ~ In x (a :: l) -> x <> a /\ ~ In x l.
Proof. intro H. split; intro K; apply H; [left; auto | right; exact K]. Qed.

(** X2. An action whose kind has no implementation (the kinds [place] and
    [craft], the kinds [stop] and [look] that the check of
    [executeCommand] lets pass, any unknown kind) fails without a call to
    the bot: [executeTask] resolves to [false], emits nothing and changes
    nothing. *)
Theorem unimplemented_kinds_fail_silently (env : Environment)
    (task : Action) (s : TaskExecutor.t) :
  ~ In (action task) implemented ->
  TaskExecutor.executeTask env task s = (Ret false, s, []).
Proof.
  unfold implemented. intro H.
  repeat (apply not_in_cons in H; destruct H as [?Hk H]).
  repeat match goal with
         | K : action task <> _ |- _ => apply String.eqb_neq in K
         end.
  unfold TaskExecutor.executeTask, bind, gets.
  destruct (MinecraftBot.isAlive (TaskExecutor.bot s)); simpl;
    [| reflexivity].
  unfold try_catch. rewrite Hk, Hk0, Hk1, Hk2, Hk3.
  unfold TaskExecutor.executePlace, TaskExecutor.executeCraft.
  repeat match goal with
         | |- context [if ?c then _ else _] => destruct c
         end; reflexivity.
Qed.

Lemma unimplemented_kinds_fail_silently_witness :
  let s := idle (connected (session (at_ 10 64 20) [])) in
  TaskExecutor.executeTask offline
    {| action := "look"; params := VObj [("yaw", num 90)];
       parameters := VUndef |} s
  = (Ret false, s, []).
Proof.
  intro s. apply unimplemented_kinds_fail_silently.
  simpl. intros [H | [H | [H | [H | [H | H]]]]];
    try discriminate; exact H.
Defined.

Lemma set_bot_same (s : TaskExecutor.t) :
  TaskExecutor.set_bot (TaskExecutor.bot s) s = s.
Proof. destruct s; reflexivity. Qed.

(** X3. A move needs three numbers: when [x], [y] or [z] of the parameters
    is missing or is not a number, [executeMove] and [executeMoveRelative]
    resolve to [false] without a call to the bot; when the parameters
    themselves are missing, [executeTask] catches the [TypeError] and
    resolves to [false]. *)
Theorem move_needs_three_numbers (env : Environment)
    (fields : list (string * value)) (s : TaskExecutor.t) :
  typeof_number (lookup "x" fields) && typeof_number (lookup "y" fields)
    && typeof_number (lookup "z" fields) = false ->
  TaskExecutor.executeMove env (VObj fields) s = (Ret false, s, [])
  /\ TaskExecutor.executeMoveRelative env (VObj fields) s = (Ret false, s, [])
  /\ (forall kind,
        In kind ["move"; "moveRelative"] ->
        TaskExecutor.executeTask env
          {| action := kind; params := VUndef; parameters := VUndef |} s
        = (Ret false, s, [])).
Proof.
  intro H.
  unfold TaskExecutor.executeMove, TaskExecutor.executeMoveRelative, bind,
    lift_outcome. simpl.
  split; [| split].
  - destruct (lookup "x" fields), (lookup "y" fields), (lookup "z" fields);
      try reflexivity; discriminate.
  - destruct (lookup "x" fields), (lookup "y" fields), (lookup "z" fields);
      try reflexivity; discriminate.
  - intros kind [Hk | [Hk | []]]; subst kind;
      unfold TaskExecutor.executeTask, bind, gets;
      destruct (MinecraftBot.isAlive (TaskExecutor.bot s)); reflexivity.
Qed.

Lemma move_needs_three_numbers_witness :
  let s := idle (connected (session (at_ 10 64 20) [])) in
  TaskExecutor.executeMove offline
    (VObj [("x", num 1); ("y", VStr "64"); ("z", num 2)]) s
  = (Ret false, s, []).
Proof.
  intro s.
  apply (move_needs_three_numbers offline
           [("x", num 1); ("y", VStr "64"); ("z", num 2)] s).
  reflexivity.
Defined.

(** X4. [executeChat] sends the message once, as it is, and succeeds,
    provided the message is truthy and the bot is connected; an empty or
    missing message is refused without a call to the bot, and without a
    connection the call throws. *)
Theorem chat_sends_the_message_once (fields : list (string * value))
    (s : TaskExecutor.t) :
  let message := lookup "message" fields in
  let r := TaskExecutor.executeChat (VObj fields) s in
  (truthy message = false -> r = (Ret false, s, []))
  /\ (truthy message = true ->
      MinecraftBot.unavailable (TaskExecutor.bot s) = false ->
      r = (Ret true, s, [Chat message]))
  /\ (truthy message = true ->
      MinecraftBot.unavailable (TaskExecutor.bot s) = true ->
      r = (Throw MinecraftBot.not_connected, s, [])).
Proof.
  intros message r. subst message r.
  unfold TaskExecutor.executeChat, bind, lift_outcome. simpl.
  split; [| split].
  - intro H. rewrite H. reflexivity.
  - intros H Hb. rewrite H. simpl.
    unfold TaskExecutor.on_bot, zoom, MinecraftBot.sendChat, bind, gets, emit.
    rewrite Hb. simpl. rewrite set_bot_same. reflexivity.
  - intros H Hb. rewrite H. simpl.
    unfold TaskExecutor.on_bot, zoom, MinecraftBot.sendChat, bind, gets,
      throw.
    rewrite Hb. simpl. rewrite set_bot_same. reflexivity.
Qed.

Lemma chat_sends_the_message_once_witness :
  let s := idle (connected (session (at_ 10 64 20) [])) in
  TaskExecutor.executeChat (VObj [("message", VStr "hello")]) s
  = (Ret true, s, [Chat (VStr "hello")]).
Proof.
  intro s.
  destruct (chat_sends_the_message_once [("message", VStr "hello")] s)
    as (_ & H & _).
  apply H; reflexivity.
Defined.

(** ** The bot control layer *)

(** X5. Without a connection ([this.bot] is [null] or [isConnected] is
    false) there is no game state, the bot is not alive, and
    [moveToPosition], [mineBlock], [collectItems] and [sendChat] throw
    before doing anything.  Conversely a bot that is alive is connected
    and has a game state. *)
Theorem connection_guards (env : Environment) (b : MinecraftBot.t) :
  (MinecraftBot.unavailable b = true <-> MinecraftBot.getGameState b = None)
  /\ (MinecraftBot.isAlive b = true -> MinecraftBot.unavailable b = false)
  /\ (MinecraftBot.unavailable b = true ->
      (forall x y z,
         MinecraftBot.moveToPosition env x y z b
         = (Throw MinecraftBot.not_connected, b, []))
      /\ (forall blockType,
            MinecraftBot.mineBlock env blockType b
            = (Throw MinecraftBot.not_connected, b, []))
      /\ (forall itemType amount,
            MinecraftBot.collectItems env itemType amount b
            = (Throw MinecraftBot.not_connected, b, []))
      /\ (forall message,
            MinecraftBot.sendChat message b
            = (Throw MinecraftBot.not_connected, b, []))).
Proof.
  split; [| split].
  - unfold MinecraftBot.unavailable, MinecraftBot.getGameState.
    destruct (MinecraftBot.bot b) as [w |]; [| tauto].
    destruct (MinecraftBot.isConnected b); simpl; split; intro H;
      (discriminate H || reflexivity).
  - unfold MinecraftBot.unavailable, MinecraftBot.isAlive.
    destruct (MinecraftBot.bot b) as [w |]; [| discriminate].
    destruct (MinecraftBot.isConnected b); simpl; intro H;
      (discriminate H || reflexivity).
  - intro H.
    unfold MinecraftBot.moveToPosition, MinecraftBot.mineBlock,
      MinecraftBot.collectItems, MinecraftBot.sendChat, bind, gets, throw.
    rewrite H. repeat split.
Qed.

Lemma connection_guards_witness :
  MinecraftBot.moveToPosition offline (Int 0) (Int 64) (Int 0)
    never_connected
  = (Throw MinecraftBot.not_connected, never_connected, []).
Proof.
  destruct (connection_guards offline never_connected) as (_ & _ & H).
  destruct (H eq_refl) as (Hmove & _). apply Hmove.
Defined.

(** X6. On a connected bot [moveToPosition] sets the goal, waits for at
    most 30 s and resolves to [true] exactly when the goal was reached in
    time; after a timeout it clears the goal, so that none is pending. *)
Theorem moveToPosition_reaches_or_clears (env : Environment)
    (x y z : number) (b : MinecraftBot.t) (w : Mineflayer) :
  MinecraftBot.bot b = Some w ->
  MinecraftBot.isConnected b = true ->
  let goal := Some (GoalBlock x y z) in
  let reached := fst (await_goal env 30000 (setGoal goal w)) in
  let r := MinecraftBot.moveToPosition env x y z b in
  result r = Ret reached
  /\ trace r
     = SetGoal goal :: AwaitGoal 30000 reached ::
         (if reached then [] else [SetGoal None])
  /\ (reached = false ->
      exists w', MinecraftBot.bot (final r) = Some w'
                 /\ pathfinder_goal w' = None).
Proof.
  intros Hw Hc goal reached r. subst goal reached r.
  unfold MinecraftBot.moveToPosition, bind, gets, MinecraftBot.unavailable,
    MinecraftBot.pathfinder_setGoal, MinecraftBot.goal_reached_within.
  rewrite Hw, Hc. simpl. rewrite Hw. simpl.
  destruct (await_goal env 30000 (setGoal (Some (GoalBlock x y z)) w))
    as [[|] [w' lost]]; simpl.
  - split; [reflexivity |]. split; [reflexivity |]. discriminate.
  - split; [reflexivity |]. split; [reflexivity |].
    intros _. eexists. split; reflexivity.
Qed.

Lemma moveToPosition_reaches_or_clears_witness :
  let b := connected (session (at_ 10 64 20) []) in
  result (MinecraftBot.moveToPosition (stuck (Ret VNull))
            (Int 0) (Int 64) (Int 0) b) = Ret false.
Proof.
  intro b.
  destruct (moveToPosition_reaches_or_clears (stuck (Ret VNull))
              (Int 0) (Int 64) (Int 0) b (session (at_ 10 64 20) [])
              eq_refl eq_refl) as (H & _).
  exact H.
Defined.

Lemma digs_app (a b : list Event) : digs (a ++ b) = digs a + digs b.
Proof.
  induction a as [| e a IH]; [reflexivity |].
  destruct e; cbn [digs app]; rewrite ?IH; lia.
Qed.

Lemma goals_app (a b : list Event) : goals (a ++ b) = goals a + goals b.
Proof.
  induction a as [| e a IH]; [reflexivity |].
  destruct e as [| | | [g |] | | | | |]; cbn [goals app]; rewrite ?IH; lia.
Qed.

(** The loop of [mineBlock]: at most one call of [bot.dig] per block, and
    one that resolved when a block counts as broken.  The loop ends with a
    [TypeError] when [bot.dig] rejects with [undefined] or [null]. *)
Lemma mine_each_digs (env : Environment) (blocks : list Vec3) :
  forall b,
    let r := MinecraftBot.mine_each env blocks b in
    ((exists ok, result r = Ret ok)
     \/ (exists reason target w,
           result r = Throw (cannot_read reason "message")
           /\ fst (await_dig env target w) = ThrowNullish reason))
    /\ 0 <= digs (trace r) <= Z.of_nat (List.length blocks)
    /\ goals (trace r) <= Z.of_nat (List.length blocks)
    /\ (result r = Ret true -> 1 <= digs (trace r)).
Proof.
  induction blocks as [| blockPos rest IH]; intro b.
  - simpl. split; [left; exists false; reflexivity |].
    repeat split; try lia. discriminate.
  - cbn [MinecraftBot.mine_each]. cbv zeta.
    set (attempt :=
      try_catch
        (bind (MinecraftBot.world (fun w => blockAt w blockPos))
           (fun targetBlock =>
              bind (MinecraftBot.pathfinder_setGoal
                      (Some (GoalLookAtBlock blockPos)))
                (fun _ =>
                   bind (MinecraftBot.goal_reached_within env 5000)
                     (fun _ =>
                        bind (MinecraftBot.dig env targetBlock)
                          (fun _ => ret true)))))
        (fun _ => ret false)).
    unfold bind.
    assert (Hattempt :
      exists o b1 t1,
        attempt b = (o, b1, t1)
        /\ 0 <= digs t1 <= 1 /\ goals t1 <= 1
        /\ match o with
           | Ret broken => broken = true -> digs t1 = 1
           | Throw e =>
               exists reason target w,
                 e = cannot_read reason "message"
                 /\ fst (await_dig env target w) = ThrowNullish reason
           | ThrowNullish _ => False
           end).
    { subst attempt.
      unfold try_catch, bind, MinecraftBot.world,
        MinecraftBot.pathfinder_setGoal, MinecraftBot.goal_reached_within,
        MinecraftBot.dig, ret.
      destruct b as [[w |] isConnected]; simpl.
      - match goal with
        | |- context [await_goal env 5000 ?w0] =>
            destruct (await_goal env 5000 w0) as [reached [w1 lost1]]
        end; simpl.
        match goal with
        | |- context [await_dig env ?t0 ?w0] =>
            destruct (await_dig env t0 w0) as [[[] | e | v] [w2 lost2]]
              eqn:Hdig
        end; simpl;
          do 3 eexists; (split; [reflexivity |]);
          (split; [cbn [digs]; lia |]); (split; [cbn [goals]; lia |]);
          try reflexivity; try discriminate.
        do 3 eexists. split; [reflexivity |]. rewrite Hdig. reflexivity.
      - do 3 eexists. split; [reflexivity |].
        repeat split; simpl; try lia; discriminate. }
    destruct Hattempt as (o & b1 & t1 & Heq & Hd & Hg & Ho).
    rewrite Heq. destruct o as [[|] | e | v]; [| | | contradiction].
    + unfold ret, result, trace. simpl. rewrite ?app_nil_r.
      split; [left; exists true; reflexivity |].
      specialize (Ho eq_refl).
      repeat split; try lia.
    + destruct (IH b1) as (Hok & Hd2 & Hg2 & Ht2).
      unfold result, trace in *.
      destruct (MinecraftBot.mine_each env rest b1) as [[r2 b2] t2].
      simpl in *. rewrite digs_app, goals_app.
      split; [exact Hok |].
      repeat split; try lia. intro H. specialize (Ht2 H). lia.
    + unfold result, trace. simpl.
      destruct Ho as (reason & target & w & He & Hdig). subst e.
      split.
      { right. exists reason, target, w. split; [reflexivity | exact Hdig]. }
      repeat split; try lia. discriminate.
Qed.



Lemma goals_walked (tr : list Event) :
  goals tr = Z.of_nat (List.length (walked tr)).
Proof.
  induction tr as [| e tr IH]; [reflexivity |].
  destruct e as [| | | [g |] | | | | |]; cbn [goals walked List.length];
    rewrite ?IH; lia.
Qed.



(** ** The snapshot of the game state *)

Lemma fold_left_invariant {A B} (P : A -> Prop) (f : A -> B -> A)
    (l : list B) :
  forall a,
    P a -> (forall a x, In x l -> P a -> P (f a x)) -> P (fold_left f l a).
Proof.
  induction l as [| x l IH]; intros a Ha Hf; simpl; [exact Ha |].
  apply IH.
  - apply Hf; [left; reflexivity | exact Ha].
  - intros a' x' Hx. apply Hf. right. exact Hx.
Qed.

Lemma in_range (lo hi x : Z) : In x (MinecraftBot.range lo hi) -> lo <= x <= hi.
Proof.
  unfold MinecraftBot.range. intro H. apply in_map_iff in H.
  destruct H as (i & Hi & Hin). apply in_seq in Hin. lia.
Qed.

Lemma Forall_firstn {A} (P : A -> Prop) (n : nat) (l : list A) :
  Forall P l -> Forall P (firstn n l).
Proof.
  intro H. rewrite <- (firstn_skipn n l) in H.
  apply Forall_app in H. tauto.
Qed.

(** X9. [getNearbyBlocks] lists at most 50 blocks and never lists air:
    each entry is a block of the world found at an offset of at most
    [radius] along x and z and at most 2 along y from the bot. *)
Theorem getNearbyBlocks_is_bounded (radius : Z) (b : MinecraftBot.t)
    (w : Mineflayer) :
  MinecraftBot.bot b = Some w ->
  let blocks := MinecraftBot.getNearbyBlocks radius b in
  (List.length blocks <= 50)%nat
  /\ Forall
       (fun nb =>
          nb_name nb <> "air"
          /\ exists dx dy dz block,
               - radius <= dx <= radius /\ -2 <= dy <= 2
               /\ - radius <= dz <= radius
               /\ blockAt w (offset (entity_position (entity w)) dx dy dz)
                  = Some block
               /\ nb_name nb = block_name block
               /\ nb_position nb = block_position block)
       blocks.
Proof.
  intros Hw blocks. subst blocks. unfold MinecraftBot.getNearbyBlocks.
  rewrite Hw. cbv zeta.
  apply (fold_left_invariant
           (fun blocks : list NearbyBlock =>
              (List.length blocks <= 50)%nat /\ Forall _ blocks)).
  { split; [simpl; lia | constructor]. }
  intros acc x Hx Hacc.
  destruct (Z.of_nat (List.length acc) <? 50) eqn:Hroom; [| exact Hacc].
  apply fold_left_invariant; [exact Hacc |].
  clear acc Hacc Hroom. intros acc y Hy Hacc.
  destruct (Z.of_nat (List.length acc) <? 50) eqn:Hroom; [| exact Hacc].
  apply fold_left_invariant; [exact Hacc |].
  clear acc Hacc Hroom. intros acc z Hz Hacc.
  destruct (Z.of_nat (List.length acc) <? 50) eqn:Hroom; [| exact Hacc].
  destruct (blockAt w (offset (entity_position (entity w)) x y z))
    as [block |] eqn:Hblock; [| exact Hacc].
  destruct (block_name block =? "air")%string eqn:Hair; [exact Hacc |].
  cbn [negb]. destruct Hacc as [Hlen Hall]. apply Z.ltb_lt in Hroom. split.
  - rewrite length_app. simpl. lia.
  - apply Forall_app. split; [exact Hall |]. constructor; [| constructor].
    cbn [nb_name nb_position]. split.
    + apply String.eqb_neq. exact Hair.
    + exists x, y, z, block.
      apply in_range in Hx. apply in_range in Hy. apply in_range in Hz.
      repeat split; try lia. exact Hblock.
Qed.

Lemma getNearbyBlocks_is_bounded_witness :
  (List.length (MinecraftBot.getNearbyBlocks 5
                  (connected (session (at_ 10 64 20) []))) <= 50)%nat.
Proof.
  destruct (getNearbyBlocks_is_bounded 5
              (connected (session (at_ 10 64 20) []))
              (session (at_ 10 64 20) []) eq_refl) as [H _].
  exact H.
Defined.



(** ** History and status *)

(** X11. [getExecutionHistory(limit)] with a positive limit returns the
    last entries of the history, [limit] of them or all when there are
    fewer, in their order.  With the limit 0 it returns the whole history,
    since [slice(-0)] is [slice(0)]. *)
Theorem getExecutionHistory_returns_the_last_entries (limit : Z)
    (s : TaskExecutor.t) :
  let history := TaskExecutor.executionHistory s in
  let recent := TaskExecutor.getExecutionHistory limit s in
  (0 < limit ->
   is_suffix recent history
   /\ Z.of_nat (List.length recent)
      = Z.min limit (Z.of_nat (List.length history)))
  /\ (limit = 0 -> recent = history).
Proof.
  intros history recent. subst history recent.
  unfold TaskExecutor.getExecutionHistory, TaskExecutor.slice.
  set (h := TaskExecutor.executionHistory s). split.
  - intro Hpos.
    assert (Hneg : (- limit <? 0) = true) by (apply Z.ltb_lt; lia).
    rewrite Hneg. split.
    + eexists. symmetry. apply firstn_skipn.
    + rewrite length_skipn. lia.
  - intro Hzero. subst limit. cbn [Z.opp Z.ltb Z.compare].
    rewrite Z.min_l by lia. reflexivity.
Qed.

Lemma getExecutionHistory_returns_the_last_entries_witness :
  let entry (n : Z) :=
    {| TaskExecutor.input := "go"; TaskExecutor.tasks := [];
       TaskExecutor.successCount := n;
       TaskExecutor.timestamp := "2025-01-01T00:00:00.000Z" |} in
  let s := {| TaskExecutor.bot := never_connected;
              TaskExecutor.taskQueue := [];
              TaskExecutor.isExecuting := false;
              TaskExecutor.executionHistory :=
                [entry 1; entry 2; entry 3] |} in
  Z.of_nat (List.length (TaskExecutor.getExecutionHistory 2 s)) = 2.
Proof.
  intros entry s.
  destruct (getExecutionHistory_returns_the_last_entries 2 s) as [H _].
  destruct H as [_ H]; [lia | exact H].
Defined.

(** X12. Whatever the input and the state, a call of [executeCommand]
    leaves [taskQueue] as it is (nothing is ever queued) and only appends
    to the history, at most one entry; so in [getStatus] the queue length
    is unchanged and the history count grows by at most one. *)
Theorem executeCommand_queues_nothing (env : Environment)
    (llm : string -> GameState -> MinecraftBot.M (option ParsedCommand))
    (now : TaskExecutor.t -> string) (userInput : string)
    (s : TaskExecutor.t) :
  let s' := final (TaskExecutor.executeCommand env llm now userInput s) in
  TaskExecutor.taskQueue s' = TaskExecutor.taskQueue s
  /\ TaskExecutor.queueLength (TaskExecutor.getStatus s')
     = TaskExecutor.queueLength (TaskExecutor.getStatus s)
  /\ (exists added,
        TaskExecutor.executionHistory s'
        = TaskExecutor.executionHistory s ++ added
        /\ (List.length added <= 1)%nat)
  /\ TaskExecutor.historyCount (TaskExecutor.getStatus s)
     <= TaskExecutor.historyCount (TaskExecutor.getStatus s')
     <= TaskExecutor.historyCount (TaskExecutor.getStatus s) + 1.
Proof.
  intro s'.
  assert (H : TaskExecutor.taskQueue s' = TaskExecutor.taskQueue s
              /\ exists added,
                   TaskExecutor.executionHistory s'
                   = TaskExecutor.executionHistory s ++ added
                   /\ (List.length added <= 1)%nat).
  { subst s'. destruct (TaskExecutor.isExecuting s) eqn:Hlatch.
    - rewrite (executeCommand_busy_run env llm now userInput s Hlatch).
      split; [reflexivity |]. exists []. rewrite app_nil_r. split; auto.
    - rewrite (executeCommand_idle_run env llm now userInput s Hlatch).
      destruct (MinecraftBot.getGameState (TaskExecutor.bot s))
        as [gs |] eqn:Hgs.
      + destruct (llm userInput gs (TaskExecutor.bot s))
          as [[[[pc |] | e | v] b'] tr] eqn:Hllm.
        * destruct (actions pc) as [| a plan] eqn:Hplan.
          -- rewrite (body_no_plan env llm now userInput s gs (Some pc) b' tr
                        Hgs Hllm Hplan).
             split; [reflexivity |]. exists []. rewrite app_nil_r.
             split; auto.
          -- assert (Hne : actions pc <> [])
               by (rewrite Hplan; discriminate).
             rewrite (body_plan env llm now userInput s gs pc b' tr
                        Hgs Hllm Hne).
             destruct (in_sequence_facts env (actions pc)
                         (TaskExecutor.set_bot b'
                            (TaskExecutor.set_isExecuting true s)))
               as (_ & _ & _ & _ & (Hq & _ & Hh)).
             unfold final; simpl.
             split; [exact Hq |]. eexists. rewrite Hh.
             split; [reflexivity | simpl; lia].
        * rewrite (body_no_plan env llm now userInput s gs None b' tr
                     Hgs Hllm I).
          split; [reflexivity |]. exists []. rewrite app_nil_r. split; auto.
        * rewrite (body_parse_throws env llm now userInput s gs e b' tr
                     Hgs Hllm).
          split; [reflexivity |]. exists []. rewrite app_nil_r. split; auto.
        * rewrite (body_parse_rejects env llm now userInput s gs v b' tr
                     Hgs Hllm).
          split; [reflexivity |]. exists []. rewrite app_nil_r. split; auto.
      + rewrite (body_no_state env llm now userInput s Hgs).
        split; [reflexivity |]. exists []. rewrite app_nil_r. split; auto. }
  destruct H as (Hq & added & Hh & Hlen).
  unfold TaskExecutor.getStatus; cbn [TaskExecutor.queueLength
                                       TaskExecutor.historyCount].
  split; [exact Hq |]. split; [rewrite Hq; reflexivity |].
  split; [exists added; split; assumption |].
  rewrite Hh, length_app. lia.
Qed.

(** ** From the reply of the model to actions *)

Lemma parseDirection_object (direction distance v : value) :
  LLMInterface.parseDirection direction distance = Ret v ->
  exists fields, v = VObj fields.
Proof.
  unfold LLMInterface.parseDirection, LLMInterface.obj.
  destruct direction; try discriminate.
  repeat match goal with
         | |- context [if ?c then _ else _] => destruct c
         end;
    intro H; injection H as H; subst v; eexists; reflexivity.
Qed.

Lemma convertTask_shape (task : value) (pushed : list Action) :
  LLMInterface.convertTask task = Ret pushed ->
  (List.length pushed <= 1)%nat /\ Forall well_formed_action pushed.
Proof.
  unfold LLMInterface.convertTask, LLMInterface.and_then.
  destruct (get "type" task) as [type | e | v]; try discriminate.
  destruct (get "target" task) as [target | e | v]; try discriminate.
  destruct (get "details" task) as [details | e | v]; try discriminate.
  assert (Hnone : Ret (A := list Action) [] = Ret pushed ->
                  (List.length pushed <= 1)%nat
                  /\ Forall well_formed_action pushed).
  { intro H. injection H as H. subst pushed.
    split; [simpl; lia | constructor]. }
  assert (Hone : forall kind fields,
            In kind dispatchable ->
            Ret [LLMInterface.mkAction kind fields] = Ret pushed ->
            (List.length pushed <= 1)%nat
            /\ Forall well_formed_action pushed).
  { intros kind fields Hk H. injection H as H. subst pushed.
    split; [simpl; lia |]. constructor; [| constructor].
    split; [exact Hk |]. split; [eexists; reflexivity | reflexivity]. }
  destruct type as [| | | | kind | |]; try exact Hnone.
  repeat match goal with
         | |- context [match ?x with _ => _ end] =>
             match type of x with
             | string => destruct x
             | ascii => destruct x
             | bool => destruct x
             end
         end;
    try exact Hnone;
    try (apply Hone; unfold dispatchable; simpl; tauto).
  all: try (destruct (get "x" target) as [x | e | v]; cbv iota beta;
            [destruct (negb (is_undefined x)) | discriminate | discriminate]).
  all: try (apply Hone; unfold dispatchable; simpl; tauto).
  all: destruct (LLMInterface.parseDirection
                   (get_opt "direction" details)
                   (or_else (get_opt "distance" details) (num 1)))
         as [direction | e | v] eqn:Hd; try discriminate.
  all: intro H; injection H as H; subst pushed;
    (split; [simpl; lia |]); (constructor; [| constructor]);
    (split; [unfold dispatchable; simpl; tauto |]);
    (split; [| reflexivity]);
    cbn [params]; eapply parseDirection_object; exact Hd.
Qed.

Lemma convertTasks_shape (tasks : list value) :
  forall acc acts,
    LLMInterface.convertTasks tasks acc = Ret acts ->
    Forall well_formed_action acc ->
    (List.length acts <= List.length acc + List.length tasks)%nat
    /\ Forall well_formed_action acts.
Proof.
  induction tasks as [| task rest IH]; intros acc acts H Hacc.
  - simpl in H. injection H as H. subst acts. split; [simpl; lia | exact Hacc].
  - cbn [LLMInterface.convertTasks] in H. unfold LLMInterface.and_then in H.
    destruct (LLMInterface.convertTask task) as [pushed | e | v] eqn:Hp;
      try discriminate.
    destruct (convertTask_shape task pushed Hp) as [Hlen Hwf].
    destruct (IH (acc ++ pushed) acts H) as [Hl Hall].
    { apply Forall_app. split; assumption. }
    rewrite length_app in Hl. split; [simpl; lia | exact Hall].
Qed.

(** X13. When [convertTasksToActions] returns for an array of tasks, it
    has produced at most one action per task, in order, and every action
    has a kind for which [executeTask] has a case (move, moveRelative,
    mine, collect, chat, place, craft) and an object of parameters: tasks
    of an unknown type are dropped. *)
Theorem converted_actions_are_dispatchable (tasks : list value)
    (acts : list Action) :
  LLMInterface.convertTasksToActions (VArr tasks) = Ret acts ->
  (List.length acts <= List.length tasks)%nat
  /\ Forall well_formed_action acts.
Proof.
  unfold LLMInterface.convertTasksToActions, LLMInterface.and_then.
  cbn [LLMInterface.iterate]. intro H.
  destruct (convertTasks_shape tasks [] acts H) as [Hl Hall];
    [constructor |].
  split; [simpl in Hl; lia | exact Hall].
Qed.

Lemma converted_actions_are_dispatchable_witness :
  let tasks := [VObj [("type", VStr "dance")];
                VObj [("type", VStr "chat"); ("target", VStr "hi")]] in
  (List.length [LLMInterface.mkAction "chat" [("message", VStr "hi")]]
   <= List.length tasks)%nat.
Proof.
  intro tasks.
  destruct (converted_actions_are_dispatchable tasks
              [LLMInterface.mkAction "chat" [("message", VStr "hi")]])
    as [H _]; [vm_compute; reflexivity | exact H].
Defined.

(** X14. An absolute move keeps the x and z of the target and its y,
    except that a missing y and the height 0 both become 64, since the
    default is applied with [||]. *)
Theorem absolute_move_defaults_height (x z : Z) (height : option Z) :
  let target :=
    VObj (("x", num x) ::
          match height with
          | Some y => [("y", num y)]
          | None => []
          end ++ [("z", num z)]) in
  LLMInterface.convertTask (VObj [("type", VStr "move"); ("target", target)])
  = Ret [LLMInterface.mkAction "move"
           [("x", num x);
            ("y", match height with
                  | Some y => if y =? 0 then num 64 else num y
                  | None => num 64
                  end);
            ("z", num z)]].
Proof.
  destruct height as [y |]; simpl.
  - unfold LLMInterface.convertTask, LLMInterface.and_then, or_else. simpl.
    destruct (y =? 0); reflexivity.
  - reflexivity.
Qed.



(** ** Letter case *)

Lemma lower_ascii_idempotent (c : ascii) :
  lower_ascii (lower_ascii c) = lower_ascii c.
Proof.
  destruct c as [[|] [|] [|] [|] [|] [|] [|] [|]]; vm_compute; reflexivity.
Qed.

Lemma toLowerCase_idempotent (s : string) :
  toLowerCase (toLowerCase s) = toLowerCase s.
Proof.
  induction s as [| c s IH]; [reflexivity |].
  simpl. rewrite lower_ascii_idempotent, IH. reflexivity.
Qed.

Lemma lower_ascii_digit (c : ascii) :
  is_digit (lower_ascii c) = is_digit c
  /\ (is_digit c = true -> lower_ascii c = c).
Proof.
  destruct c as [[|] [|] [|] [|] [|] [|] [|] [|]]; vm_compute;
    split; (reflexivity || discriminate).
Qed.

Lemma digit_runs_lower (s : string) :
  forall run, digit_runs (toLowerCase s) run = digit_runs s run.
Proof.
  induction s as [| c s IH]; intro run; [reflexivity |].
  cbn [toLowerCase digit_runs].
  destruct (lower_ascii_digit c) as [Hd Hsame]. rewrite Hd.
  destruct (is_digit c).
  - rewrite (Hsame eq_refl). apply IH.
  - rewrite IH. reflexivity.
Qed.

(** X16. Letter case does not matter: [parseDirection] returns the same
    move for a direction and for its lower-case form, and the fallback
    parser plans the same actions, with the same reasoning, for an
    instruction and for its lower-case form. *)
Theorem parsing_ignores_letter_case (text : string) (distance : value) :
  LLMInterface.parseDirection (VStr (toLowerCase text)) distance
  = LLMInterface.parseDirection (VStr text) distance
  /\ actions (LLMInterface.createFallbackCommand (toLowerCase text))
     = actions (LLMInterface.createFallbackCommand text)
  /\ reasoning (LLMInterface.createFallbackCommand (toLowerCase text))
     = reasoning (LLMInterface.createFallbackCommand text).
Proof.
  split; [| split].
  - unfold LLMInterface.parseDirection.
    rewrite toLowerCase_idempotent. reflexivity.
  - unfold LLMInterface.createFallbackCommand, match_digits.
    rewrite toLowerCase_idempotent, digit_runs_lower.
    repeat match goal with
           | |- context [if ?c then _ else _] => destruct c
           end; reflexivity.
  - unfold LLMInterface.createFallbackCommand, match_digits.
    rewrite toLowerCase_idempotent, digit_runs_lower.
    repeat match goal with
           | |- context [if ?c then _ else _] => destruct c
           end; reflexivity.
Qed.

(** ** The distance of the fallback move *)

Lemma digits_value_nonneg (s : string) :
  forall acc, all_digits s = true -> 0 <= acc -> 0 <= digits_value s acc.
Proof.
  induction s as [| c s IH]; intros acc Hs Hacc; [exact Hacc |].
  cbn [all_digits] in Hs. apply andb_prop in Hs. destruct Hs as [Hc Hs].
  cbn [digits_value]. apply IH; [exact Hs |].
  unfold is_digit in Hc. cbv zeta in Hc.
  apply andb_prop in Hc. destruct Hc as [Hlo _].
  apply Z.leb_le in Hlo. unfold digit_value. lia.
Qed.

Lemma all_digits_app (a b : string) :
  all_digits a = true -> all_digits b = true ->
  all_digits (a ++ b) = true.
Proof.
  induction a as [| c a IH]; intros Ha Hb; [exact Hb |].
  simpl in *. apply andb_prop in Ha. destruct Ha as [Hc Ha].
  rewrite Hc. simpl. apply IH; assumption.
Qed.

Lemma append_not_empty (a : string) (c : ascii) :
  (a ++ String c EmptyString)%string <> EmptyString.
Proof. destruct a; discriminate. Qed.

(** Every run found by [/\d+/g] is a non-empty string of digits. *)
Lemma digit_runs_digits (s : string) :
  forall run,
    all_digits run = true ->
    Forall (fun r => all_digits r = true /\ r <> EmptyString)
      (digit_runs s run).
Proof.
  induction s as [| c s IH]; intros run Hrun.
  - simpl. destruct (String.eqb_spec run EmptyString) as [He | Hne].
    + constructor.
    + constructor; [split; assumption | constructor].
  - cbn [digit_runs]. destruct (is_digit c) eqn:Hc.
    + apply IH. apply all_digits_app; [exact Hrun |].
      simpl. rewrite Hc. reflexivity.
    + apply Forall_app. split; [| apply IH; reflexivity].
      destruct (String.eqb_spec run EmptyString) as [He | Hne].
      * constructor.
      * constructor; [split; assumption | constructor].
Qed.

Lemma leading_digits_all (s : string) :
  all_digits s = true -> leading_digits s = s.
Proof.
  induction s as [| c s IH]; intro H; [reflexivity |].
  simpl in *. apply andb_prop in H. destruct H as [Hc Hs].
  rewrite Hc, (IH Hs). reflexivity.
Qed.

Lemma digit_not_space (c : ascii) : is_digit c = true -> is_space c = false.
Proof.
  unfold is_digit, is_space. cbv zeta. intro H. apply andb_prop in H.
  destruct H as [Hlo Hhi]. apply Z.leb_le in Hlo. apply Z.leb_le in Hhi.
  apply orb_false_iff. split.
  - apply andb_false_iff. right. apply Z.leb_gt. lia.
  - apply Z.eqb_neq. lia.
Qed.

Lemma parseInt_digits (s : string) :
  all_digits s = true -> s <> EmptyString ->
  parseInt s = Int (digits_value s 0) /\ 0 <= digits_value s 0.
Proof.
  intros Hall Hne. unfold parseInt.
  assert (Hdrop : drop_spaces s = s).
  { destruct s as [| c s]; [reflexivity |].
    simpl in Hall. apply andb_prop in Hall. destruct Hall as [Hc _].
    simpl. rewrite (digit_not_space c Hc). reflexivity. }
  rewrite Hdrop, (leading_digits_all s Hall).
  destruct (String.eqb_spec s EmptyString) as [He | _]; [contradiction |].
  split; [reflexivity |]. apply digits_value_nonneg; [exact Hall | lia].
Qed.

(** X17. When the instruction holds a movement word (歩, 進 or 移動), the
    fallback parser plans one relative move along x, whatever other words
    the instruction holds: forwards by the first number written in the
    instruction (read exactly when it is below 2^53), or by 1 when it holds
    no digit.  The distance is a number (never [NaN]) and is not negative,
    so the fallback never moves backwards or sideways. *)
Theorem fallback_move_is_forward (instruction : string) :
  let input := toLowerCase instruction in
  includes input "歩" || includes input "進" || includes input "移動" = true ->
  exists distance,
    0 <= distance
    /\ actions (LLMInterface.createFallbackCommand instruction)
       = [LLMInterface.mkAction "moveRelative"
            [("x", num distance); ("y", num 0); ("z", num 0)]]
    /\ success (LLMInterface.createFallbackCommand instruction) = true
    /\ (match_digits instruction = None -> distance = 1)
    /\ (forall first others,
          match_digits instruction = Some (first :: others) ->
          digits_value first 0 < 2 ^ 53 ->
          distance = digits_value first 0).
Proof.
  intros input Hmove. subst input.
  unfold LLMInterface.createFallbackCommand. rewrite Hmove.
  cbn [actions success].
  pose proof (digit_runs_digits instruction EmptyString eq_refl) as Hruns.
  unfold match_digits.
  destruct (digit_runs instruction EmptyString) as [| first others].
  - exists 1. split; [lia |]. split; [reflexivity |]. split; [reflexivity |].
    split; [reflexivity | discriminate].
  - inversion Hruns as [| ? ? [Hall Hne] _]; subst.
    destruct (parseInt_digits first Hall Hne) as [Hparse Hpos].
    exists (digits_value first 0). rewrite Hparse.
    split; [exact Hpos |]. split; [reflexivity |]. split; [reflexivity |].
    split; [discriminate |].
    intros f o H _. injection H as H _. subst f. reflexivity.
Qed.

Lemma fallback_move_is_forward_witness :
  exists distance,
    0 <= distance
    /\ actions (LLMInterface.createFallbackCommand "後ろに12歩、話して")
       = [LLMInterface.mkAction "moveRelative"
            [("x", num distance); ("y", num 0); ("z", num 0)]]
    /\ success (LLMInterface.createFallbackCommand "後ろに12歩、話して") = true
    /\ (match_digits "後ろに12歩、話して" = None -> distance = 1)
    /\ (forall first others,
          match_digits "後ろに12歩、話して" = Some (first :: others) ->
          digits_value first 0 < 2 ^ 53 ->
          distance = digits_value first 0).
Proof.
  apply (fallback_move_is_forward "後ろに12歩、話して").
  vm_compute. reflexivity.
Defined.

(** ** [parseCommand] and the pipeline behind it *)

Lemma fallback_is_marked (instruction : string) :
  fallback (LLMInterface.createFallbackCommand instruction) = true
  /\ originalInput (LLMInterface.createFallbackCommand instruction)
     = instruction.
Proof.
  unfold LLMInterface.createFallbackCommand.
  repeat match goal with
         | |- context [if ?c then _ else _] => destruct c
         end; split; reflexivity.
Qed.

(** X18. [parseCommand] never rejects and sends exactly one request to the
    language model.  It resolves either to the plan of the fallback parser
    (marked [fallback]) or, when the reply has a [tasks] value that
    converts, to a plan marked [success] holding the converted actions;
    the instruction is recorded as [originalInput] in both cases. *)
Theorem parseCommand_asks_once (env : Environment) (instruction : string)
    (context : GameState) (b : MinecraftBot.t) :
  let r := LLMInterface.parseCommand env instruction context b in
  exists plan,
    result r = Ret plan
    /\ trace r = [Ask instruction]
    /\ final r = final (LLMInterface.analyzeTask env instruction context b)
    /\ originalInput plan = instruction
    /\ (fallback plan = true ->
        plan = LLMInterface.createFallbackCommand instruction)
    /\ (fallback plan = false ->
        success plan = true
        /\ exists reply tasks,
             llm_reply env instruction context = Ret reply
             /\ get "tasks" reply = Ret tasks
             /\ LLMInterface.convertTasksToActions (or_else tasks (VArr []))
                = Ret (actions plan)).
Proof.
  intro r. subst r.
  destruct (fallback_is_marked instruction) as [Hfb Hin].
  unfold LLMInterface.parseCommand, try_catch_any, bind, lift_outcome, ret,
    LLMInterface.analyzeTask, result, trace, final.
  cbn [fst snd].
  assert (Hfallen :
    exists plan,
      Ret (LLMInterface.createFallbackCommand instruction) = Ret plan
      /\ [Ask instruction] ++ [] = [Ask instruction]
      /\ originalInput plan = instruction
      /\ (fallback plan = true ->
          plan = LLMInterface.createFallbackCommand instruction)
      /\ (fallback plan = false ->
          success plan = true
          /\ exists reply tasks,
               llm_reply env instruction context = Ret reply
               /\ get "tasks" reply = Ret tasks
               /\ LLMInterface.convertTasksToActions
                    (or_else tasks (VArr []))
                  = Ret (actions plan))).
  { eexists. split; [reflexivity |]. split; [reflexivity |].
    split; [exact Hin |]. split; [intros _; reflexivity |].
    intro H. rewrite Hfb in H. discriminate. }
  assert (Hfall :
    exists plan,
      Ret (LLMInterface.createFallbackCommand instruction) = Ret plan
      /\ [Ask instruction] ++ [] = [Ask instruction]
      /\ final (LLMInterface.analyzeTask env instruction context b)
         = final (LLMInterface.analyzeTask env instruction context b)
      /\ originalInput plan = instruction
      /\ (fallback plan = true ->
          plan = LLMInterface.createFallbackCommand instruction)
      /\ (fallback plan = false ->
          success plan = true
          /\ exists reply tasks,
               llm_reply env instruction context = Ret reply
               /\ get "tasks" reply = Ret tasks
               /\ LLMInterface.convertTasksToActions
                    (or_else tasks (VArr []))
                  = Ret (actions plan))).
  { destruct Hfallen as (plan & H1 & H2 & H3). exists plan.
    split; [exact H1 |]. split; [exact H2 |]. split; [reflexivity | exact H3]. }
  clear Hfallen.
  unfold LLMInterface.analyzeTask, final in Hfall. cbn [fst snd] in Hfall.
  destruct (llm_reply env instruction context) as [reply | e | v] eqn:Hreply;
    cbn [fst snd app]; try exact Hfall.
  destruct (get "tasks" reply) as [tasks | e | v] eqn:Htasks;
    cbn [fst snd app]; try exact Hfall.
  destruct (LLMInterface.convertTasksToActions (or_else tasks (VArr [])))
    as [acts | e | v] eqn:Hacts; cbn [fst snd app]; try exact Hfall.
  destruct (get "reasoning" reply) as [why | e | v] eqn:Hwhy;
    cbn [fst snd app]; try exact Hfall.
  eexists. cbn [fst snd app originalInput fallback success actions].
  split; [reflexivity |]. split; [reflexivity |]. split; [reflexivity |].
  split; [reflexivity |]. split; [discriminate |].
  intros _. split; [reflexivity |]. exists reply, tasks.
  repeat split; assumption.
Qed.

Lemma get_twice (k k' : string) (v r : value) :
  get k v = Ret r -> exists r', get k' v = Ret r'.
Proof.
  destruct v; try discriminate; intros _; eexists; reflexivity.
Qed.

(** X19. When the reply of the language model converts to no action at
    all (no [tasks], an empty array, or only unknown task types),
    [executeCommand] returns [false] after the one request: no action is
    dispatched and no history entry is appended. *)
Theorem empty_plan_is_not_executed (env : Environment)
    (now : TaskExecutor.t -> string) (instruction : string)
    (s : TaskExecutor.t) (gs : GameState) (reply tasks : value) :
  TaskExecutor.isExecuting s = false ->
  MinecraftBot.getGameState (TaskExecutor.bot s) = Some gs ->
  llm_reply env instruction gs = Ret reply ->
  get "tasks" reply = Ret tasks ->
  LLMInterface.convertTasksToActions (or_else tasks (VArr [])) = Ret [] ->
  let r := TaskExecutor.executeCommand env (TaskExecutor.llm_of env) now
             instruction s in
  result r = Ret false
  /\ trace r = [Ask instruction]
  /\ dispatched (trace r) = []
  /\ TaskExecutor.executionHistory (final r) = TaskExecutor.executionHistory s
  /\ TaskExecutor.isExecuting (final r) = false.
Proof.
  intros Hidle Hgs Hreply Htasks Hacts r. subst r.
  destruct (get_twice "tasks" "reasoning" reply tasks Htasks) as [why Hwhy].
  rewrite (executeCommand_idle_run env (TaskExecutor.llm_of env) now
             instruction s Hidle).
  erewrite (body_no_plan env (TaskExecutor.llm_of env) now instruction s gs
              (Some _) _ [Ask instruction] Hgs).
  - unfold result, trace, final. cbn [fst snd]. repeat split.
  - unfold TaskExecutor.llm_of, LLMInterface.parseCommand, try_catch_any,
      bind, lift_outcome, ret, LLMInterface.analyzeTask.
    rewrite Hreply. cbv beta iota. rewrite Htasks. cbv beta iota.
    rewrite Hacts. cbv beta iota. rewrite Hwhy. cbn [app]. reflexivity.
  - reflexivity.
Qed.

Lemma empty_plan_is_not_executed_witness :
  let s := idle (connected (session (at_ 10 64 20) [])) in
  let r := run (calm (Ret (VObj [("reasoning", VStr "nothing to do")])))
             "じっとして" s in
  result r = Ret false /\ trace r = [Ask "じっとして"].
Proof.
  intros s r.
  destruct (empty_plan_is_not_executed
              (calm (Ret (VObj [("reasoning", VStr "nothing to do")])))
              clock "じっとして" s
              {| position := at_ 10 64 20; gs_health := 20; gs_food := 20;
                 inventory := []; nearbyBlocks := []; nearbyEntities := [];
                 time := 1000; weather := "clear" |}
              (VObj [("reasoning", VStr "nothing to do")]) VUndef)
    as (Hr & Ht & _).
  - reflexivity.
  - vm_compute. reflexivity.
  - reflexivity.
  - reflexivity.
  - reflexivity.
  - split; [exact Hr | exact Ht].
Defined.

(** X20. After [disconnect] there is no game state and the bot is not
    alive; [disconnect] is idempotent.  A command given to an idle
    executor whose bot is disconnected returns [false] at once: the
    language model is not asked, nothing is dispatched, and the history
    is unchanged. *)
Theorem disconnected_executor_fails_fast (env : Environment)
    (llm : string -> GameState -> MinecraftBot.M (option ParsedCommand))
    (now : TaskExecutor.t -> string) (userInput : string)
    (s : TaskExecutor.t) :
  TaskExecutor.isExecuting s = false ->
  let gone := MinecraftBot.disconnect (TaskExecutor.bot s) in
  let s0 := TaskExecutor.set_bot gone s in
  let r := TaskExecutor.executeCommand env llm now userInput s0 in
  MinecraftBot.getGameState gone = None
  /\ MinecraftBot.isAlive gone = false
  /\ MinecraftBot.disconnect gone = gone
  /\ r = (Ret false, s0, []).
Proof.
  intros Hidle gone s0 r. subst gone s0 r.
  destruct s as [[[w |] c] queue latch history]; simpl in Hidle; subst latch;
    cbn [TaskExecutor.bot MinecraftBot.disconnect MinecraftBot.bot].
  - repeat split.
  - assert (Hgs : MinecraftBot.getGameState
                    {| MinecraftBot.bot := None;
                       MinecraftBot.isConnected := c |} = None)
      by reflexivity.
    split; [exact Hgs |]. repeat split.
Qed.

Lemma disconnected_executor_fails_fast_witness :
  let s := idle (connected (session (at_ 10 64 20) [])) in
  let s0 := TaskExecutor.set_bot
              (MinecraftBot.disconnect (TaskExecutor.bot s)) s in
  run offline "前に3歩歩いて" s0 = (Ret false, s0, []).
Proof.
  intros s s0.
  destruct (disconnected_executor_fails_fast offline
              (TaskExecutor.llm_of offline) clock "前に3歩歩いて" s eq_refl)
    as (_ & _ & _ & H).
  exact H.
Defined.

(** ** The text of the reply *)

Lemma upto_last_brace_none (s : string) :
  Reply.upto_last_brace s = None <-> lacks Reply.close_brace s = true.
Proof.
  induction s as [| c s IH]; [split; reflexivity |].
  cbn [Reply.upto_last_brace lacks].
  destruct (Reply.upto_last_brace s) as [p |].
  - split; [discriminate |]. intro H. apply andb_prop in H.
    destruct H as [_ H]. apply IH in H. discriminate.
  - destruct (Ascii.eqb c Reply.close_brace); simpl.
    + split; discriminate.
    + split; intros _; [apply IH |]; reflexivity.
Qed.

Lemma upto_last_brace_complete (mid post : string) :
  lacks Reply.close_brace post = true ->
  Reply.upto_last_brace (mid ++ String Reply.close_brace post)
  = Some (mid ++ String Reply.close_brace EmptyString)%string.
Proof.
  intro Hpost. induction mid as [| c mid IH].
  - cbn [append Reply.upto_last_brace].
    apply upto_last_brace_none in Hpost. rewrite Hpost.
    rewrite Ascii.eqb_refl. reflexivity.
  - cbn [append Reply.upto_last_brace]. rewrite IH. reflexivity.
Qed.

Lemma upto_last_brace_sound (s p : string) :
  Reply.upto_last_brace s = Some p ->
  exists mid post,
    p = (mid ++ String Reply.close_brace EmptyString)%string
    /\ s = (mid ++ String Reply.close_brace post)%string
    /\ lacks Reply.close_brace post = true.
Proof.
  revert p. induction s as [| c s IH]; intros p H; [discriminate |].
  cbn [Reply.upto_last_brace] in H.
  destruct (Reply.upto_last_brace s) as [p' |] eqn:Hs.
  - injection H as H. subst p.
    destruct (IH p' eq_refl) as (mid & post & Hp & Hss & Hpost).
    exists (String c mid), post. subst p' s. repeat split. exact Hpost.
  - destruct (Ascii.eqb_spec c Reply.close_brace) as [Hc | Hc];
      [| discriminate].
    injection H as H. subst p c.
    exists EmptyString, s. repeat split.
    apply upto_last_brace_none. exact Hs.
Qed.

Lemma match_braces_needs_a_closing_brace (s : string) :
  lacks Reply.close_brace s = true -> Reply.match_braces s = None.
Proof.
  induction s as [| c s IH]; intro H; [reflexivity |].
  cbn [lacks] in H. apply andb_prop in H. destruct H as [_ H].
  cbn [Reply.match_braces].
  pose proof (proj2 (upto_last_brace_none s) H) as Hnone. rewrite Hnone.
  rewrite (IH H). destruct (Ascii.eqb c Reply.open_brace); reflexivity.
Qed.

(** What [match_braces] returns spans the text from the first opening to
    the last closing brace. *)
Lemma match_braces_sound (content m : string) :
  Reply.match_braces content = Some m ->
  exists pre mid post,
    content
    = (pre ++ String Reply.open_brace
                (mid ++ String Reply.close_brace post))%string
    /\ m = String Reply.open_brace
             (mid ++ String Reply.close_brace EmptyString)
    /\ lacks Reply.open_brace pre = true
    /\ lacks Reply.close_brace post = true.
Proof.
  revert m. induction content as [| c s IH]; intros m H; [discriminate |].
  cbn [Reply.match_braces] in H.
  destruct (Ascii.eqb_spec c Reply.open_brace) as [Hc | Hc].
  - destruct (Reply.upto_last_brace s) as [p |] eqn:Hs.
    + injection H as H. subst m c.
      destruct (upto_last_brace_sound s p Hs)
        as (mid & post & Hp & Hss & Hpost).
      exists EmptyString, mid, post. subst p s. repeat split. exact Hpost.
    + apply upto_last_brace_none in Hs.
      rewrite (match_braces_needs_a_closing_brace s Hs) in H. discriminate.
  - destruct (IH m H) as (pre & mid & post & Hs & Hm & Hpre & Hpost).
    exists (String c pre), mid, post. subst s m.
    split; [reflexivity |]. split; [reflexivity |]. split; [| exact Hpost].
    cbn [lacks]. rewrite Hpre.
    destruct (Ascii.eqb_spec c Reply.open_brace); [contradiction |].
    reflexivity.
Qed.

Lemma match_braces_complete (pre mid post : string) :
  lacks Reply.open_brace pre = true ->
  lacks Reply.close_brace post = true ->
  Reply.match_braces
    (pre ++ String Reply.open_brace (mid ++ String Reply.close_brace post))
  = Some (String Reply.open_brace
            (mid ++ String Reply.close_brace EmptyString)).
Proof.
  intros Hpre Hpost. induction pre as [| c pre IH].
  - cbn [append Reply.match_braces]. rewrite Ascii.eqb_refl.
    rewrite (upto_last_brace_complete mid post Hpost). reflexivity.
  - cbn [lacks] in Hpre. apply andb_prop in Hpre.
    destruct Hpre as [Hc Hpre]. apply negb_true_iff in Hc.
    cbn [append Reply.match_braces]. rewrite Hc. apply IH. exact Hpre.
Qed.

(** X21. The regular expression [/\{[\s\S]*\}/] used on the reply matches
    from the first opening brace to the last closing brace: the match is
    [m] exactly when the text is some [pre], then [m], then some [post],
    where [m] begins with an opening and ends with a closing brace, [pre]
    holds no opening brace and [post] no closing brace. *)
Theorem match_braces_spans_first_to_last (content m : string) :
  Reply.match_braces content = Some m
  <-> exists pre mid post,
        content
        = (pre ++ String Reply.open_brace
                    (mid ++ String Reply.close_brace post))%string
        /\ m = String Reply.open_brace
                 (mid ++ String Reply.close_brace EmptyString)
        /\ lacks Reply.open_brace pre = true
        /\ lacks Reply.close_brace post = true.
Proof.
  split; [apply match_braces_sound |].
  intros (pre & mid & post & Hc & Hm & Hpre & Hpost). subst content m.
  apply match_braces_complete; assumption.
Qed.

Lemma match_braces_spans_first_to_last_witness :
  Reply.match_braces "plan: {a{b}c} done" = Some "{a{b}c}".
Proof.
  apply (match_braces_spans_first_to_last "plan: {a{b}c} done" "{a{b}c}").
  exists "plan: ", "a{b}c", " done". repeat split.
Defined.

(** X22. A reply that is not JSON as a whole but holds a JSON object
    inside prose, with no opening brace before the object and no closing
    brace after it, is parsed as that object; a reply that parses as a
    whole is taken as it is; and a reply that does neither, having no
    brace pair, makes [analyzeTask] throw. *)
Theorem reply_in_prose_is_parsed (JSON_parse : string -> outcome value)
    (pre mid post : string) :
  let object :=
    String Reply.open_brace (mid ++ String Reply.close_brace EmptyString) in
  let content :=
    (pre ++ String Reply.open_brace
              (mid ++ String Reply.close_brace post))%string in
  lacks Reply.open_brace pre = true ->
  lacks Reply.close_brace post = true ->
  (forall parsed,
     JSON_parse content = Ret parsed ->
     Reply.parseContent JSON_parse content = Ret parsed)
  /\ ((forall parsed, JSON_parse content <> Ret parsed) ->
      Reply.parseContent JSON_parse content = JSON_parse object)
  /\ (forall text,
        (forall parsed, JSON_parse text <> Ret parsed) ->
        lacks Reply.close_brace text = true ->
        Reply.parseContent JSON_parse text
        = Throw "Failed to parse LLM response as JSON").
Proof.
  intros object content Hpre Hpost. subst object content.
  unfold Reply.parseContent. split; [| split].
  - intros parsed H. rewrite H. reflexivity.
  - intros H.
    rewrite (match_braces_complete pre mid post Hpre Hpost).
    destruct (JSON_parse _) as [parsed | e | v] eqn:Hparse at 1;
      [destruct (H parsed Hparse) | reflexivity | reflexivity].
  - intros text H Hno.
    rewrite (match_braces_needs_a_closing_brace text Hno).
    destruct (JSON_parse text) as [parsed | e | v] eqn:Hparse;
      [destruct (H parsed eq_refl) | reflexivity | reflexivity].
Qed.

Lemma reply_in_prose_is_parsed_witness :
  Reply.parseContent parse_empty_plan
    ("Here is the plan: " ++ empty_plan_text ++ " Good luck!")
  = Ret (VObj [("tasks", VArr [])]).
Proof.
  destruct (reply_in_prose_is_parsed parse_empty_plan "Here is the plan: "
              (quote ++ "tasks" ++ quote ++ ":[]") " Good luck!"
              eq_refl eq_refl) as (_ & H & _).
  apply H. intros parsed. discriminate.
Defined.

(** X23. [extractJSON] of the earlier [LLMInterface] returns a value only
    when the text between the first opening and the last closing brace
    parses to a value whose [tasks] is an array; in every other case,
    the [SyntaxError]s of [JSON.parse] included, it returns [null]. *)
Theorem extractJSON_accepts_task_lists_only
    (JSON_parse : string -> outcome value) (content : string) :
  (forall v,
     Reply.extractJSON JSON_parse content = Ret (Some v)
     <-> exists m items,
           Reply.match_braces content = Some m
           /\ JSON_parse m = Ret v
           /\ get "tasks" v = Ret (VArr items))
  /\ ((forall text reason, JSON_parse text <> ThrowNullish reason) ->
      (forall v, Reply.extractJSON JSON_parse content <> Ret (Some v)) ->
      Reply.extractJSON JSON_parse content = Ret None).
Proof.
  unfold Reply.extractJSON, LLMInterface.and_then. split.
  - intro v. split.
    + destruct (Reply.match_braces content) as [m |]; [| discriminate].
      destruct (JSON_parse m) as [parsed | e | r] eqn:Hparse;
        try discriminate.
      destruct (get "tasks" parsed) as [tasks | e | r] eqn:Htasks;
        try discriminate.
      destruct tasks; cbn [Reply.isArray truthy andb];
        rewrite ?andb_false_r; try discriminate.
      intro H. injection H as H. subst v.
      exists m, items. repeat split; assumption.
    + intros (m & items & Hm & Hparse & Htasks).
      rewrite Hm, Hparse, Htasks. reflexivity.
  - intros Herrors Hnone.
    destruct (Reply.match_braces content) as [m |]; [| reflexivity].
    pose proof (Herrors m) as Hm.
    destruct (JSON_parse m) as [parsed | e | r];
      [| reflexivity | destruct (Hm r); reflexivity].
    pose proof (get_errors_only "tasks" parsed) as Hget.
    destruct (get "tasks" parsed) as [tasks | e | r];
      [| reflexivity | destruct (Hget r); reflexivity].
    destruct (truthy tasks && Reply.isArray tasks); [| reflexivity].
    destruct (Hnone parsed). reflexivity.
Qed.

Lemma extractJSON_accepts_task_lists_only_witness :
  Reply.extractJSON parse_empty_plan ("ok " ++ empty_plan_text)
  = Ret (Some (VObj [("tasks", VArr [])])).
Proof.
  destruct (extractJSON_accepts_task_lists_only parse_empty_plan
              ("ok " ++ empty_plan_text)) as [H _].
  apply (H (VObj [("tasks", VArr [])])).
  exists empty_plan_text, []. repeat split.
Defined.

(** ** The console and the advice *)

Section Agent.
Variable env : Environment.
Variable llm : string -> GameState -> MinecraftBot.M (option ParsedCommand).
Variable now : TaskExecutor.t -> string.
Variable shutdown : TaskExecutor.M unit.

(** X24. The words [status], [help], [clear] and [history], typed in any
    letter case, are answered by the console itself: the executor is left
    as it is, the language model is not asked and nothing is
    dispatched. *)
Theorem console_words_stay_local (input : string) (s : TaskExecutor.t) :
  In (toLowerCase input) ["status"; "help"; "clear"; "history"] ->
  Console.handleUserInput env llm now shutdown input s = (Ret tt, s, []).
Proof.
  intro H. unfold Console.handleUserInput. cbv zeta.
  destruct H as [H | [H | [H | [H | []]]]]; rewrite <- H; reflexivity.
Qed.

End Agent.

Lemma console_words_stay_local_witness :
  let s := busy (connected (session (at_ 10 64 20) [])) in
  Console.handleUserInput offline (TaskExecutor.llm_of offline) clock
    (ret tt) "Status" s
  = (Ret tt, s, []).
Proof.
  intro s. apply console_words_stay_local. vm_compute. tauto.
Defined.

Lemma parseCommand_run (env : Environment) (instruction : string)
    (context : GameState) (b : MinecraftBot.t) :
  exists plan,
    LLMInterface.parseCommand env instruction context b
    = (Ret plan, final (LLMInterface.analyzeTask env instruction context b),
       [Ask instruction]).
Proof.
  unfold LLMInterface.parseCommand, try_catch_any, bind, lift_outcome, ret,
    LLMInterface.analyzeTask, final.
  cbn [fst snd].
  destruct (llm_reply env instruction context) as [reply | e | v];
    try (eexists; reflexivity).
  destruct (get "tasks" reply) as [tasks | e | v];
    try (eexists; reflexivity).
  destruct (LLMInterface.convertTasksToActions (or_else tasks (VArr [])))
    as [acts | e | v]; try (eexists; reflexivity).
  destruct (get "reasoning" reply) as [why | e | v]; eexists; reflexivity.
Qed.

(** A command that passes the busy guard with a game state at hand begins
    with the request to the language model. *)
Lemma accepted_command_asks_first (env : Environment)
    (now : TaskExecutor.t -> string) (instruction : string)
    (s : TaskExecutor.t) (gs : GameState) :
  TaskExecutor.isExecuting s = false ->
  MinecraftBot.getGameState (TaskExecutor.bot s) = Some gs ->
  exists rest,
    trace (TaskExecutor.executeCommand env (TaskExecutor.llm_of env) now
             instruction s)
    = Ask instruction :: rest.
Proof.
  intros Hidle Hgs.
  rewrite (executeCommand_idle_run env (TaskExecutor.llm_of env) now
             instruction s Hidle).
  destruct (parseCommand_run env instruction gs (TaskExecutor.bot s))
    as [plan Hplan].
  assert (Hllm :
    TaskExecutor.llm_of env instruction gs (TaskExecutor.bot s)
    = (Ret (Some plan),
       final (LLMInterface.analyzeTask env instruction gs
                (TaskExecutor.bot s)),
       [Ask instruction])).
  { unfold TaskExecutor.llm_of, bind. rewrite Hplan. reflexivity. }
  destruct (actions plan) as [| a acts] eqn:Hacts.
  - rewrite (body_no_plan env (TaskExecutor.llm_of env) now instruction s gs
               (Some plan) _ _ Hgs Hllm Hacts).
    exists []. reflexivity.
  - assert (Hne : actions plan <> []) by (rewrite Hacts; discriminate).
    rewrite (body_plan env (TaskExecutor.llm_of env) now instruction s gs
               plan _ _ Hgs Hllm Hne).
    eexists. reflexivity.
Qed.

Lemma getGameState_setGoal (g : option Goal) (w : Mineflayer) (c : bool) :
  MinecraftBot.getGameState
    {| MinecraftBot.bot := Some (setGoal g w); MinecraftBot.isConnected := c |}
  = MinecraftBot.getGameState
      {| MinecraftBot.bot := Some w; MinecraftBot.isConnected := c |}.
Proof.
  unfold MinecraftBot.getGameState, MinecraftBot.getInventoryItems,
    MinecraftBot.getNearbyBlocks, MinecraftBot.getNearbyEntities, setGoal.
  cbn [MinecraftBot.bot MinecraftBot.isConnected entity health food
         inventory_items entities blockAt findBlocks timeOfDay isRaining].
  reflexivity.
Qed.

Lemma getGameState_after_emergencyStop (s : TaskExecutor.t) :
  MinecraftBot.getGameState
    (TaskExecutor.bot (final (TaskExecutor.emergencyStop s)))
  = MinecraftBot.getGameState (TaskExecutor.bot s).
Proof.
  destruct s as [[[w |] c] queue latch history].
  - change (TaskExecutor.bot
              (final (TaskExecutor.emergencyStop
                        {| TaskExecutor.bot :=
                             {| MinecraftBot.bot := Some w;
                                MinecraftBot.isConnected := c |};
                           TaskExecutor.taskQueue := queue;
                           TaskExecutor.isExecuting := latch;
                           TaskExecutor.executionHistory := history |})))
      with {| MinecraftBot.bot := Some (setGoal None w);
              MinecraftBot.isConnected := c |}.
    cbn [TaskExecutor.bot]. apply getGameState_setGoal.
  - reflexivity.
Qed.

(** X25. The word [stop], in any letter case, runs the emergency stop:
    the latch is dropped, the pathfinder goal is cleared, and the history
    and the game state are untouched.  So the next instruction is taken
    up, with a request to the language model, even when the command that
    was running has not returned: the stop lifts the single-flight
    guard. *)
Theorem stop_lets_the_next_command_in (env : Environment)
    (now : TaskExecutor.t -> string) (shutdown : TaskExecutor.M unit)
    (word instruction : string) (s : TaskExecutor.t) (gs : GameState) :
  toLowerCase word = "stop" ->
  ~ In (toLowerCase instruction) reserved_words ->
  MinecraftBot.getGameState (TaskExecutor.bot s) = Some gs ->
  let handle :=
    Console.handleUserInput env (TaskExecutor.llm_of env) now shutdown in
  let stopped := final (handle word s) in
  result (handle word s) = Ret tt
  /\ TaskExecutor.isExecuting stopped = false
  /\ TaskExecutor.executionHistory stopped = TaskExecutor.executionHistory s
  /\ no_pending_goal stopped
  /\ MinecraftBot.getGameState (TaskExecutor.bot stopped) = Some gs
  /\ exists rest, trace (handle instruction stopped) = Ask instruction :: rest.
Proof.
  intros Hstop Hfree Hgs handle stopped.
  assert (Hrun : handle word s
                 = (Ret tt, final (TaskExecutor.emergencyStop s),
                    trace (TaskExecutor.emergencyStop s))).
  { subst handle. unfold Console.handleUserInput. cbv zeta. rewrite Hstop.
    cbn [String.eqb Ascii.eqb Bool.eqb orb]. unfold try_catch.
    destruct s as [[[w |] c] queue latch history]; reflexivity. }
  assert (Hstopped : stopped = final (TaskExecutor.emergencyStop s)).
  { subst stopped. rewrite Hrun. reflexivity. }
  rewrite Hrun, Hstopped. clear Hrun Hstopped stopped.
  split; [reflexivity |].
  split; [destruct s as [[[w |] c] queue latch history]; reflexivity |].
  split; [destruct s as [[[w |] c] queue latch history]; reflexivity |].
  split; [destruct s as [[[w |] c] queue latch history]; reflexivity |].
  split; [rewrite getGameState_after_emergencyStop; exact Hgs |].
  set (s1 := final (TaskExecutor.emergencyStop s)).
  assert (Hidle : TaskExecutor.isExecuting s1 = false)
    by (subst s1; destruct s as [[[w |] c] queue latch history]; reflexivity).
  assert (Hgs1 : MinecraftBot.getGameState (TaskExecutor.bot s1) = Some gs)
    by (subst s1; rewrite getGameState_after_emergencyStop; exact Hgs).
  destruct (accepted_command_asks_first env now instruction s1 gs Hidle Hgs1)
    as [rest Hrest].
  unfold reserved_words in Hfree.
  repeat (apply not_in_cons in Hfree; destruct Hfree as [?Hw Hfree]).
  repeat match goal with
         | K : toLowerCase instruction <> _ |- _ =>
             apply String.eqb_neq in K
         end.
  subst handle. unfold Console.handleUserInput. cbv zeta.
  rewrite Hw, Hw0, Hw1, Hw2, Hw3, Hw4, Hw5. cbn [orb].
  unfold try_catch, bind, trace in *.
  destruct (TaskExecutor.executeCommand env (TaskExecutor.llm_of env) now
              instruction s1) as [[[ok | e | v] s2] t2]; cbn [snd] in *;
    subst t2; exists rest; cbn [ret app]; rewrite ?app_nil_r; reflexivity.
Qed.

Lemma stop_lets_the_next_command_in_witness :
  let s := busy (connected (session (at_ 10 64 20) [])) in
  let handle :=
    Console.handleUserInput offline (TaskExecutor.llm_of offline) clock
      (ret tt) in
  exists rest,
    trace (handle "前に3歩歩いて" (final (handle "STOP" s)))
    = Ask "前に3歩歩いて" :: rest.
Proof.
  intros s handle.
  destruct (stop_lets_the_next_command_in offline clock (ret tt) "STOP"
              "前に3歩歩いて" s
              {| position := at_ 10 64 20; gs_health := 20; gs_food := 20;
                 inventory := []; nearbyBlocks := []; nearbyEntities := [];
                 time := 1000; weather := "clear" |})
    as (_ & _ & _ & _ & _ & H).
  - reflexivity.
  - vm_compute. intros [H | [H | [H | [H | [H | [H | [H | H]]]]]]];
      try discriminate; exact H.
  - vm_compute. reflexivity.
  - exact H.
Defined.


(** ** Rejections of [bot.dig] *)

(** With a bot object at hand, one round of the loop of [mineBlock] sets
    a goal, waits and digs once, and leaves a bot object. *)
Lemma mine_attempt_run (env : Environment) (blockPos : Vec3)
    (rest : list Vec3) (b : MinecraftBot.t) (w : Mineflayer) :
  MinecraftBot.bot b = Some w ->
  exists target w1 w2 b1 t1,
    MinecraftBot.bot b1 = Some w2
    /\ digs t1 = 1 /\ goals t1 = 1
    /\ MinecraftBot.mine_each env (blockPos :: rest) b
       = match fst (await_dig env target w1) with
         | Ret _ => (Ret true, b1, t1)
         | Throw _ =>
             let '(r, b2, t2) := MinecraftBot.mine_each env rest b1 in
             (r, b2, t1 ++ t2)
         | ThrowNullish reason =>
             (Throw (cannot_read reason "message"), b1, t1)
         end.
Proof.
  intro Hw. destruct b as [bot c]. cbn [MinecraftBot.bot] in Hw. subst bot.
  cbn [MinecraftBot.mine_each].
  unfold bind, try_catch, MinecraftBot.world, MinecraftBot.pathfinder_setGoal,
    MinecraftBot.goal_reached_within, MinecraftBot.dig, ret.
  cbn [MinecraftBot.bot MinecraftBot.isConnected].
  match goal with
  | |- context [await_goal env 5000 ?w0] =>
      destruct (await_goal env 5000 w0) as [reached [w1 lost1]]
  end.
  cbn [MinecraftBot.resume MinecraftBot.bot MinecraftBot.isConnected].
  destruct (await_dig env (blockAt w blockPos) w1) as [o [w2 lost2]] eqn:Hdig.
  exists (blockAt w blockPos), w1, w2,
    {| MinecraftBot.bot := Some w2;
       MinecraftBot.isConnected := (c && negb lost1) && negb lost2 |},
    [SetGoal (Some (GoalLookAtBlock blockPos)); AwaitGoal 5000 reached;
     Dig (blockAt w blockPos)].
  split; [reflexivity |]. split; [reflexivity |]. split; [reflexivity |].
  rewrite Hdig. cbn [fst].
  destruct o as [[] | e | v]; reflexivity.
Qed.

Lemma mine_each_all_rejected (env : Environment) (blocks : list Vec3) :
  (forall target w, exists e, fst (await_dig env target w) = Throw e) ->
  forall b w,
    MinecraftBot.bot b = Some w ->
    let r := MinecraftBot.mine_each env blocks b in
    result r = Ret false
    /\ digs (trace r) = Z.of_nat (List.length blocks)
    /\ goals (trace r) = Z.of_nat (List.length blocks).
Proof.
  intro Hdig. induction blocks as [| blockPos rest IH]; intros b w Hw.
  - repeat split.
  - cbv zeta.
    destruct (mine_attempt_run env blockPos rest b w Hw)
      as (target & w1 & w2 & b1 & t1 & Hb1 & Hd & Hg & Hrun).
    rewrite Hrun. destruct (Hdig target w1) as [e He]. rewrite He.
    destruct (IH b1 w2 Hb1) as (Hr & Hd2 & Hg2).
    unfold result, trace in *.
    destruct (MinecraftBot.mine_each env rest b1) as [[r2 b2] t2].
    cbn [fst snd] in *. rewrite digs_app, goals_app.
    cbn [List.length]. split; [exact Hr |]. split; lia.
Qed.

(** X27. What [mineBlock] does when [bot.dig] fails depends on what the
    promise is rejected with.  After a rejection with an [Error] the next
    block found is tried, up to three blocks, and [mineBlock] resolves to
    [false].  After a rejection with [undefined] or [null] the [catch]
    block fails reading [error.message]: [mineBlock] rejects with that
    [TypeError] after its first attempt, and [executeTask] reports the
    action as failed. *)
Theorem dig_rejections (env : Environment) (blockType : value)
    (s : TaskExecutor.t) (w : Mineflayer) :
  MinecraftBot.bot (TaskExecutor.bot s) = Some w ->
  MinecraftBot.isConnected (TaskExecutor.bot s) = true ->
  let found := findBlocks w (MinecraftBot.name_is blockType) 32 10 in
  found <> [] ->
  let r := MinecraftBot.mineBlock env blockType (TaskExecutor.bot s) in
  ((forall target w', exists e, fst (await_dig env target w') = Throw e) ->
   result r = Ret false
   /\ digs (trace r) = Z.min 3 (Z.of_nat (List.length found)))
  /\ (forall reason,
        (forall target w',
           fst (await_dig env target w') = ThrowNullish reason) ->
        result r = Throw (cannot_read reason "message")
        /\ digs (trace r) = 1
        /\ (MinecraftBot.isAlive (TaskExecutor.bot s) = true ->
            truthy blockType = true ->
            result (TaskExecutor.executeTask env
                      {| action := "mine";
                         params := VObj [("blockType", blockType)];
                         parameters := VUndef |} s)
            = Ret false)).
Proof.
  intros Hw Hc found. subst found.
  destruct (findBlocks w (MinecraftBot.name_is blockType) 32 10)
    as [| p found'] eqn:Hfound; intros Hne r; [congruence |]. clear Hne.
  set (found := p :: found') in *.
  assert (Hrun :
    r = MinecraftBot.mine_each env (firstn 3 found) (TaskExecutor.bot s)).
  { subst r. unfold MinecraftBot.mineBlock, bind, gets,
      MinecraftBot.unavailable, MinecraftBot.world.
    rewrite Hw, Hc. cbn [negb]. cbv beta iota. rewrite Hw. cbv beta iota.
    rewrite Hfound.
    assert (Hn : (Z.of_nat (List.length found) =? 0) = false).
    { apply Z.eqb_neq. subst found. simpl List.length. lia. }
    rewrite Hn.
    destruct (MinecraftBot.mine_each env (firstn 3 found) (TaskExecutor.bot s))
      as [[r2 b2] t2].
    reflexivity. }
  split.
  - intro Hdig.
    destruct (mine_each_all_rejected env (firstn 3 found) Hdig
                (TaskExecutor.bot s) w Hw) as (Hr & Hd & _).
    rewrite Hrun. split; [exact Hr |]. rewrite Hd, length_firstn. lia.
  - intros reason Hdig.
    subst found. change (firstn 3 (p :: found')) with (p :: firstn 2 found')
      in Hrun.
    destruct (mine_attempt_run env p (firstn 2 found') (TaskExecutor.bot s) w
                Hw)
      as (target & w1 & w2 & b1 & t1 & Hb1 & Hd & Hg & Hattempt).
    rewrite Hdig in Hattempt. rewrite Hattempt in Hrun.
    split; [rewrite Hrun; reflexivity |].
    split; [rewrite Hrun; exact Hd |].
    intros Halive Hblock.
    unfold TaskExecutor.executeTask, bind at 1, gets at 1.
    rewrite Halive. cbn [negb action params parameters].
    unfold try_catch, TaskExecutor.executeMine, bind, lift_outcome,
      TaskExecutor.on_bot, zoom, result. simpl.
    rewrite Hblock. cbn [negb]. fold r. rewrite Hrun. reflexivity.
Qed.

Lemma dig_rejections_witness :
  let s := idle (connected (quarry (at_ 10 64 20) (at_ 11 64 20))) in
  let mine := {| action := "mine";
                 params := VObj [("blockType", VStr "stone")];
                 parameters := VUndef |} in
  result (MinecraftBot.mineBlock (slippery Null) (VStr "stone")
            (TaskExecutor.bot s))
  = Throw "Cannot read properties of null (reading 'message')"
  /\ TaskExecutor.executeTask (slippery Null) mine s
     = (Ret false,
        TaskExecutor.set_bot
          (connected (setGoal (Some (GoalLookAtBlock (at_ 11 64 20)))
                        (quarry (at_ 10 64 20) (at_ 11 64 20)))) s,
        [SetGoal (Some (GoalLookAtBlock (at_ 11 64 20)));
         AwaitGoal 5000 true;
         Dig (Some {| block_name := "stone";
                      block_position := at_ 11 64 20 |})]).
Proof.
  intros s mine.
  destruct (dig_rejections (slippery Null) (VStr "stone") s
              (quarry (at_ 10 64 20) (at_ 11 64 20)) eq_refl eq_refl)
    as (_ & H).
  - discriminate.
  - destruct (H Null) as (Hr & _ & _); [reflexivity |].
    split; [exact Hr | reflexivity].
Defined.

End Extras.
